(** * Gemini Guardian backend: session state machine and AI-response pipeline

    A shallow embedding of the Python backend
    ([models/emergency.py], [services/gemini_service.py],
    [services/emergency_service.py], [services/session_service.py] and the
    state-changing part of the two controllers), followed by the properties
    of the specification that were checked against it.

    Conventions of the embedding.
    - A Python [str] is a [string]; every character stands for the code
      point 0..255 of the same number.
    - A Python [int] is a [Z]; a Python [float] is a binary64 value of
      [spec_float].
    - A [dict] with string keys is a [gmap string _]; the session store is a
      [gmap] from session ids to sessions.  A session object handed to a
      service is the object held by the store, so a service that mutates it
      is lifted to the store by writing the mutated record back under its id.
    - Code that can raise returns an [Outcome]; mutable state, the clock and
      the calls to the generative model are threaded explicitly. *)

From Stdlib Require Import ZArith String Ascii List Bool Lia.
From Stdlib Require Import Floats.SpecFloat.
From stdpp Require Import base option list gmap strings pretty fin_maps.

Set Warnings "-register-all".

Local Open Scope Z_scope.

(* ===================================================================== *)
(** ** Python strings *)
(* ===================================================================== *)

Module PyStr.

(** [str.isspace] and the regular expression class [\s], on the code
    points below 256. *)
Definition is_space (c : ascii) : bool :=
  let n := N_of_ascii c in
  ((9 <=? n) && (n <=? 13) || (28 <=? n) && (n <=? 32)
   || (n =? 133) || (n =? 160))%N.

(** [str.lower] on one character. *)
Definition lower_char (c : ascii) : ascii :=
  let n := N_of_ascii c in
  if ((65 <=? n) && (n <=? 90)
      || (192 <=? n) && (n <=? 222) && negb (n =? 215))%N
  then ascii_of_N (n + 32) else c.

Fixpoint lower (s : string) : string :=
  match s with
  | EmptyString => EmptyString
  | String c s' => String (lower_char c) (lower s')
  end.

Fixpoint lstrip (s : string) : string :=
  match s with
  | String c s' => if is_space c then lstrip s' else s
  | EmptyString => EmptyString
  end.

(** [rstrip]: a character is dropped when it is a space and everything
    after it has been dropped. *)
Fixpoint rstrip (s : string) : string :=
  match s with
  | EmptyString => EmptyString
  | String c s' =>
      match rstrip s' with
      | EmptyString => if is_space c then EmptyString else String c EmptyString
      | r => String c r
      end
  end.

Definition strip (s : string) : string := rstrip (lstrip s).

(** Truth value of a string: non-empty. *)
Definition truthy (s : string) : bool :=
  match s with EmptyString => false | _ => true end.

Fixpoint starts_with (p s : string) : bool :=
  match p, s with
  | EmptyString, _ => true
  | String a p', String b s' => if Ascii.eqb a b then starts_with p' s' else false
  | String _ _, EmptyString => false
  end.

(** [needle in hay]. *)
Fixpoint contains (needle hay : string) : bool :=
  starts_with needle hay ||
  match hay with
  | EmptyString => false
  | String _ hay' => contains needle hay'
  end.

(** [sep.join(parts)]. *)
Fixpoint join (sep : string) (parts : list string) : string :=
  match parts with
  | [] => EmptyString
  | [p] => p
  | p :: rest => p +:+ sep +:+ join sep rest
  end.

Definition len (s : string) : Z := Z.of_nat (String.length s).

(** [c in s] for a character. *)
Fixpoint has_char (c : ascii) (s : string) : bool :=
  match s with
  | EmptyString => false
  | String a s' => Ascii.eqb a c || has_char c s'
  end.

(** [s * n]. *)
Fixpoint repeat (s : string) (n : nat) : string :=
  match n with
  | O => EmptyString
  | S n' => s +:+ repeat s n'
  end.

(** The part of [s] before the first occurrence of [p] and the part after
    it, when [p] occurs. *)
Fixpoint split_at (p s : string) : option (string * string) :=
  if starts_with p s
  then Some (EmptyString, String.substring (String.length p)
                            (String.length s - String.length p) s)
  else match s with
       | EmptyString => None
       | String c s' =>
           match split_at p s' with
           | Some (before, after) => Some (String c before, after)
           | None => None
           end
       end.

End PyStr.

(* ===================================================================== *)
(** ** Enumerations ([models/emergency.py]) *)
(* ===================================================================== *)

Inductive EmergencyType :=
| CARDIAC_ARREST | HEART_ATTACK
| CHOKING | DROWNING | ASTHMA_ATTACK
| SEVERE_BLEEDING | FRACTURE | BURN | HEAD_INJURY
| STROKE | SEIZURE | DIABETIC_EMERGENCY | ALLERGIC_REACTION | POISONING
| UNCONSCIOUS | SHOCK | UNKNOWN.

Definition all_emergency_types : list EmergencyType :=
  [CARDIAC_ARREST; HEART_ATTACK; CHOKING; DROWNING; ASTHMA_ATTACK;
   SEVERE_BLEEDING; FRACTURE; BURN; HEAD_INJURY; STROKE; SEIZURE;
   DIABETIC_EMERGENCY; ALLERGIC_REACTION; POISONING; UNCONSCIOUS; SHOCK;
   UNKNOWN].

(** The [.value] of a member. *)
Definition emergency_type_value (t : EmergencyType) : string :=
  match t with
  | CARDIAC_ARREST => "cardiac_arrest" | HEART_ATTACK => "heart_attack"
  | CHOKING => "choking" | DROWNING => "drowning"
  | ASTHMA_ATTACK => "asthma_attack" | SEVERE_BLEEDING => "severe_bleeding"
  | FRACTURE => "fracture" | BURN => "burn" | HEAD_INJURY => "head_injury"
  | STROKE => "stroke" | SEIZURE => "seizure"
  | DIABETIC_EMERGENCY => "diabetic_emergency"
  | ALLERGIC_REACTION => "allergic_reaction" | POISONING => "poisoning"
  | UNCONSCIOUS => "unconscious" | SHOCK => "shock" | UNKNOWN => "unknown"
  end.

Inductive SeverityLevel := LOW | MODERATE | HIGH | CRITICAL | EXTREME.

Definition all_severity_levels : list SeverityLevel :=
  [LOW; MODERATE; HIGH; CRITICAL; EXTREME].

Definition severity_value (s : SeverityLevel) : Z :=
  match s with
  | LOW => 1 | MODERATE => 2 | HIGH => 3 | CRITICAL => 4 | EXTREME => 5
  end.

Inductive EmergencyStatus :=
| PENDING | ANALYZING | ACTIVE | MONITORING | RESOLVED | ESCALATED | CANCELLED.

Global Instance EmergencyType_eq_dec : EqDecision EmergencyType.
Proof. solve_decision. Defined.
Global Instance SeverityLevel_eq_dec : EqDecision SeverityLevel.
Proof. solve_decision. Defined.
Global Instance EmergencyStatus_eq_dec : EqDecision EmergencyStatus.
Proof. solve_decision. Defined.

(** The statuses the enumeration groups under "Terminal states". *)
Definition is_terminal (s : EmergencyStatus) : bool :=
  match s with
  | RESOLVED | ESCALATED | CANCELLED => true
  | _ => false
  end.

(* ===================================================================== *)
(** ** Severity heuristic ([EmergencyService.calculate_severity_score]) *)
(* ===================================================================== *)

(** The [type_severity] table; every member has an entry, so the default 3
    of [type_severity.get(emergency_type, 3)] is never used. *)
Definition type_severity (t : EmergencyType) : Z :=
  match t with
  | CARDIAC_ARREST => 5 | STROKE => 5 | DROWNING => 5
  | SEVERE_BLEEDING => 4 | CHOKING => 4 | HEAD_INJURY => 4
  | HEART_ATTACK => 4 | POISONING => 4 | ALLERGIC_REACTION => 4
  | SEIZURE => 3 | ASTHMA_ATTACK => 3 | DIABETIC_EMERGENCY => 3 | BURN => 3
  | UNCONSCIOUS => 4 | SHOCK => 4
  | FRACTURE => 2
  | UNKNOWN => 3
  end.

Definition critical_keywords : list string :=
  ["not breathing"; "no pulse"; "unconscious"; "unresponsive";
   "severe"; "massive"; "arterial"; "profuse"].

(** The [for keyword in critical_keywords] loop: the first keyword found in
    [obs_text] raises the severity once and leaves the loop. *)
Fixpoint escalate_on_keyword (keywords : list string) (obs_text : string)
    (severity : Z) : Z :=
  match keywords with
  | [] => severity
  | keyword :: rest =>
      if PyStr.contains keyword obs_text
      then Z.min 5 (severity + 1)
      else escalate_on_keyword rest obs_text severity
  end.

Definition calculate_severity_score (emergency_type : EmergencyType)
    (observations : list string) : Z :=
  let severity := type_severity emergency_type in
  let obs_text := PyStr.lower (PyStr.join " " observations) in
  escalate_on_keyword critical_keywords obs_text severity.

(* ===================================================================== *)
(** ** Python values, exceptions and the host *)
(* ===================================================================== *)

(** What [json.loads] returns, and the values the repository passes to the
    model constructors. *)
Inductive JSON :=
| JNull
| JBool (b : bool)
| JInt (z : Z)
| JFloat (f : spec_float)
| JString (s : string)
| JArray (items : list JSON)
| JObject (members : gmap string JSON).

(** [d.get(key, default)] and [d.get(key)]. *)
Definition dict_get (d : gmap string JSON) (key : string) (default : JSON) : JSON :=
  match d !! key with
  | Some v => v
  | None => default
  end.

Definition Time := Z.
Definition UUID := string.

(** The exceptions of the modelled code.  [ValueError] carries the message
    the repository gives it; [ApiError] is any [Exception] coming out of the
    generative client, with its text; the others are raised inside library
    code and carry the data their message is made of. *)
Inductive PyExc :=
| ValueError (msg : string)
| ApiError (msg : string)
| EnumValueError (cls : string) (value : JSON)
| FloatError (value : JSON)
| AttributeError (value : JSON) (attr : string)
| NoneTypeError (operation : string)
| Base64Error (data : string)
| ValidationError (model : string) (fields : list string)
| HTTPException (status_code : Z) (detail : string)
| RecursionError (msg : string).

Inductive Outcome (A : Type) :=
| Return (a : A)
| Raise (e : PyExc).
Arguments Return {A} a.
Arguments Raise {A} e.

(** What [json.loads] does with a text: it returns the decoded value, it
    raises [json.JSONDecodeError], or it raises another exception (the plain
    [ValueError] of an integer literal with more digits than [int] converts,
    [RecursionError] on a nesting that is too deep). *)
Inductive JsonOutcome :=
| JsonValue (value : JSON)
| JsonDecodeError
| JsonRaise (e : PyExc).

(** The result of one call of [client.models.generate_content]: an exception
    (which also covers the failure of the lazily built client), or a response
    whose [.text] is a string or [None]. *)
Inductive GenOutcome :=
| GenRaise (e : PyExc)
| GenText (text : option string).

(** What a request to the generative model is built from. *)
Inductive GenRequest :=
| AnalysisRequest (image_bytes : string) (context : option string)
| InstructionsRequest (emergency_type : EmergencyType) (severity : SeverityLevel)
    (observations : list string).

(** Everything the code obtains from outside the repository: the clock, the
    identifier generator, the generative model, and the text-level routines
    of the Python libraries.  The properties below hold for every host. *)
Record Host := {
  (** the n-th reading of [datetime.utcnow()] *)
  utcnow_at : nat -> Time;
  (** the n-th [uuid4()] *)
  uuid4_at : nat -> UUID;
  (** the n-th call of [generate_content] *)
  generate_content : nat -> GenRequest -> GenOutcome;
  (** [base64.b64decode]; [None] stands for [binascii.Error] *)
  b64decode : string -> option string;
  (** [json.loads] *)
  json_loads : string -> JsonOutcome;
  (** [float(s)] on a string; [None] stands for [ValueError] *)
  float_of_str : string -> option spec_float;
  (** the lax conversion of a string to [int]; [None] when refused *)
  int_of_str : string -> option Z;
  (** [str(e)] for the exceptions raised inside library code *)
  lib_str : PyExc -> string;
}.

(** [str(e)]. *)
Definition exc_str (H : Host) (e : PyExc) : string :=
  match e with
  | ValueError msg => msg
  | ApiError msg => msg
  | _ => lib_str H e
  end.

(** Counters of the host interactions made so far. *)
Record Sys := { ticks : nat; calls : nat; uuids : nat }.

Definition utcnow (H : Host) (k : Sys) : Time * Sys :=
  (utcnow_at H (ticks k),
   {| ticks := S (ticks k); calls := calls k; uuids := uuids k |}).

Definition uuid4 (H : Host) (k : Sys) : UUID * Sys :=
  (uuid4_at H (uuids k),
   {| ticks := ticks k; calls := calls k; uuids := S (uuids k) |}).

Definition after_call (k : Sys) : Sys :=
  {| ticks := ticks k; calls := S (calls k); uuids := uuids k |}.

Definition call_generate (H : Host) (req : GenRequest) (k : Sys) : GenOutcome * Sys :=
  (generate_content H (calls k) req, after_call k).

(** A computation over a state [S] that returns or raises; the state it
    leaves is kept in both cases, as Python keeps the mutations made before
    an exception. *)
Definition Py (S A : Type) : Type := S -> Outcome A * S.

Definition ret {S A} (a : A) : Py S A := fun s => (Return a, s).
Definition raise {S A} (e : PyExc) : Py S A := fun s => (Raise e, s).
Definition bind {S A B} (m : Py S A) (f : A -> Py S B) : Py S B :=
  fun s => match m s with
           | (Return a, s') => f a s'
           | (Raise e, s') => (Raise e, s')
           end.
(** [try: body except Exception as e: handler(e)]. *)
Definition try_except {S A} (body : Py S A) (handler : PyExc -> Py S A) : Py S A :=
  fun s => match body s with
           | (Return a, s') => (Return a, s')
           | (Raise e, s') => handler e s'
           end.
Definition lift_outcome {S A} (o : Outcome A) : Py S A := fun s => (o, s).

(** Sequencing of code that only returns or raises. *)
Definition and_then {A B} (o : Outcome A) (f : A -> Outcome B) : Outcome B :=
  match o with
  | Return a => f a
  | Raise e => Raise e
  end.

Notation "'let*' x ':=' m 'in' k" := (bind m (fun x => k))
  (at level 10, x name, m at level 100, k at level 200).
Notation "'let*' ' p ':=' m 'in' k" := (bind m (fun x => match x with p => k end))
  (at level 10, p pattern, m at level 100, k at level 200).
Notation "'let?' x ':=' o 'in' k" := (and_then o (fun x => k))
  (at level 10, x name, o at level 100, k at level 200).

(* ===================================================================== *)
(** ** Python floats and the conversions of values *)
(* ===================================================================== *)

Definition float_of_int (z : Z) : spec_float := binary_normalize 53 1024 z 0 false.
Definition float_0_0 : spec_float := S754_zero false.
Definition float_0_5 : spec_float := S754_finite false 4503599627370496 (-53).
Definition float_1_0 : spec_float := float_of_int 1.
Definition float_le (a b : spec_float) : bool := SFleb a b.
Definition float_eq (a b : spec_float) : bool := SFeqb a b.

(** The integer a float is equal to, when there is one. *)
Definition float_as_int (f : spec_float) : option Z :=
  match f with
  | S754_zero _ => Some 0
  | S754_finite s m e =>
      let v := if 0 <=? e then Z.pos m * 2 ^ e
               else Z.pos m / 2 ^ (- e) in
      if (0 <=? e) || (Z.pos m mod 2 ^ (- e) =? 0)
      then Some (if s then - v else v) else None
  | _ => None
  end.

(** [float(value)]. *)
Definition py_float (H : Host) (value : JSON) : Outcome spec_float :=
  match value with
  | JFloat f => Return f
  | JInt z =>
      match float_of_int z with
      | S754_infinity _ => Raise (FloatError value)
      | f => Return f
      end
  | JBool b => Return (if b then float_1_0 else float_0_0)
  | JString s =>
      match float_of_str H s with
      | Some f => Return f
      | None => Raise (FloatError value)
      end
  | _ => Raise (FloatError value)
  end.

(** [EmergencyType(value)]: the member with that value, else [ValueError]. *)
Definition EmergencyType_of (value : JSON) : Outcome EmergencyType :=
  match value with
  | JString s =>
      match List.find (fun t => String.eqb (emergency_type_value t) s)
                      all_emergency_types with
      | Some t => Return t
      | None => Raise (EnumValueError "EmergencyType" value)
      end
  | _ => Raise (EnumValueError "EmergencyType" value)
  end.

(** Python's [==] between a value and an integer member value. *)
Definition py_eq_int (value : JSON) (n : Z) : bool :=
  match value with
  | JInt z => z =? n
  | JBool b => Z.b2z b =? n
  | JFloat f => float_eq f (float_of_int n)
  | _ => false
  end.

(** [SeverityLevel(value)]. *)
Definition SeverityLevel_of (value : JSON) : Outcome SeverityLevel :=
  match List.find (fun l => py_eq_int value (severity_value l))
                  all_severity_levels with
  | Some l => Return l
  | None => Raise (EnumValueError "SeverityLevel" value)
  end.

(** The field validation of pydantic, in its default (lax) mode, on the
    values that reach it here. *)
Module Pydantic.

Definition str_field (min_length max_length : option Z) (v : JSON) : option string :=
  match v with
  | JString s =>
      if match min_length with Some m => m <=? PyStr.len s | None => true end
         && match max_length with Some m => PyStr.len s <=? m | None => true end
      then Some s else None
  | _ => None
  end.

Definition optional {A} (field : JSON -> option A) (v : JSON) : option (option A) :=
  match v with
  | JNull => Some None
  | _ => match field v with Some a => Some (Some a) | None => None end
  end.

Definition bool_of_text (s : string) : option bool :=
  let t := PyStr.lower s in
  if existsb (String.eqb t) ["1"; "on"; "t"; "true"; "y"; "yes"] then Some true
  else if existsb (String.eqb t) ["0"; "off"; "f"; "false"; "n"; "no"] then Some false
  else None.

Definition bool_field (v : JSON) : option bool :=
  match v with
  | JBool b => Some b
  | JInt 0 => Some false
  | JInt 1 => Some true
  | JFloat f =>
      if float_eq f float_0_0 then Some false
      else if float_eq f float_1_0 then Some true else None
  | JString s => bool_of_text s
  | _ => None
  end.

(** An [int] field: an integer, a boolean, a text the lax conversion
    accepts, or a float that has no fractional part and lies strictly
    between -2^63 and 2^63. *)
Definition int_field (H : Host) (ge : option Z) (v : JSON) : option Z :=
  let raw := match v with
             | JInt z => Some z
             | JBool b => Some (Z.b2z b)
             | JFloat f =>
                 match float_as_int f with
                 | Some z => if (- 2 ^ 63 <? z) && (z <? 2 ^ 63) then Some z else None
                 | None => None
                 end
             | JString s => int_of_str H s
             | _ => None
             end in
  match raw with
  | Some z => if match ge with Some m => m <=? z | None => true end
              then Some z else None
  | None => None
  end.

Definition float_range (lo hi : spec_float) (f : spec_float) : option spec_float :=
  if float_le lo f && float_le f hi then Some f else None.

Fixpoint list_of_str (items : list JSON) : option (list string) :=
  match items with
  | [] => Some []
  | JString s :: rest =>
      match list_of_str rest with
      | Some l => Some (s :: l)
      | None => None
      end
  | _ => None
  end.

Definition list_str_field (v : JSON) : option (list string) :=
  match v with
  | JArray items => list_of_str items
  | _ => None
  end.

(** The names of the fields that were refused. *)
Definition failed {A} (name : string) (r : option A) : list string :=
  match r with Some _ => [] | None => [name] end.

End Pydantic.

(* ===================================================================== *)
(** ** Data models ([models/emergency.py]) *)
(* ===================================================================== *)

Record FirstAidInstruction := {
  step_number : Z;
  instruction_text : string;
  voice_text : string;
  duration_seconds : option Z;
  requires_confirmation : bool;
  warning : option string;
  visual_cue : option string;
}.

(** [FirstAidInstruction(...)]: every field is validated and the refused
    ones are reported together. *)
Definition FirstAidInstruction_new (H : Host)
    (v_step_number v_instruction_text v_voice_text v_duration_seconds
     v_requires_confirmation v_warning v_visual_cue : JSON)
    : Outcome FirstAidInstruction :=
  let r1 := Pydantic.int_field H (Some 1) v_step_number in
  let r2 := Pydantic.str_field (Some 1) (Some 500) v_instruction_text in
  let r3 := Pydantic.str_field (Some 1) (Some 500) v_voice_text in
  let r4 := Pydantic.optional (Pydantic.int_field H (Some 0)) v_duration_seconds in
  let r5 := Pydantic.bool_field v_requires_confirmation in
  let r6 := Pydantic.optional (Pydantic.str_field None (Some 200)) v_warning in
  let r7 := Pydantic.optional (Pydantic.str_field None (Some 200)) v_visual_cue in
  match r1, r2, r3, r4, r5, r6, r7 with
  | Some a1, Some a2, Some a3, Some a4, Some a5, Some a6, Some a7 =>
      Return {| step_number := a1; instruction_text := a2; voice_text := a3;
                duration_seconds := a4; requires_confirmation := a5;
                warning := a6; visual_cue := a7 |}
  | _, _, _, _, _, _, _ =>
      Raise (ValidationError "FirstAidInstruction"
               (Pydantic.failed "step_number" r1
                ++ Pydantic.failed "instruction_text" r2
                ++ Pydantic.failed "voice_text" r3
                ++ Pydantic.failed "duration_seconds" r4
                ++ Pydantic.failed "requires_confirmation" r5
                ++ Pydantic.failed "warning" r6
                ++ Pydantic.failed "visual_cue" r7))
  end.

Record EmergencyAnalysis := {
  emergency_type : EmergencyType;
  severity : SeverityLevel;
  confidence_score : spec_float;
  observations : list string;
  recommended_action : string;
  call_emergency_services : bool;
  additional_context : option string;
}.

(** The [validate_observations] field validator. *)
Definition validate_observations (value : list string) : list string :=
  List.map PyStr.strip
    (List.filter (fun obs => PyStr.truthy obs && PyStr.truthy (PyStr.strip obs)) value).

(** [EmergencyAnalysis(...)], given an enumeration member for the type and
    the severity and a float for the confidence. *)
Definition EmergencyAnalysis_new
    (v_emergency_type : EmergencyType) (v_severity : SeverityLevel)
    (v_confidence_score : spec_float)
    (v_observations v_recommended_action v_call_emergency_services
     v_additional_context : JSON)
    : Outcome EmergencyAnalysis :=
  let r3 := Pydantic.float_range float_0_0 float_1_0 v_confidence_score in
  let r4 := Pydantic.list_str_field v_observations in
  let r5 := Pydantic.str_field (Some 1) (Some 500) v_recommended_action in
  let r6 := Pydantic.bool_field v_call_emergency_services in
  let r7 := Pydantic.optional (Pydantic.str_field None (Some 1000)) v_additional_context in
  match r3, r4, r5, r6, r7 with
  | Some a3, Some a4, Some a5, Some a6, Some a7 =>
      Return {| emergency_type := v_emergency_type; severity := v_severity;
                confidence_score := a3;
                observations := validate_observations a4;
                recommended_action := a5;
                call_emergency_services := a6;
                additional_context := a7 |}
  | _, _, _, _, _ =>
      Raise (ValidationError "EmergencyAnalysis"
               (Pydantic.failed "confidence_score" r3
                ++ Pydantic.failed "observations" r4
                ++ Pydantic.failed "recommended_action" r5
                ++ Pydantic.failed "call_emergency_services" r6
                ++ Pydantic.failed "additional_context" r7))
  end.

Record EmergencySession := {
  session_id : UUID;
  status : EmergencyStatus;
  started_at : Time;
  updated_at : Time;
  ended_at : option Time;
  analysis : option EmergencyAnalysis;
  instructions : list FirstAidInstruction;
  current_step : Z;
  user_notes : option string;
  location_data : option string;
}.

(** Attribute assignments on a session. *)
Definition set_status (v : EmergencyStatus) (s : EmergencySession) : EmergencySession :=
  {| session_id := session_id s; status := v; started_at := started_at s;
     updated_at := updated_at s; ended_at := ended_at s; analysis := analysis s;
     instructions := instructions s; current_step := current_step s;
     user_notes := user_notes s; location_data := location_data s |}.
Definition set_updated_at (v : Time) (s : EmergencySession) : EmergencySession :=
  {| session_id := session_id s; status := status s; started_at := started_at s;
     updated_at := v; ended_at := ended_at s; analysis := analysis s;
     instructions := instructions s; current_step := current_step s;
     user_notes := user_notes s; location_data := location_data s |}.
Definition set_ended_at (v : option Time) (s : EmergencySession) : EmergencySession :=
  {| session_id := session_id s; status := status s; started_at := started_at s;
     updated_at := updated_at s; ended_at := v; analysis := analysis s;
     instructions := instructions s; current_step := current_step s;
     user_notes := user_notes s; location_data := location_data s |}.
Definition set_analysis (v : option EmergencyAnalysis) (s : EmergencySession) : EmergencySession :=
  {| session_id := session_id s; status := status s; started_at := started_at s;
     updated_at := updated_at s; ended_at := ended_at s; analysis := v;
     instructions := instructions s; current_step := current_step s;
     user_notes := user_notes s; location_data := location_data s |}.
Definition set_instructions (v : list FirstAidInstruction) (s : EmergencySession) : EmergencySession :=
  {| session_id := session_id s; status := status s; started_at := started_at s;
     updated_at := updated_at s; ended_at := ended_at s; analysis := analysis s;
     instructions := v; current_step := current_step s;
     user_notes := user_notes s; location_data := location_data s |}.
Definition set_current_step (v : Z) (s : EmergencySession) : EmergencySession :=
  {| session_id := session_id s; status := status s; started_at := started_at s;
     updated_at := updated_at s; ended_at := ended_at s; analysis := analysis s;
     instructions := instructions s; current_step := v;
     user_notes := user_notes s; location_data := location_data s |}.
Definition set_user_notes (v : option string) (s : EmergencySession) : EmergencySession :=
  {| session_id := session_id s; status := status s; started_at := started_at s;
     updated_at := updated_at s; ended_at := ended_at s; analysis := analysis s;
     instructions := instructions s; current_step := current_step s;
     user_notes := v; location_data := location_data s |}.

(** [len(session.instructions)]. *)
Definition n_instructions (s : EmergencySession) : Z :=
  Z.of_nat (length (instructions s)).

(** [session.instructions[session.current_step - 1]], used by the code only
    when the index is in range. *)
Definition instruction_at (s : EmergencySession) (step : Z) : option FirstAidInstruction :=
  instructions s !! Z.to_nat (step - 1).

(** [EmergencySession.advance_step]: the method of the model, which only
    moves the pointer. *)
Definition advance_step_method (H : Host) (self : EmergencySession) (k : Sys)
    : bool * EmergencySession * Sys :=
  if current_step self <? n_instructions self then
    let self := set_current_step (current_step self + 1) self in
    let '(now, k) := utcnow H k in
    (true, set_updated_at now self, k)
  else (false, self, k).

(** [EmergencySession.get_current_instruction]. *)
Definition get_current_instruction_method (self : EmergencySession)
    : option FirstAidInstruction :=
  if (0 <? current_step self) && (current_step self <=? n_instructions self)
  then instruction_at self (current_step self)
  else None.

(* ===================================================================== *)
(** ** Response normalizer ([services/gemini_service.py]) *)
(* ===================================================================== *)

(** The three regular expressions of the normalizer, all searched with
    [re.DOTALL].  [re.search] returns the match at the leftmost position
    where one exists. *)
Module Regex.

(** The fence pattern after its opening marker: the greedy [\s*] takes all
    the spaces that follow the marker, and the lazy group grows until what
    is left reads spaces and then the closing marker.  The group is
    therefore the text up to the first closing marker, without the spaces
    that precede this marker. *)
Definition fenced_group (after_open : string) : option string :=
  match PyStr.split_at "```" (PyStr.lstrip after_open) with
  | Some (inner, _) => Some (PyStr.rstrip inner)
  | None => None
  end.

(** A match of the fence pattern that starts at the head of [text]. *)
Definition fenced_here (text : string) : option string :=
  if PyStr.starts_with "```json" text
  then fenced_group (String.substring 7 (String.length text - 7) text)
  else None.

(** Group 1 of the fence pattern, [```json\s*(.*?)\s*```]. *)
Fixpoint search_fenced (text : string) : option string :=
  match fenced_here text with
  | Some g => Some g
  | None =>
      match text with
      | EmptyString => None
      | String _ rest => search_fenced rest
      end
  end.

(** The longest prefix of [s] that ends with [c]. *)
Fixpoint upto_last (c : ascii) (s : string) : option string :=
  match s with
  | EmptyString => None
  | String a s' =>
      match upto_last c s' with
      | Some r => Some (String a r)
      | None => if Ascii.eqb a c then Some (String a EmptyString) else None
      end
  end.

(** Group 0 of [\{.*\}] and of [\[.*\]]: from the first opening character
    that has a closing one after it, greedily to the last closing one. *)
Fixpoint search_span (opening closing : ascii) (text : string) : option string :=
  match text with
  | EmptyString => None
  | String a rest =>
      let here :=
        if Ascii.eqb a opening
        then match upto_last closing rest with
             | Some r => Some (String a r)
             | None => None
             end
        else None in
      match here with
      | Some g => Some g
      | None => search_span opening closing rest
      end
  end.

End Regex.

(** [GeminiService._parse_analysis_response].  The only handler is for
    [json.JSONDecodeError]: any other exception of [json.loads] leaves the
    function, and the [data.keys()] of the log line is evaluated on whatever
    [json.loads] returned. *)
Definition _parse_analysis_response (H : Host) (response_text : option string)
    : Outcome (gmap string JSON) :=
  match response_text with
  | None => Raise (NoneTypeError "re.search")
  | Some text =>
      let json_match :=
        match Regex.search_fenced text with
        | Some json_str => Some json_str
        | None => Regex.search_span "{" "}" text
        end in
      match json_match with
      | None => Return empty
      | Some json_str =>
          match json_loads H json_str with
          | JsonDecodeError => Return empty
          | JsonRaise e => Raise e
          | JsonValue (JObject data) => Return data
          | JsonValue other => Raise (AttributeError other "keys")
          end
      end
  end.

(** [GeminiService._parse_instructions_response]; its handler too is for
    [json.JSONDecodeError] only. *)
Definition _parse_instructions_response (H : Host) (response_text : option string)
    : Outcome (list JSON) :=
  match response_text with
  | None => Raise (NoneTypeError "re.search")
  | Some text =>
      let json_match :=
        match Regex.search_fenced text with
        | Some json_str => Some json_str
        | None => Regex.search_span "[" "]" text
        end in
      match json_match with
      | None => Return []
      | Some json_str =>
          match json_loads H json_str with
          | JsonDecodeError => Return []
          | JsonRaise e => Raise e
          | JsonValue (JArray data) => Return data
          | JsonValue _ => Return []
          end
      end
  end.

(* ===================================================================== *)
(** ** Classifier adapter ([services/gemini_service.py]) *)
(* ===================================================================== *)

(** The construction of the analysis from the parsed payload (the
    [EmergencyAnalysis(...)] call of [analyze_emergency_frame]); the
    arguments are evaluated in order, then the model is validated. *)
Definition map_analysis_data (H : Host) (analysis_data : gmap string JSON)
    : Outcome EmergencyAnalysis :=
  let? v_type := EmergencyType_of (dict_get analysis_data "emergency_type" (JString "unknown")) in
  let? v_severity := SeverityLevel_of (dict_get analysis_data "severity" (JInt 3)) in
  let? v_confidence := py_float H (dict_get analysis_data "confidence_score" (JFloat float_0_5)) in
  EmergencyAnalysis_new v_type v_severity v_confidence
    (dict_get analysis_data "observations" (JArray []))
    (dict_get analysis_data "recommended_action" (JString "Assess the situation"))
    (dict_get analysis_data "call_emergency_services" (JBool true))
    (dict_get analysis_data "additional_context" JNull).

(** The safe default analysis built in the [except] branch. *)
Definition fallback_analysis (H : Host) (e : PyExc) : Outcome EmergencyAnalysis :=
  EmergencyAnalysis_new UNKNOWN HIGH float_0_0
    (JArray [JString "Analysis failed - please describe the situation"])
    (JString "Call 911 immediately and describe the emergency")
    (JBool true)
    (JString ("Analysis error: " +:+ exc_str H e)).

(** The context as the prompt takes it: [if context:] adds it. *)
Definition prompt_context (context : option string) : option string :=
  match context with
  | Some c => if PyStr.truthy c then Some c else None
  | None => None
  end.

(** The [try] block of [analyze_emergency_frame]. *)
Definition analyze_emergency_frame_body (H : Host) (frame_data : string)
    (context : option string) : Py Sys EmergencyAnalysis :=
  let* image_bytes :=
    lift_outcome (match b64decode H frame_data with
                  | Some b => Return b
                  | None => Raise (Base64Error frame_data)
                  end) in
  let* response :=
    (fun k => let '(r, k) :=
                call_generate H (AnalysisRequest image_bytes (prompt_context context)) k in
              (Return r, k)) in
  match response with
  | GenRaise e => raise e
  | GenText response_text =>
      let* _ :=
        match response_text with
        | Some _ => ret tt
        | None => raise (NoneTypeError "response_text[:500]")
        end in
      let* analysis_data := lift_outcome (_parse_analysis_response H response_text) in
      let* analysis := lift_outcome (map_analysis_data H analysis_data) in
      let* _ := (fun k => let '(_, k) := utcnow H k in (Return tt, k)) in
      ret analysis
  end.

(** [GeminiService.analyze_emergency_frame]. *)
Definition analyze_emergency_frame (H : Host) (frame_data : string)
    (context : option string) : Py Sys EmergencyAnalysis :=
  fun k =>
    let '(start_time, k) := utcnow H k in
    try_except (analyze_emergency_frame_body H frame_data context)
               (fun e => lift_outcome (fallback_analysis H e)) k.

(** A plain instruction, as the built-in sets write them. *)
Definition instruction (n : Z) (text voice : string) (duration : option Z)
    (confirm : bool) (warn : option string) : FirstAidInstruction :=
  {| step_number := n; instruction_text := text; voice_text := voice;
     duration_seconds := duration; requires_confirmation := confirm;
     warning := warn; visual_cue := None |}.

Definition generic_default_instructions : list FirstAidInstruction :=
  [ instruction 1 "Call 911 immediately"
      "Call 911 immediately and describe the emergency." None true None;
    instruction 2 "Keep the person calm and still"
      "Keep the person calm, still, and comfortable while waiting for help."
      None true None ].

(** The [default_instructions] table. *)
Definition default_instructions (t : EmergencyType) : option (list FirstAidInstruction) :=
  match t with
  | CARDIAC_ARREST =>
      Some [ instruction 1 "Call 911 immediately"
               "First, call 911 or have someone else call. Time is critical."
               None true None;
             instruction 2 "Check for responsiveness"
               "Tap the person's shoulders and shout 'Are you okay?'"
               (Some 5) false None;
             instruction 3 "Begin chest compressions"
               "Place the heel of your hand on the center of the chest. Push hard and fast, about 2 inches deep, 100 to 120 times per minute."
               None true (Some "The person should be on a firm, flat surface") ]
  | CHOKING =>
      Some [ instruction 1 "Ask if they can speak"
               "Ask the person 'Are you choking?' If they cannot speak, cough, or breathe, they need help."
               (Some 5) false None;
             instruction 2 "Perform abdominal thrusts"
               "Stand behind them, make a fist above their navel, and thrust inward and upward."
               None true (Some "Be careful not to squeeze the ribs") ]
  | _ => None
  end.

(** [GeminiService._get_default_instructions]. *)
Definition _get_default_instructions (emergency_type : EmergencyType)
    : list FirstAidInstruction :=
  match default_instructions emergency_type with
  | Some l => l
  | None => generic_default_instructions
  end.

(** The [for i, inst_data in enumerate(instructions_data, 1)] loop. *)
Fixpoint convert_instructions (H : Host) (i : Z) (instructions_data : list JSON)
    : Outcome (list FirstAidInstruction) :=
  match instructions_data with
  | [] => Return []
  | inst_data :: rest =>
      match inst_data with
      | JObject d =>
          let step_i := JString ("Step " +:+ pretty i) in
          let? instruction :=
            FirstAidInstruction_new H
              (dict_get d "step_number" (JInt i))
              (dict_get d "instruction_text" step_i)
              (dict_get d "voice_text" (dict_get d "instruction_text" step_i))
              (dict_get d "duration_seconds" JNull)
              (dict_get d "requires_confirmation" (JBool false))
              (dict_get d "warning" JNull)
              (dict_get d "visual_cue" JNull) in
          let? others := convert_instructions H (i + 1) rest in
          Return (instruction :: others)
      | other => Raise (AttributeError other "get")
      end
  end.

(** The [try] block of [generate_first_aid_instructions]. *)
Definition generate_first_aid_instructions_body (H : Host)
    (emergency_type : EmergencyType) (severity : SeverityLevel)
    (observations : list string) : Py Sys (list FirstAidInstruction) :=
  let* response :=
    (fun k => let '(r, k) :=
                call_generate H (InstructionsRequest emergency_type severity observations) k in
              (Return r, k)) in
  match response with
  | GenRaise e => raise e
  | GenText response_text =>
      let* instructions_data := lift_outcome (_parse_instructions_response H response_text) in
      lift_outcome (convert_instructions H 1 instructions_data)
  end.

(** [GeminiService.generate_first_aid_instructions]. *)
Definition generate_first_aid_instructions (H : Host)
    (emergency_type : EmergencyType) (severity : SeverityLevel)
    (observations : list string) : Py Sys (list FirstAidInstruction) :=
  try_except
    (generate_first_aid_instructions_body H emergency_type severity observations)
    (fun e => ret (_get_default_instructions emergency_type)).

(* ===================================================================== *)
(** ** Emergency service ([services/emergency_service.py]) *)
(* ===================================================================== *)

(** A service method works on the session object it was given and on the
    host counters. *)
Definition Svc (A : Type) : Type := Py (EmergencySession * Sys) A.

Definition with_sys {A} (m : Py Sys A) : Svc A :=
  fun '(session, k) => let '(r, k') := m k in (r, (session, k')).
Definition now (H : Host) : Svc Time :=
  fun '(session, k) => let '(t, k') := utcnow H k in (Return t, (session, k')).
Definition assign (f : EmergencySession -> EmergencySession) : Svc unit :=
  fun '(session, k) => (Return tt, (f session, k)).
Definition this : Svc EmergencySession :=
  fun '(session, k) => (Return session, (session, k)).

(** [EmergencyService._build_context]. *)
Definition _build_context (session : EmergencySession)
    (additional_context : option string) : option string :=
  let part (label : string) (v : option string) : list string :=
    match v with
    | Some text => if PyStr.truthy text then [label +:+ text] else []
    | None => []
    end in
  let context_parts :=
    part "User notes: " (user_notes session)
    ++ part "Location: " (location_data session)
    ++ part "Additional info: " additional_context in
  match context_parts with
  | [] => None
  | _ => Some (PyStr.join ". " context_parts)
  end.

(** [EmergencyService.analyze_frame]. *)
Definition analyze_frame (H : Host) (frame_data : string)
    (user_context : option string)
    : Svc (EmergencyAnalysis * list FirstAidInstruction) :=
  let* start_time := now H in
  try_except
    (let* _ := assign (set_status ANALYZING) in
     let* t := now H in
     let* _ := assign (set_updated_at t) in
     let* session := this in
     let full_context := _build_context session user_context in
     let* analysis := with_sys (analyze_emergency_frame H frame_data full_context) in
     let* instructions :=
       with_sys (generate_first_aid_instructions H (emergency_type analysis)
                   (severity analysis) (observations analysis)) in
     let* _ := assign (set_analysis (Some analysis)) in
     let* _ := assign (set_instructions instructions) in
     let* _ := assign (set_status ACTIVE) in
     let* _ := assign (set_current_step (match instructions with [] => 0 | _ => 1 end)) in
     let* t := now H in
     let* _ := assign (set_updated_at t) in
     let* elapsed := now H in
     ret (analysis, instructions))
    (fun e =>
       let* _ := assign (set_status ACTIVE) in
       let* t := now H in
       let* _ := assign (set_updated_at t) in
       raise e).

(** [EmergencyService.get_current_instruction]. *)
Definition get_current_instruction (session : EmergencySession)
    : option FirstAidInstruction :=
  match instructions session with
  | [] => None
  | _ =>
      if (current_step session <? 1) || (n_instructions session <? current_step session)
      then None
      else instruction_at session (current_step session)
  end.

(** [EmergencyService.advance_instruction]. *)
Definition advance_instruction (H : Host) (feedback : option string)
    : Svc (bool * option FirstAidInstruction) :=
  let* session := this in
  match instructions session with
  | [] => ret (false, None)
  | _ =>
      if n_instructions session <=? current_step session then
        let* _ := assign (set_status RESOLVED) in
        let* t := now H in
        let* _ := assign (set_ended_at (Some t)) in
        let* t := now H in
        let* _ := assign (set_updated_at t) in
        ret (false, None)
      else
        let* _ := assign (set_current_step (current_step session + 1)) in
        let* t := now H in
        let* _ := assign (set_updated_at t) in
        let* session := this in
        let new_instruction := get_current_instruction session in
        ret (true, new_instruction)
  end.

(* ===================================================================== *)
(** ** Session store ([services/session_service.py]) *)
(* ===================================================================== *)

(** The process state: the [_sessions] dictionary and the host counters. *)
Record World := {
  sessions : gmap UUID EmergencySession;
  sys : Sys;
}.

Definition initial_world : World :=
  {| sessions := empty; sys := {| ticks := 0; calls := 0; uuids := 0 |} |}.

(** A service method run on the session object held by the store under
    [ref]: what it does to the object is seen through the store, also when
    it raises.  The returned record is the object after the call. *)
Definition on_session {A} (ref : UUID) (session : EmergencySession) (m : Svc A)
    : Py World (A * EmergencySession) :=
  fun w =>
    let '(r, (session', k')) := m (session, sys w) in
    let w' := {| sessions := <[ref := session']> (sessions w); sys := k' |} in
    match r with
    | Return a => (Return (a, session'), w')
    | Raise e => (Raise e, w')
    end.

Definition world_now (H : Host) : Py World Time :=
  fun w => let '(t, k') := utcnow H (sys w) in
           (Return t, {| sessions := sessions w; sys := k' |}).

Record StartSessionRequest := {
  start_user_notes : option string;
  start_location_data : option string;
  start_device_info : option string;
}.

Record EndSessionRequest := {
  end_session_id : UUID;
  end_reason : string;
  end_notes : option string;
  end_emergency_services_called : bool;
}.

Definition opt_json (o : option string) : JSON :=
  match o with Some s => JString s | None => JNull end.

(** [SessionService.create_session]: the model is built with its default
    factories (identifier, then the two timestamps) and stored. *)
Definition create_session (H : Host) (request : StartSessionRequest)
    : Py World EmergencySession :=
  fun w =>
    let '(new_id, k) := uuid4 H (sys w) in
    let '(t_started, k) := utcnow H k in
    let '(t_updated, k) := utcnow H k in
    let w1 := {| sessions := sessions w; sys := k |} in
    match Pydantic.optional (Pydantic.str_field None (Some 2000))
            (opt_json (start_user_notes request)) with
    | None => (Raise (ValidationError "EmergencySession" ["user_notes"]), w1)
    | Some notes =>
        let session :=
          {| session_id := new_id; status := PENDING;
             started_at := t_started; updated_at := t_updated; ended_at := None;
             analysis := None; instructions := []; current_step := 0;
             user_notes := notes;
             location_data := start_location_data request |} in
        (Return session,
         {| sessions := <[session_id session := session]> (sessions w); sys := k |})
    end.

(** [SessionService.get_session]. *)
Definition get_session (sid : UUID) : Py World (option EmergencySession) :=
  fun w => (Return (sessions w !! sid), w).

(** [SessionService.update_session], for the object held under [ref]. *)
Definition update_session (H : Host) (ref : UUID) (session : EmergencySession)
    : Py World EmergencySession :=
  fun w =>
    match sessions w !! session_id session with
    | None =>
        (Raise (ValueError ("Session " +:+ session_id session +:+ " not found")), w)
    | Some _ =>
        let '(t, k) := utcnow H (sys w) in
        let session' := set_updated_at t session in
        (Return session',
         {| sessions := <[session_id session := session']> (<[ref := session']> (sessions w));
            sys := k |})
    end.

Definition newline : string := String (ascii_of_N 10) EmptyString.

(** [SessionService.end_session]. *)
Definition end_session (H : Host) (sid : UUID) (request : EndSessionRequest)
    : Py World EmergencySession :=
  let* found := get_session sid in
  match found with
  | None => raise (ValueError ("Session " +:+ sid +:+ " not found"))
  | Some session =>
      if bool_decide (status session = RESOLVED) || bool_decide (status session = CANCELLED)
      then raise (ValueError ("Session " +:+ sid +:+ " is already ended"))
      else
        let session :=
          if end_emergency_services_called request then set_status ESCALATED session
          else if PyStr.contains "cancel" (PyStr.lower (end_reason request))
               then set_status CANCELLED session
               else set_status RESOLVED session in
        let* t := world_now H in
        let session := set_ended_at (Some t) session in
        let* t := world_now H in
        let session := set_updated_at t session in
        let session :=
          match end_notes request with
          | Some notes =>
              if PyStr.truthy notes then
                let existing_notes :=
                  match user_notes session with
                  | Some n => if PyStr.truthy n then n else EmptyString
                  | None => EmptyString
                  end in
                set_user_notes
                  (Some (PyStr.strip (existing_notes +:+ newline +:+ newline
                                      +:+ "Resolution: " +:+ notes)))
                  session
              else session
          | None => session
          end in
        fun w =>
          (Return session,
           {| sessions := <[session_id session := session]> (<[sid := session]> (sessions w));
              sys := sys w |})
  end.

(** The statuses [cleanup_expired_sessions] sweeps ("only clean up ended
    sessions") and those [get_active_sessions_count] counts ("not in terminal
    states"). *)
Definition cleanup_ended_statuses : list EmergencyStatus :=
  [RESOLVED; CANCELLED; ESCALATED].
Definition active_statuses : list EmergencyStatus :=
  [PENDING; ANALYZING; ACTIVE; MONITORING].

(** [SessionService.get_active_sessions_count]. *)
Definition get_active_sessions_count (w : World) : nat :=
  size (filter (fun kv => elem_of (status (snd kv)) active_statuses) (sessions w)).

(** [SessionService.cleanup_expired_sessions]; times are in microseconds. *)
Definition expired (cutoff : Time) (session : EmergencySession) : bool :=
  bool_decide (elem_of (status session) cleanup_ended_statuses)
  && (match ended_at session with
      | Some t => t
      | None => updated_at session
      end <? cutoff).

Definition cleanup_expired_sessions (H : Host) (max_age_hours : Z) (w : World)
    : nat * World :=
  let '(t, k) := utcnow H (sys w) in
  let cutoff := t - max_age_hours * 3600000000 in
  let to_remove := filter (fun kv => expired cutoff (snd kv) = true) (sessions w) in
  (size to_remove,
   {| sessions := filter (fun kv => expired cutoff (snd kv) <> true) (sessions w);
      sys := k |}).

(* ===================================================================== *)
(** ** Controllers: state changes and error classification *)
(* ===================================================================== *)

(** The response objects are reduced to what the services returned; their
    assembly happens after every state change and is not modelled. *)

(** Which of the modelled exceptions are instances of [ValueError]. *)
Definition is_value_error (e : PyExc) : bool :=
  match e with
  | ValueError _ | EnumValueError _ _ | ValidationError _ _ => true
  | FloatError (JString _) => true
  | _ => false
  end.

(** [except HTTPException: raise] followed by
    [except Exception as e: raise HTTPException(500, prefix + str(e))]. *)
Definition http_guard {S A} (H : Host) (prefix : string) (m : Py S A) : Py S A :=
  try_except m
    (fun e => match e with
              | HTTPException _ _ => raise e
              | _ => raise (HTTPException 500 (prefix +:+ exc_str H e))
              end).

Record AdvanceStepRequest := {
  adv_session_id : UUID;
  adv_current_step : Z;
  adv_feedback : option string;
}.

Inductive InstructionReply :=
| AllCompleted
| CurrentInstruction (step total : Z) (current next : option FirstAidInstruction)
| NoInstruction.

Module EmergencyController.

Definition analyze_frame (H : Host) (sid : UUID) (frame_data : string)
    : Py World (EmergencyAnalysis * list FirstAidInstruction) :=
  http_guard H "Analysis failed: "
    (let* found := get_session sid in
     match found with
     | None => raise (HTTPException 404 ("Session " +:+ sid +:+ " not found"))
     | Some session =>
         let* '(result, session) :=
           on_session sid session (analyze_frame H frame_data None) in
         let* session := update_session H sid session in
         match analysis session with
         | None => raise (ValueError "Session has no analysis results")
         | Some _ => ret result
         end
     end).

Definition advance_step (H : Host) (request : AdvanceStepRequest)
    : Py World InstructionReply :=
  let sid := adv_session_id request in
  http_guard H "Step advancement failed: "
    (let* found := get_session sid in
     match found with
     | None => raise (HTTPException 404 ("Session " +:+ sid +:+ " not found"))
     | Some session =>
         if negb (current_step session =? adv_current_step request)
         then raise (HTTPException 400
                       ("Step mismatch: current step is "
                        +:+ pretty (current_step session)))
         else
           let* '((success, new_instruction), session) :=
             on_session sid session (advance_instruction H (adv_feedback request)) in
           let* session := update_session H sid session in
           if negb success then ret AllCompleted
           else
             let next_instruction :=
               if current_step session <? n_instructions session
               then instructions session !! Z.to_nat (current_step session)
               else None in
             ret (CurrentInstruction (current_step session) (n_instructions session)
                    new_instruction next_instruction)
     end).

Definition get_current_instruction (H : Host) (sid : UUID)
    : Py World InstructionReply :=
  http_guard H "Failed to get instruction: "
    (let* found := get_session sid in
     match found with
     | None => raise (HTTPException 404 ("Session " +:+ sid +:+ " not found"))
     | Some session =>
         match instructions session with
         | [] => ret NoInstruction
         | _ =>
             match get_current_instruction session with
             | None => ret NoInstruction
             | Some current =>
                 let next_instruction :=
                   if current_step session <? n_instructions session
                   then instructions session !! Z.to_nat (current_step session)
                   else None in
                 ret (CurrentInstruction (current_step session)
                        (n_instructions session) (Some current) next_instruction)
             end
         end
     end).

End EmergencyController.

Module SessionController.

Definition create_session (H : Host) (request : StartSessionRequest)
    : Py World EmergencySession :=
  try_except (create_session H request)
    (fun e => raise (HTTPException 500 ("Failed to create session: " +:+ exc_str H e))).

Definition end_session (H : Host) (sid : UUID) (request : EndSessionRequest)
    : Py World EmergencySession :=
  try_except
    (if negb (String.eqb sid (end_session_id request))
     then raise (HTTPException 400 "Session ID in URL does not match request body")
     else end_session H sid request)
    (fun e => match e with
              | HTTPException _ _ => raise e
              | _ => if is_value_error e
                     then raise (HTTPException 400 (exc_str H e))
                     else raise (HTTPException 500
                                   ("Failed to end session: " +:+ exc_str H e))
              end).

End SessionController.

(** The boundary operations, and the state after a sequence of them. *)
Inductive Request :=
| StartSession (request : StartSessionRequest)
| AnalyzeFrame (sid : UUID) (frame_data : string)
| AdvanceStep (request : AdvanceStepRequest)
| GetCurrentInstruction (sid : UUID)
| EndSession (sid : UUID) (request : EndSessionRequest).

Definition handle (H : Host) (w : World) (req : Request) : World :=
  match req with
  | StartSession request => snd (SessionController.create_session H request w)
  | AnalyzeFrame sid frame_data => snd (EmergencyController.analyze_frame H sid frame_data w)
  | AdvanceStep request => snd (EmergencyController.advance_step H request w)
  | GetCurrentInstruction sid => snd (EmergencyController.get_current_instruction H sid w)
  | EndSession sid request => snd (SessionController.end_session H sid request w)
  end.

Definition run (H : Host) (reqs : list Request) (w : World) : World :=
  fold_left (handle H) reqs w.

(* ===================================================================== *)
(** ** A reference host *)
(* ===================================================================== *)

(** A decoder for the JSON grammar that [json.loads] accepts, used by the
    reference host of the examples.  Characters are written by their code:
    34 is the double quote, 92 the backslash. *)
Module PyJson.

Definition is_ws (c : ascii) : bool :=
  let n := N_of_ascii c in ((n =? 32) || (n =? 9) || (n =? 10) || (n =? 13))%N.

Fixpoint skip_ws (s : string) : string :=
  match s with
  | String c rest => if is_ws c then skip_ws rest else s
  | EmptyString => EmptyString
  end.

Definition digit (c : ascii) : option Z :=
  let n := N_of_ascii c in
  if ((48 <=? n) && (n <=? 57))%N then Some (Z.of_N n - 48) else None.

Definition hex_digit (c : ascii) : option N :=
  let n := N_of_ascii c in
  if ((48 <=? n) && (n <=? 57))%N then Some (n - 48)%N
  else if ((97 <=? n) && (n <=? 102))%N then Some (n - 87)%N
  else if ((65 <=? n) && (n <=? 70))%N then Some (n - 55)%N
  else None.

(** A run of digits: its value after [acc], its length, and the rest. *)
Fixpoint read_digits (s : string) (acc count : Z) : Z * Z * string :=
  match s with
  | String c rest =>
      match digit c with
      | Some d => read_digits rest (acc * 10 + d) (count + 1)
      | None => (acc, count, s)
      end
  | EmptyString => (acc, count, s)
  end.

(** The binary64 value nearest to [m * 10 ^ e], ties to even. *)
Definition float_of_decimal (negative : bool) (m e : Z) : spec_float :=
  if m =? 0 then S754_zero negative
  else if 0 <=? e
  then binary_normalize 53 1024 ((if negative then - m else m) * 10 ^ e) 0 false
  else
    let d := 10 ^ (- e) in
    let shift := Z.max 0 (64 + Z.log2 d - Z.log2 m) in
    let n := m * 2 ^ shift in
    let q := n / d in
    let r := n mod d in
    let loc := if r =? 0 then loc_Exact else loc_Inexact (Z.compare (2 * r) d) in
    binary_round_aux 53 1024 negative q (- shift) loc.

(** A number at the head of [s], as the scanner of [json] reads it:
    an integer part, then a fraction and an exponent when they are
    complete. *)
Definition parse_number (s : string) : option (JSON * string) :=
  let '(negative, s1) :=
    match s with
    | String c rest => if (N_of_ascii c =? 45)%N then (true, rest) else (false, s)
    | EmptyString => (false, s)
    end in
  let int_part :=
    match s1 with
    | String c rest =>
        match digit c with
        | Some 0 => Some (0, rest)
        | Some _ => let '(v, _, rest') := read_digits s1 0 0 in Some (v, rest')
        | None => None
        end
    | EmptyString => None
    end in
  match int_part with
  | None => None
  | Some (i, s2) =>
      let '(frac, s3) :=
        match s2 with
        | String c rest =>
            if (N_of_ascii c =? 46)%N then
              let '(v, n, rest') := read_digits rest 0 0 in
              if 0 <? n then (Some (v, n), rest') else (None, s2)
            else (None, s2)
        | EmptyString => (None, s2)
        end in
      let '(expo, s4) :=
        match s3 with
        | String c rest =>
            if ((N_of_ascii c =? 101) || (N_of_ascii c =? 69))%N then
              let '(minus, rest1) :=
                match rest with
                | String c' rest' =>
                    if (N_of_ascii c' =? 45)%N then (true, rest')
                    else if (N_of_ascii c' =? 43)%N then (false, rest')
                    else (false, rest)
                | EmptyString => (false, rest)
                end in
              let '(v, n, rest2) := read_digits rest1 0 0 in
              if 0 <? n then (Some (if minus then - v else v), rest2) else (None, s3)
            else (None, s3)
        | EmptyString => (None, s3)
        end in
      match frac, expo with
      | None, None => Some (JInt (if negative then - i else i), s4)
      | _, _ =>
          let '(f, n) := match frac with Some p => p | None => (0, 0) end in
          let x := match expo with Some x => x | None => 0 end in
          Some (JFloat (float_of_decimal negative (i * 10 ^ n + f) (x - n)), s4)
      end
  end.

(** The characters of a string literal after its opening quote, and what
    follows the closing quote. *)
Fixpoint parse_string_body (s : string) : option (string * string) :=
  match s with
  | EmptyString => None
  | String c rest =>
      let n := N_of_ascii c in
      if (n =? 34)%N then Some (EmptyString, rest)
      else if (n <? 32)%N then None
      else if (n =? 92)%N then
        match rest with
        | String e rest1 =>
            let plain (x : N) :=
              match parse_string_body rest1 with
              | Some (body, after) => Some (String (ascii_of_N x) body, after)
              | None => None
              end in
            match N_of_ascii e with
            | 34%N => plain 34%N
            | 92%N => plain 92%N
            | 47%N => plain 47%N
            | 98%N => plain 8%N
            | 102%N => plain 12%N
            | 110%N => plain 10%N
            | 114%N => plain 13%N
            | 116%N => plain 9%N
            | 117%N =>
                match rest1 with
                | String h1 (String h2 (String h3 (String h4 rest2))) =>
                    match hex_digit h1, hex_digit h2, hex_digit h3, hex_digit h4 with
                    | Some a, Some b, Some c', Some d =>
                        let code := (((a * 16 + b) * 16 + c') * 16 + d)%N in
                        if (code <? 256)%N then
                          match parse_string_body rest2 with
                          | Some (body, after) => Some (String (ascii_of_N code) body, after)
                          | None => None
                          end
                        else None
                    | _, _, _, _ => None
                    end
                | _ => None
                end
            | _ => None
            end
        | EmptyString => None
        end
      else
        match parse_string_body rest with
        | Some (body, after) => Some (String c body, after)
        | None => None
        end
  end.

Definition keyword (word : string) (v : JSON) (s : string) : option (JSON * string) :=
  if PyStr.starts_with word s
  then Some (v, String.substring (String.length word)
                  (String.length s - String.length word) s)
  else None.

Fixpoint parse_value (fuel : nat) (s : string) : option (JSON * string) :=
  match fuel with
  | O => None
  | S fuel' =>
      match s with
      | EmptyString => None
      | String c rest =>
          match N_of_ascii c with
          | 34%N =>
              match parse_string_body rest with
              | Some (body, after) => Some (JString body, after)
              | None => None
              end
          | 123%N =>
              match skip_ws rest with
              | String c' rest' =>
                  if (N_of_ascii c' =? 125)%N then Some (JObject empty, rest')
                  else parse_members fuel' (skip_ws rest) empty
              | EmptyString => None
              end
          | 91%N =>
              match skip_ws rest with
              | String c' rest' =>
                  if (N_of_ascii c' =? 93)%N then Some (JArray [], rest')
                  else parse_items fuel' (skip_ws rest) []
              | EmptyString => None
              end
          | 110%N => keyword "null" JNull s
          | 116%N => keyword "true" (JBool true) s
          | 102%N => keyword "false" (JBool false) s
          | 78%N => keyword "NaN" (JFloat S754_nan) s
          | 73%N => keyword "Infinity" (JFloat (S754_infinity false)) s
          | _ =>
              match keyword "-Infinity" (JFloat (S754_infinity true)) s with
              | Some r => Some r
              | None => parse_number s
              end
          end
      end
  end
with parse_items (fuel : nat) (s : string) (seen : list JSON) : option (JSON * string) :=
  match fuel with
  | O => None
  | S fuel' =>
      match parse_value fuel' s with
      | None => None
      | Some (v, after) =>
          match skip_ws after with
          | String c rest =>
              if (N_of_ascii c =? 44)%N then parse_items fuel' (skip_ws rest) (v :: seen)
              else if (N_of_ascii c =? 93)%N then Some (JArray (rev (v :: seen)), rest)
              else None
          | EmptyString => None
          end
      end
  end
with parse_members (fuel : nat) (s : string) (seen : gmap string JSON)
    : option (JSON * string) :=
  match fuel with
  | O => None
  | S fuel' =>
      match s with
      | String q rest =>
          if (N_of_ascii q =? 34)%N then
            match parse_string_body rest with
            | None => None
            | Some (key, after_key) =>
                match skip_ws after_key with
                | String colon after_colon =>
                    if (N_of_ascii colon =? 58)%N then
                      match parse_value fuel' (skip_ws after_colon) with
                      | None => None
                      | Some (v, after) =>
                          match skip_ws after with
                          | String c rest' =>
                              if (N_of_ascii c =? 44)%N
                              then parse_members fuel' (skip_ws rest') (<[key := v]> seen)
                              else if (N_of_ascii c =? 125)%N
                              then Some (JObject (<[key := v]> seen), rest')
                              else None
                          | EmptyString => None
                          end
                      end
                    else None
                | EmptyString => None
                end
            end
          else None
      | EmptyString => None
      end
  end.

(** [json.loads(s)]: one value between optional spaces, and nothing else. *)
Definition loads (s : string) : option JSON :=
  match parse_value (2 * String.length s + 2) (skip_ws s) with
  | Some (v, after) =>
      match skip_ws after with
      | EmptyString => Some v
      | _ => None
      end
  | None => None
  end.

End PyJson.
(** The double quote, for the texts of the examples. *)
Definition dq : string := String (ascii_of_N 34) EmptyString.

(** The strings Python's [float] and pydantic's lax [int] are given in the
    examples are plain decimal numbers; the reference host reads those and
    refuses every other text. *)
Definition plain_float_of_str (s : string) : option spec_float :=
  match PyJson.parse_number (PyStr.strip s) with
  | Some (JFloat f, EmptyString) => Some f
  | Some (JInt z, EmptyString) => Some (float_of_int z)
  | _ => None
  end.

Definition plain_int_of_str (s : string) : option Z :=
  match PyJson.parse_number (PyStr.strip s) with
  | Some (JInt z, EmptyString) => Some z
  | _ => None
  end.

(** The texts over the base64 alphabet whose length is a multiple of four
    are taken as decodable; the bytes themselves are only handed to the
    generative model, so the text stands for them. *)
Definition is_base64_char (c : ascii) : bool :=
  let n := N_of_ascii c in
  ((65 <=? n) && (n <=? 90) || (97 <=? n) && (n <=? 122)
   || (48 <=? n) && (n <=? 57) || (n =? 43) || (n =? 47) || (n =? 61))%N.

Definition plain_b64decode (s : string) : option string :=
  if forallb is_base64_char (list_ascii_of_string s)
     && (Nat.eqb (String.length s mod 4) 0)
  then Some s else None.

(** The text of the exceptions raised inside library code, as far as the
    examples show it. *)
Definition plain_lib_str (e : PyExc) : string :=
  match e with
  | EnumValueError cls (JString s) => "'" +:+ s +:+ "' is not a valid " +:+ cls
  | EnumValueError cls (JInt z) => pretty z +:+ " is not a valid " +:+ cls
  | EnumValueError cls _ => "value is not a valid " +:+ cls
  | FloatError _ => "could not convert to float"
  | AttributeError _ attr => "object has no attribute '" +:+ attr +:+ "'"
  | NoneTypeError _ => "'NoneType' object is not subscriptable"
  | Base64Error _ => "Incorrect padding"
  | ValidationError model _ => "validation error for " +:+ model
  | HTTPException code detail => pretty code +:+ ": " +:+ detail
  | ValueError msg => msg
  | ApiError msg => msg
  | RecursionError msg => msg
  end.

(** [json.loads] on the texts of the examples, none of which makes it raise
    anything but [json.JSONDecodeError] (no integer literal of more than 4300
    digits, no deep nesting). *)
Definition plain_json_loads (s : string) : JsonOutcome :=
  match PyJson.loads s with
  | Some v => JsonValue v
  | None => JsonDecodeError
  end.

(** The host of the examples: the clock advances by one at each reading,
    identifiers are numbered, and the generative model answers its n-th
    call with the n-th element of [replies] (and fails after the last). *)
Definition reference_host (replies : list GenOutcome) : Host :=
  {| utcnow_at := fun n => 1000 + Z.of_nat n;
     uuid4_at := fun n => "session-" +:+ pretty n;
     generate_content := fun n _ =>
       match replies !! n with
       | Some r => r
       | None => GenRaise (ApiError "service unavailable")
       end;
     b64decode := plain_b64decode;
     json_loads := plain_json_loads;
     float_of_str := plain_float_of_str;
     int_of_str := plain_int_of_str;
     lib_str := plain_lib_str |}.

Definition sys0 : Sys := {| ticks := 0; calls := 0; uuids := 0 |}.


(* ===================================================================== *)
(** ** Invariants and example data *)
(* ===================================================================== *)

(** The step pointer stays within the instruction list. *)
Definition session_inv (s : EmergencySession) : Prop :=
  0 <= current_step s <= n_instructions s.

Definition store_inv (w : World) : Prop :=
  forall sid s, sessions w !! sid = Some s -> session_inv s.

(** Sessions are stored under their own identifier. *)
Definition store_keyed (w : World) : Prop :=
  forall sid s, sessions w !! sid = Some s -> session_id s = sid.

(** A session that has reached its last instruction. *)
Definition session_at_last_step : EmergencySession :=
  {| session_id := "session-0"; status := ACTIVE;
     started_at := 10; updated_at := 20; ended_at := None;
     analysis := None;
     instructions := generic_default_instructions;
     current_step := 2;
     user_notes := Some "collapsed in the park"; location_data := None |}.

(** The safe default analysis for the exception [e]. *)
Definition fallback_record (H : Host) (e : PyExc) : EmergencyAnalysis :=
  {| emergency_type := UNKNOWN;
     severity := HIGH;
     confidence_score := float_0_0;
     observations := ["Analysis failed - please describe the situation"];
     recommended_action := "Call 911 immediately and describe the emergency";
     call_emergency_services := true;
     additional_context := Some ("Analysis error: " +:+ exc_str H e) |}.

(** The same session on its first instruction. *)
Definition session_at_first_step : EmergencySession :=
  set_current_step 1 session_at_last_step.

(** An error text of a thousand characters. *)
Definition long_text : string := PyStr.repeat "x" 1000.

(** A reply of the generative model to an analysis request, one to an
    instruction request, and a host that gives them in this order. *)
Definition analysis_reply : string :=
  "Assessment: ```json {" +:+ dq +:+ "emergency_type" +:+ dq +:+ ": "
  +:+ dq +:+ "choking" +:+ dq +:+ ", " +:+ dq +:+ "severity" +:+ dq +:+ ": 4} ```".

Definition instructions_reply : string :=
  "[{" +:+ dq +:+ "instruction_text" +:+ dq +:+ ": " +:+ dq
  +:+ "Ask if they can speak" +:+ dq +:+ "}, {" +:+ dq +:+ "instruction_text" +:+ dq
  +:+ ": " +:+ dq +:+ "Perform abdominal thrusts" +:+ dq +:+ "}]".




Definition fenced_array_text : string := "```json [1] ```".


(** A text on which [json.loads] raises a plain [ValueError]: an array
    whose only item is an integer literal of 4301 digits, one more than
    [int] converts; and the host of the examples with a decoder that does
    so on this text. *)
Definition long_integer_array_text : string := "[" +:+ PyStr.repeat "1" 4301 +:+ "]".

Definition digit_limit_error : PyExc :=
  ValueError "Exceeds the limit (4300 digits) for integer string conversion: value has 4301 digits; use sys.set_int_max_str_digits() to increase the limit".

Definition digit_limit_host (replies : list GenOutcome) : Host :=
  let R := reference_host replies in
  {| utcnow_at := utcnow_at R;
     uuid4_at := uuid4_at R;
     generate_content := generate_content R;
     b64decode := b64decode R;
     json_loads := fun s =>
       if String.eqb s long_integer_array_text then JsonRaise digit_limit_error
       else json_loads R s;
     float_of_str := float_of_str R;
     int_of_str := int_of_str R;
     lib_str := lib_str R |}.

(** A reply whose emergency type is a text of a thousand characters. *)
Definition long_type_reply : string :=
  "{" +:+ dq +:+ "emergency_type" +:+ dq +:+ ": " +:+ dq +:+ long_text +:+ dq +:+ "}".


Definition scenario_host : Host :=
  reference_host [GenText (Some analysis_reply); GenText (Some instructions_reply)].

Definition start_request : StartSessionRequest :=
  {| start_user_notes := Some "cannot breathe"; start_location_data := None;
     start_device_info := None |}.

(** The session [create_session] makes first on the reference host. *)
Definition fresh_session : EmergencySession :=
  {| session_id := "session-0"; status := PENDING;
     started_at := 1000; updated_at := 1001; ended_at := None;
     analysis := None; instructions := []; current_step := 0;
     user_notes := Some "cannot breathe"; location_data := None |}.

Definition advance_request (step : Z) : AdvanceStepRequest :=
  {| adv_session_id := "session-0"; adv_current_step := step; adv_feedback := None |}.

Definition end_request (reason : string) (called : bool) : EndSessionRequest :=
  {| end_session_id := "session-0"; end_reason := reason; end_notes := None;
     end_emergency_services_called := called |}.

(** Creation, analysis and one advance: the session is then on the last of
    its two instructions. *)
Definition requests_to_last_step : list Request :=
  [StartSession start_request; AnalyzeFrame "session-0" "AAAA";
   AdvanceStep (advance_request 1)].

Definition world_at_last_step : World :=
  run scenario_host requests_to_last_step initial_world.

(** Creation, then the end of the session with the emergency services
    called: the session is then Escalated. *)
Definition requests_to_escalated : list Request :=
  [StartSession start_request;
   EndSession "session-0" (end_request "ambulance arrived" true)].

Definition world_escalated : World :=
  run (reference_host []) requests_to_escalated initial_world.

(* ===================================================================== *)
(** ** Further operations of the services and of their callers *)
(* ===================================================================== *)

(** The last character of a string. *)
Fixpoint last_char (s : string) : option ascii :=
  match s with
  | EmptyString => None
  | String c EmptyString => Some c
  | String _ rest => last_char rest
  end.

(** [s[:n]]. *)
Definition str_prefix (n : nat) (s : string) : string := String.substring 0 n s.

(** The [strip_whitespace] validator of [StartSessionRequest]
    ([dtos/requests.py]). *)
Definition strip_whitespace (value : option string) : option string :=
  match value with
  | None => None
  | Some v =>
      let stripped := PyStr.strip v in
      if PyStr.truthy stripped then Some stripped else None
  end.

(** [StartSessionRequest(...)] on string or absent fields: the length
    bounds are checked on the given values, then the validator runs. *)
Definition StartSessionRequest_new (v_user_notes v_location_data v_device_info : option string)
    : Outcome StartSessionRequest :=
  let r1 := Pydantic.optional (Pydantic.str_field None (Some 2000)) (opt_json v_user_notes) in
  let r2 := Pydantic.optional (Pydantic.str_field None (Some 500)) (opt_json v_location_data) in
  let r3 := Pydantic.optional (Pydantic.str_field None (Some 500)) (opt_json v_device_info) in
  match r1, r2, r3 with
  | Some a1, Some a2, Some a3 =>
      Return {| start_user_notes := strip_whitespace a1;
                start_location_data := strip_whitespace a2;
                start_device_info := strip_whitespace a3 |}
  | _, _, _ =>
      Raise (ValidationError "StartSessionRequest"
               (Pydantic.failed "user_notes" r1
                ++ Pydantic.failed "location_data" r2
                ++ Pydantic.failed "device_info" r3))
  end.

(** [s] without one final line feed: where [$] can match. *)
Fixpoint before_final_newline (s : string) : string :=
  match s with
  | EmptyString => EmptyString
  | String c EmptyString => if (N_of_ascii c =? 10)%N then EmptyString else s
  | String c rest => String c (before_final_newline rest)
  end.

(** [re.match(r'^[A-Za-z0-9+/=]+$', s)]. *)
Definition matches_base64 (s : string) : bool :=
  let core := before_final_newline s in
  PyStr.truthy core && forallb is_base64_char (list_ascii_of_string core).

(** The [validate_base64] validator of [AnalyzeFrameRequest]
    ([dtos/requests.py]). *)
Definition validate_base64 (value : string) : Outcome string :=
  let stripped := PyStr.strip value in
  let? stripped :=
    if PyStr.starts_with "data:" stripped
    then match PyStr.split_at "," stripped with
         | Some (_, after_comma) => Return after_comma
         | None => Raise (ValueError "Invalid data URL format")
         end
    else Return stripped in
  if matches_base64 stripped then Return stripped
  else Raise (ValueError "Invalid base64 encoding").

(** [ErrorHandlingMiddleware._get_safe_error_details]
    ([middlewares/error_middleware.py]), on the text of the error. *)
Definition sensitive_patterns : list string :=
  ["/home/"; "/app/"; "C:\"; "password"; "secret"; "api_key"; "token"].

Definition generic_error_details : string :=
  "An error occurred. Check server logs for details.".

Definition _get_safe_error_details (error_str : string) : string :=
  if existsb (fun pattern => PyStr.contains (PyStr.lower pattern) (PyStr.lower error_str))
       sensitive_patterns
  then generic_error_details
  else if 200 <? PyStr.len error_str
       then str_prefix 200 error_str +:+ "..."
       else error_str.

(** [GeminiService.process_voice_input], given the outcome [reply] of the
    call it makes to the generative model. *)
Definition voice_fallback : string :=
  "I'm having trouble understanding. Please describe what you see or what help you need.".

Definition gemini_process_voice_input (reply : GenOutcome) (audio_text : string)
    (context : option string) : Py Sys string :=
  try_except
    (let* response := (fun k => (Return reply, after_call k)) in
     match response with
     | GenRaise e => raise e
     | GenText None => raise (AttributeError JNull "strip")
     | GenText (Some text) => ret (PyStr.strip text)
     end)
    (fun e => ret voice_fallback).

(** [GeminiService.check_connection], given the outcome of its call. *)
Definition check_connection (reply : GenOutcome) : Py Sys bool :=
  try_except
    (let* response := (fun k => (Return reply, after_call k)) in
     match response with
     | GenRaise e => raise e
     | GenText None => ret false
     | GenText (Some text) => ret (PyStr.truthy text)
     end)
    (fun e => ret false).

(** [EmergencyService.process_voice_input]. *)
Definition process_voice_input (reply : GenOutcome) (transcribed_text : string)
    : Svc string :=
  let* session := this in
  let analysis_parts :=
    match analysis session with
    | Some a =>
        ["Emergency type: " +:+ emergency_type_value (emergency_type a);
         "Severity: " +:+ pretty (severity_value (severity a)) +:+ "/5"]
    | None => []
    end in
  let step_parts :=
    match instructions session with
    | [] => []
    | _ =>
        if 0 <? current_step session then
          match get_current_instruction session with
          | Some current_inst =>
              ["Current instruction (step " +:+ pretty (current_step session) +:+ "): "
               +:+ instruction_text current_inst]
          | None => []
          end
        else []
    end in
  let context_parts := analysis_parts ++ step_parts in
  let context :=
    match context_parts with
    | [] => None
    | _ => Some (PyStr.join ". " context_parts)
    end in
  with_sys (gemini_process_voice_input reply transcribed_text context).

(** [EmergencyService._build_voice_guidance]. *)
Definition _build_voice_guidance (session : EmergencySession)
    (current_instruction : option FirstAidInstruction) : string :=
  let call_parts :=
    match analysis session with
    | Some a =>
        if call_emergency_services a then
          if 4 <=? severity_value (severity a)
          then ["This is a critical emergency. Call 911 immediately if you haven't already."]
          else ["Consider calling 911 if professional help is needed."]
        else []
    | None => []
    end in
  let action_parts :=
    match analysis session with
    | Some a => if PyStr.truthy (recommended_action a) then [recommended_action a] else []
    | None => []
    end in
  let step_parts :=
    match current_instruction with
    | Some i => ["Step " +:+ pretty (step_number i) +:+ ": " +:+ voice_text i]
    | None => []
    end in
  PyStr.join " " (call_parts ++ action_parts ++ step_parts).

(** The fields of [AnalysisData] ([dtos/responses.py]). *)
Record AnalysisData := {
  ad_session_id : UUID;
  ad_emergency_type : EmergencyType;
  ad_severity : SeverityLevel;
  ad_confidence_score : spec_float;
  ad_observations : list string;
  ad_recommended_action : string;
  ad_call_emergency_services : bool;
  ad_instructions : list FirstAidInstruction;
  ad_voice_guidance : string;
}.

(** [EmergencyService.build_analysis_response]; the values come from
    validated models, which the response model takes as they are, and its
    confidence bounds are those of the analysis. *)
Definition build_analysis_response (session : EmergencySession) : Outcome AnalysisData :=
  match analysis session with
  | None => Raise (ValueError "Session has no analysis results")
  | Some a =>
      let current_instruction := get_current_instruction session in
      let voice_guidance := _build_voice_guidance session current_instruction in
      match Pydantic.float_range float_0_0 float_1_0 (confidence_score a) with
      | Some c =>
          Return {| ad_session_id := session_id session;
                    ad_emergency_type := emergency_type a;
                    ad_severity := severity a;
                    ad_confidence_score := c;
                    ad_observations := observations a;
                    ad_recommended_action := recommended_action a;
                    ad_call_emergency_services := call_emergency_services a;
                    ad_instructions := instructions session;
                    ad_voice_guidance := voice_guidance |}
      | None => Raise (ValidationError "AnalysisData" ["confidence_score"])
      end
  end.

(** The fields of [SessionData] ([dtos/responses.py]) and
    [SessionService.build_session_response]; both counters must be
    non-negative. *)
Record SessionData := {
  sd_session_id : UUID;
  sd_status : EmergencyStatus;
  sd_started_at : Time;
  sd_current_step : Z;
  sd_total_steps : Z;
  sd_emergency_type : option EmergencyType;
  sd_severity : option SeverityLevel;
}.

Definition build_session_response (session : EmergencySession) : Outcome SessionData :=
  if (0 <=? current_step session) && (0 <=? n_instructions session)
  then Return {| sd_session_id := session_id session;
                 sd_status := status session;
                 sd_started_at := started_at session;
                 sd_current_step := current_step session;
                 sd_total_steps := n_instructions session;
                 sd_emergency_type := option_map emergency_type (analysis session);
                 sd_severity := option_map severity (analysis session) |}
  else Raise (ValidationError "SessionData"
                ((if 0 <=? current_step session then [] else ["current_step"])
                 ++ (if 0 <=? n_instructions session then [] else ["total_steps"]))).

(** [SessionController.get_session] (and [get_session_status], which calls
    it). *)
Definition controller_get_session (H : Host) (sid : UUID) : Py World SessionData :=
  http_guard H "Failed to retrieve session: "
    (let* found := get_session sid in
     match found with
     | None => raise (HTTPException 404 ("Session " +:+ sid +:+ " not found"))
     | Some session => lift_outcome (build_session_response session)
     end).

(** [EmergencyController.process_audio]: the audio is acknowledged, nothing
    is stored. *)
Definition controller_process_audio (H : Host) (sid : UUID) : Py World unit :=
  http_guard H "Audio processing failed: "
    (let* found := get_session sid in
     match found with
     | None => raise (HTTPException 404 ("Session " +:+ sid +:+ " not found"))
     | Some _ => ret tt
     end).

(** [n] calls of [advance_instruction] in a row. *)
Fixpoint advance_times (H : Host) (n : nat) (st : EmergencySession * Sys)
    : EmergencySession * Sys :=
  match n with
  | O => st
  | S n' => advance_times H n' (snd (advance_instruction H None st))
  end.

(** A clock that never goes back. *)
Definition clock_monotone (H : Host) : Prop :=
  forall n m : nat, (n <= m)%nat -> utcnow_at H n <= utcnow_at H m.

(** The timestamps of a session are readings of the clock, taken in the
    order start, end, last update, before the reading number [bound]. *)
Definition session_times_ok (H : Host) (bound : nat) (s : EmergencySession) : Prop :=
  exists a b : nat,
    (a <= b)%nat /\ (b < bound)%nat
    /\ started_at s = utcnow_at H a
    /\ updated_at s = utcnow_at H b
    /\ forall t, ended_at s = Some t ->
         exists c : nat, (a <= c)%nat /\ (c <= b)%nat /\ t = utcnow_at H c.

Definition store_times_ok (H : Host) (w : World) : Prop :=
  forall sid s, sessions w !! sid = Some s -> session_times_ok H (ticks (sys w)) s.

(** What a session keeps through a new analysis. *)
Definition same_identity (s1 s2 : EmergencySession) : Prop :=
  session_id s1 = session_id s2 /\ started_at s1 = started_at s2
  /\ ended_at s1 = ended_at s2 /\ user_notes s1 = user_notes s2
  /\ location_data s1 = location_data s2.

(** A text without characters to strip, and a list of such observations. *)
Definition is_stripped (s : string) : Prop := PyStr.strip s = s.

Definition clean_observation (s : string) : Prop :=
  s <> EmptyString /\ is_stripped s.

(** The field constraints of [EmergencyAnalysis]. *)
Definition analysis_valid (a : EmergencyAnalysis) : Prop :=
  float_le float_0_0 (confidence_score a) = true
  /\ float_le (confidence_score a) float_1_0 = true
  /\ 1 <= PyStr.len (recommended_action a) <= 500
  /\ (forall c, additional_context a = Some c -> PyStr.len c <= 1000)
  /\ Forall clean_observation (observations a).

(** The field constraints of [FirstAidInstruction]. *)
Definition instruction_valid (i : FirstAidInstruction) : Prop :=
  1 <= step_number i
  /\ 1 <= PyStr.len (instruction_text i) <= 500
  /\ 1 <= PyStr.len (voice_text i) <= 500
  /\ (forall d, duration_seconds i = Some d -> 0 <= d)
  /\ (forall w, warning i = Some w -> PyStr.len w <= 200)
  /\ (forall v, visual_cue i = Some v -> PyStr.len v <= 200).

(** A reply with a fenced payload between two pieces of prose. *)
Definition all_spaces (s : string) : Prop :=
  forallb PyStr.is_space (list_ascii_of_string s) = true.

Definition backtick : ascii := ascii_of_N 96.

(** The notes of a session after [end_session] has added those of the
    request, as its last step does. *)
Definition append_resolution_notes (notes : option string) (session : EmergencySession)
    : EmergencySession :=
  match notes with
  | Some notes =>
      if PyStr.truthy notes then
        set_user_notes
          (Some (PyStr.strip
                   (match user_notes session with
                    | Some n => if PyStr.truthy n then n else EmptyString
                    | None => EmptyString
                    end +:+ newline +:+ newline +:+ "Resolution: " +:+ notes)))
          session
      else session
  | None => session
  end.

(** An end request with resolution notes, and the store after the creation
    of the first session of the example scenario. *)
Definition end_request_with_notes (reason notes : string) : EndSessionRequest :=
  {| end_session_id := "session-0"; end_reason := reason; end_notes := Some notes;
     end_emergency_services_called := false |}.

Definition world_created : World :=
  run scenario_host [StartSession start_request] initial_world.

(** The first session of the example scenario after its frame was
    analysed. *)
Definition analysed_session : EmergencySession :=
  fst (snd (analyze_frame scenario_host "AAAA" None (fresh_session, sys0))).

(* ===================================================================== *)
(** ** Properties: the severity heuristic *)
(* ===================================================================== *)

Ltac unfold_py :=
  unfold bind, ret, raise, try_except, lift_outcome, and_then,
         assign, now, this, with_sys in *.

Lemma escalate_on_keyword_once keywords obs_text severity :
  escalate_on_keyword keywords obs_text severity =
  if existsb (fun k => PyStr.contains k obs_text) keywords
  then Z.min 5 (severity + 1) else severity.
Proof.
  induction keywords as [|keyword rest IH]; simpl; [reflexivity|].
  destruct (PyStr.contains keyword obs_text); simpl; [reflexivity|exact IH].
Qed.

Lemma type_severity_range t : 1 <= type_severity t <= 5.
Proof. destruct t; simpl; lia. Qed.

(** C9: the severity heuristic returns the base score of the per-type
    table, raised by exactly one and capped at 5 when some critical keyword
    occurs in the lower-cased, space-joined observations, and by no more
    than one however many keywords occur; the listed table entries and the
    two examples of the specification hold. *)
Theorem C9_severity_heuristic :
  forall (t : EmergencyType) (obs : list string),
    let obs_text := PyStr.lower (PyStr.join " " obs) in
    let hit := existsb (fun k => PyStr.contains k obs_text) critical_keywords in
    calculate_severity_score t obs
      = (if hit then Z.min 5 (type_severity t + 1) else type_severity t)
    /\ 1 <= calculate_severity_score t obs <= 5
    /\ (type_severity CARDIAC_ARREST = 5 /\ type_severity STROKE = 5
        /\ type_severity DROWNING = 5 /\ type_severity SEVERE_BLEEDING = 4
        /\ type_severity CHOKING = 4 /\ type_severity SEIZURE = 3
        /\ type_severity ASTHMA_ATTACK = 3 /\ type_severity FRACTURE = 2
        /\ type_severity UNKNOWN = 3)
    /\ calculate_severity_score CARDIAC_ARREST ["no pulse"] = 5
    /\ calculate_severity_score FRACTURE [] = 2.
Proof.
  intros t obs obs_text hit.
  assert (Heq : calculate_severity_score t obs
                = (if hit then Z.min 5 (type_severity t + 1) else type_severity t)).
  { unfold calculate_severity_score. apply escalate_on_keyword_once. }
  split; [exact Heq|]. split.
  - rewrite Heq. pose proof (type_severity_range t). destruct hit; lia.
  - repeat split; reflexivity.
Qed.

(* ===================================================================== *)
(** ** Properties: advancing through the instructions *)
(* ===================================================================== *)

Lemma n_instructions_nonneg s : 0 <= n_instructions s.
Proof. unfold n_instructions. lia. Qed.

Lemma n_instructions_nil s : instructions s = [] -> n_instructions s = 0.
Proof. unfold n_instructions. intros ->. reflexivity. Qed.

Lemma n_instructions_pos s : instructions s <> [] -> 0 < n_instructions s.
Proof. unfold n_instructions. destruct (instructions s); [congruence|simpl; lia]. Qed.

(** The three branches of [advance_instruction]. *)
Lemma advance_instruction_empty H feedback s k :
  instructions s = [] ->
  advance_instruction H feedback (s, k) = (Return (false, None), (s, k)).
Proof. intros E. unfold advance_instruction. unfold_py. rewrite E. reflexivity. Qed.

Lemma advance_instruction_last H feedback s k :
  instructions s <> [] -> n_instructions s <= current_step s ->
  advance_instruction H feedback (s, k)
  = (Return (false, None),
     (set_updated_at (utcnow_at H (S (ticks k)))
        (set_ended_at (Some (utcnow_at H (ticks k))) (set_status RESOLVED s)),
      {| ticks := S (S (ticks k)); calls := calls k; uuids := uuids k |})).
Proof.
  intros NE Hle. unfold advance_instruction. unfold_py.
  destruct (instructions s) as [|i l] eqn:E; [congruence|].
  apply Z.leb_le in Hle. rewrite Hle. reflexivity.
Qed.

Lemma advance_instruction_next H feedback s k :
  instructions s <> [] -> current_step s < n_instructions s ->
  advance_instruction H feedback (s, k)
  = (Return (true,
             get_current_instruction
               (set_updated_at (utcnow_at H (ticks k))
                  (set_current_step (current_step s + 1) s))),
     (set_updated_at (utcnow_at H (ticks k))
        (set_current_step (current_step s + 1) s),
      {| ticks := S (ticks k); calls := calls k; uuids := uuids k |})).
Proof.
  intros NE Hlt. unfold advance_instruction. unfold_py.
  destruct (instructions s) as [|i l] eqn:E; [congruence|].
  apply Z.leb_gt in Hlt. rewrite Hlt. reflexivity.
Qed.

Lemma get_current_instruction_in_range s :
  1 <= current_step s <= n_instructions s ->
  exists i, get_current_instruction s = Some i
            /\ instructions s !! Z.to_nat (current_step s - 1) = Some i.
Proof.
  intros [Hlo Hhi].
  assert (Hlt : (Z.to_nat (current_step s - 1) < length (instructions s))%nat).
  { unfold n_instructions in Hhi. lia. }
  apply lookup_lt_is_Some in Hlt. destruct Hlt as [i Hi].
  exists i. split; [|exact Hi].
  unfold get_current_instruction, instruction_at.
  replace (current_step s <? 1) with false by (symmetry; apply Z.ltb_ge; lia).
  replace (n_instructions s <? current_step s) with false
    by (symmetry; apply Z.ltb_ge; lia).
  simpl. destruct (instructions s) eqn:E; [|exact Hi].
  rewrite lookup_nil in Hi. discriminate.
Qed.

(** The two methods of the model agree with the service: reading the
    current instruction is the same function, and [advance_step] moves the
    pointer as [advance_instruction] does but never ends the session. *)
Lemma get_current_instruction_method_agrees s :
  get_current_instruction_method s = get_current_instruction s.
Proof.
  unfold get_current_instruction_method, get_current_instruction.
  destruct (instructions s) as [|i l] eqn:E.
  - rewrite (n_instructions_nil s E).
    destruct (Z.ltb_spec 0 (current_step s)); destruct (Z.leb_spec (current_step s) 0);
      simpl; try reflexivity; lia.
  - destruct (Z.ltb_spec 0 (current_step s)); destruct (Z.ltb_spec (current_step s) 1);
      destruct (Z.leb_spec (current_step s) (n_instructions s));
      destruct (Z.ltb_spec (n_instructions s) (current_step s));
      simpl; try reflexivity; lia.
Qed.

Lemma advance_step_method_spec H self k :
  advance_step_method H self k
  = if current_step self <? n_instructions self
    then (true,
          set_updated_at (utcnow_at H (ticks k))
            (set_current_step (current_step self + 1) self),
          snd (utcnow H k))
    else (false, self, k).
Proof. unfold advance_step_method. destruct (_ <? _); reflexivity. Qed.

(** C3: on a session of the data model (step pointer within the list),
    [advance_instruction] is a no-op returning (false, none) when there are
    no instructions; when the pointer equals the number of instructions it
    sets the status to Resolved, stamps [ended_at] and returns
    (false, none); otherwise it adds exactly one to the pointer and returns
    (true, the instruction at the new pointer). *)
Theorem C3_advance_step :
  forall (H : Host) (feedback : option string) (s : EmergencySession) (k : Sys),
    session_inv s ->
    (instructions s = [] ->
       advance_instruction H feedback (s, k) = (Return (false, None), (s, k)))
    /\ (instructions s <> [] -> current_step s = n_instructions s ->
        exists s' k',
          advance_instruction H feedback (s, k) = (Return (false, None), (s', k'))
          /\ status s' = RESOLVED
          /\ ended_at s' = Some (utcnow_at H (ticks k))
          /\ current_step s' = current_step s
          /\ instructions s' = instructions s)
    /\ (instructions s <> [] -> current_step s <> n_instructions s ->
        exists s' k' i,
          advance_instruction H feedback (s, k) = (Return (true, Some i), (s', k'))
          /\ current_step s' = current_step s + 1
          /\ instructions s' = instructions s
          /\ instructions s !! Z.to_nat (current_step s' - 1) = Some i
          /\ status s' = status s
          /\ ended_at s' = ended_at s).
Proof.
  intros H feedback s k [Hlo Hhi]. split; [|split].
  - apply advance_instruction_empty.
  - intros NE Heq. eexists _, _. split.
    + apply advance_instruction_last; [exact NE|lia].
    + repeat split; reflexivity.
  - intros NE Hne.
    assert (Hlt : current_step s < n_instructions s) by lia.
    set (s' := set_updated_at (utcnow_at H (ticks k))
                 (set_current_step (current_step s + 1) s)).
    destruct (get_current_instruction_in_range s') as [i [Hi Hl]].
    { subst s'. simpl. unfold n_instructions in *. simpl. lia. }
    exists s', {| ticks := S (ticks k); calls := calls k; uuids := uuids k |}, i.
    split.
    + rewrite advance_instruction_next by assumption. fold s'. rewrite Hi. reflexivity.
    + repeat split; try reflexivity. exact Hl.
Qed.

(** The theorem at a session on its first of two instructions. *)
Lemma C3_advance_step_witness :
  session_inv session_at_first_step
  /\ exists s' k' i,
       advance_instruction (reference_host []) None (session_at_first_step, sys0)
       = (Return (true, Some i), (s', k'))
       /\ current_step s' = 2
       /\ step_number i = 2.
Proof.
  assert (Hinv : session_inv session_at_first_step) by (vm_compute; split; discriminate).
  split; [exact Hinv|].
  destruct (C3_advance_step (reference_host []) None session_at_first_step sys0 Hinv)
    as [_ [_ Hnext]].
  destruct Hnext as [s' [k' [i [Hrun [Hstep [_ [Hlook _]]]]]]];
    [discriminate | vm_compute; discriminate |].
  exists s', k', i. split; [exact Hrun|]. split; [exact Hstep|].
  rewrite Hstep in Hlook. vm_compute in Hlook. inversion Hlook. reflexivity.
Defined.

(* ===================================================================== *)
(** ** Properties: the frame-analysis workflow *)
(* ===================================================================== *)

Lemma generate_first_aid_instructions_returns H t sv obs k :
  exists l k', generate_first_aid_instructions H t sv obs k = (Return l, k').
Proof.
  unfold generate_first_aid_instructions. unfold_py.
  destruct (generate_first_aid_instructions_body H t sv obs k) as [[l|e] k'];
    eexists _, _; reflexivity.
Qed.

(** [analyze_frame], branch by branch. *)
Lemma analyze_frame_eq H fd ctx s k :
  let k1 := snd (utcnow H k) in
  let k2 := snd (utcnow H k1) in
  let s1 := set_updated_at (utcnow_at H (ticks k1)) (set_status ANALYZING s) in
  let failed k3 :=
    (set_updated_at (utcnow_at H (ticks k3)) (set_status ACTIVE s1), snd (utcnow H k3)) in
  analyze_frame H fd ctx (s, k) =
  match analyze_emergency_frame H fd (_build_context s ctx) k2 with
  | (Raise e, k3) => (Raise e, failed k3)
  | (Return a, k3) =>
      match generate_first_aid_instructions H (emergency_type a) (severity a)
              (observations a) k3 with
      | (Raise e, k4) => (Raise e, failed k4)
      | (Return i, k4) =>
          (Return (a, i),
           (set_updated_at (utcnow_at H (ticks k4))
              (set_current_step (match i with [] => 0 | _ => 1 end)
                 (set_status ACTIVE
                    (set_instructions i (set_analysis (Some a) s1)))),
            snd (utcnow H (snd (utcnow H k4)))))
      end
  end.
Proof.
  unfold analyze_frame. unfold_py. simpl.
  change (_build_context
            (set_updated_at (utcnow_at H (S (ticks k))) (set_status ANALYZING s)) ctx)
    with (_build_context s ctx).
  destruct (analyze_emergency_frame H fd (_build_context s ctx) _) as [[a|e] k3];
    [|reflexivity].
  destruct (generate_first_aid_instructions H _ _ _ k3) as [[i|e] k4]; reflexivity.
Qed.

(** C10: when the frame-analysis workflow raises after the session entered
    Analyzing, the session is left Active, its analysis, instructions, step
    pointer, end time, notes and location (and its identifier and start
    time) are those before the call, its [updated_at] is the time of the
    failure, and the exception handed to the caller is the one the
    classifier raised. *)
Theorem C10_failed_analysis_leaves_session_active :
  forall (H : Host) (frame_data : string) (user_context : option string)
         (s s' : EmergencySession) (k k' : Sys) (e : PyExc),
    analyze_frame H frame_data user_context (s, k) = (Raise e, (s', k')) ->
    status s' = ACTIVE
    /\ analysis s' = analysis s
    /\ instructions s' = instructions s
    /\ current_step s' = current_step s
    /\ ended_at s' = ended_at s
    /\ user_notes s' = user_notes s
    /\ location_data s' = location_data s
    /\ session_id s' = session_id s
    /\ started_at s' = started_at s
    /\ exists k2 k3,
         analyze_emergency_frame H frame_data (_build_context s user_context) k2
         = (Raise e, k3)
         /\ updated_at s' = utcnow_at H (ticks k3).
Proof.
  intros H fd ctx s s' k k' e Hrun.
  rewrite analyze_frame_eq in Hrun. cbv zeta in Hrun.
  destruct (analyze_emergency_frame H fd (_build_context s ctx) _) as [[a|e0] k3] eqn:Ea.
  - destruct (generate_first_aid_instructions_returns H (emergency_type a)
                (severity a) (observations a) k3) as [l [k4 Hg]].
    rewrite Hg in Hrun. discriminate.
  - inversion Hrun; subst. repeat split; try reflexivity.
    eexists _, _. split; [exact Ea|reflexivity].
Qed.

(** The theorem at a session whose analysis fails: the generative model
    raises with a long text, so that the default analysis cannot be built
    either and the classifier raises. *)
Lemma C10_failed_analysis_leaves_session_active_witness :
  exists e s' k',
    analyze_frame (reference_host [GenRaise (ApiError long_text)]) "AAAA" None
      (session_at_first_step, sys0) = (Raise e, (s', k'))
    /\ status s' = ACTIVE
    /\ current_step s' = 1
    /\ instructions s' = generic_default_instructions.
Proof.
  let v := eval vm_compute in
             (analyze_frame (reference_host [GenRaise (ApiError long_text)]) "AAAA" None
                (session_at_first_step, sys0)) in
  assert (Hrun : analyze_frame (reference_host [GenRaise (ApiError long_text)]) "AAAA" None
                   (session_at_first_step, sys0) = v)
    by (vm_compute; reflexivity).
  match type of Hrun with
  | _ = (Raise ?e, (?s', ?k')) =>
      exists e, s', k'; split; [exact Hrun|];
      destruct (C10_failed_analysis_leaves_session_active _ _ _ _ _ _ _ _ Hrun)
        as (Hst & _ & Hins & Hcs & _)
  end.
  split; [exact Hst|]. split; [rewrite Hcs; reflexivity | rewrite Hins; reflexivity].
Defined.

(* ===================================================================== *)
(** ** Properties: the step pointer invariant *)
(* ===================================================================== *)

Lemma analyze_frame_inv H fd ctx s k r s' k' :
  session_inv s ->
  analyze_frame H fd ctx (s, k) = (r, (s', k')) ->
  session_inv s'
  /\ forall a i, r = Return (a, i) ->
       instructions s' = i /\ status s' = ACTIVE /\ analysis s' = Some a
       /\ current_step s' = match i with [] => 0 | _ => 1 end.
Proof.
  intros Hinv Hrun. rewrite analyze_frame_eq in Hrun. cbv zeta in Hrun.
  destruct (analyze_emergency_frame H fd (_build_context s ctx) _) as [[a|e0] k3].
  - destruct (generate_first_aid_instructions H _ _ _ k3) as [[i|e0] k4];
      inversion Hrun; subst; clear Hrun.
    + split.
      * unfold session_inv, n_instructions. simpl. destruct i; simpl; lia.
      * intros a' i' E. inversion E; subst. repeat split; reflexivity.
    + split; [exact Hinv|]. intros a' i' E. discriminate.
  - inversion Hrun; subst. split; [exact Hinv|]. intros a' i' E. discriminate.
Qed.

Lemma advance_instruction_inv H feedback s k r s' k' :
  session_inv s ->
  advance_instruction H feedback (s, k) = (r, (s', k')) ->
  session_inv s'.
Proof.
  intros Hinv Hrun.
  destruct (instructions s) as [|i0 l] eqn:E.
  - rewrite advance_instruction_empty in Hrun by exact E. inversion Hrun; subst. exact Hinv.
  - assert (NE : instructions s <> []) by (rewrite E; discriminate).
    destruct (Z_lt_le_dec (current_step s) (n_instructions s)) as [Hlt|Hle].
    + rewrite advance_instruction_next in Hrun by assumption.
      inversion Hrun; subst. unfold session_inv, n_instructions in *. simpl. lia.
    + rewrite advance_instruction_last in Hrun by assumption.
      inversion Hrun; subst. exact Hinv.
Qed.

Lemma store_inv_insert w sid s k :
  store_inv w -> session_inv s ->
  store_inv {| sessions := <[sid := s]> (sessions w); sys := k |}.
Proof.
  intros Hw Hs sid' s'. simpl. rewrite lookup_insert.
  destruct (decide (sid = sid')); [intros [= <-]; exact Hs | apply Hw].
Qed.

Lemma store_inv_insert2 w a b s k :
  store_inv w -> session_inv s ->
  store_inv {| sessions := <[a := s]> (<[b := s]> (sessions w)); sys := k |}.
Proof.
  intros Hw Hs sid' s'. simpl. rewrite !lookup_insert.
  destruct (decide (a = sid')); [intros [= <-]; exact Hs|].
  destruct (decide (b = sid')); [intros [= <-]; exact Hs | apply Hw].
Qed.

Lemma store_inv_sys w k :
  store_inv w -> store_inv {| sessions := sessions w; sys := k |}.
Proof. intros Hw sid s. simpl. apply Hw. Qed.

Lemma update_session_inv H ref s w :
  store_inv w -> session_inv s -> store_inv (snd (update_session H ref s w)).
Proof.
  intros Hw Hs. unfold update_session.
  destruct (sessions w !! session_id s); simpl; [|exact Hw].
  apply store_inv_insert2; assumption.
Qed.

Lemma update_session_result H ref s w :
  forall s' w', update_session H ref s w = (Return s', w') ->
    s' = set_updated_at (utcnow_at H (ticks (sys w))) s.
Proof.
  intros s' w'. unfold update_session.
  destruct (sessions w !! session_id s); simpl; intros E; inversion E; reflexivity.
Qed.

Lemma create_session_inv H request w :
  store_inv w -> store_inv (snd (create_session H request w)).
Proof.
  intros Hw. unfold create_session. simpl.
  destruct (Pydantic.optional _ _); simpl.
  - apply store_inv_insert; [exact Hw|]. unfold session_inv, n_instructions. simpl. lia.
  - apply store_inv_sys. exact Hw.
Qed.

Lemma end_session_inv H sid request w :
  store_inv w -> store_inv (snd (end_session H sid request w)).
Proof.
  intros Hw. unfold end_session, get_session, world_now. unfold_py.
  destruct (sessions w !! sid) as [s|] eqn:E; [|exact Hw].
  destruct (bool_decide (status s = RESOLVED) || bool_decide (status s = CANCELLED));
    [exact Hw|].
  simpl. pose proof (Hw sid s E) as Hs.
  apply store_inv_insert2; [exact Hw|].
  destruct (end_notes request) as [notes|];
    try destruct (PyStr.truthy notes);
    destruct (end_emergency_services_called request);
    try destruct (PyStr.contains _ _);
    exact Hs.
Qed.

(** A handler that only re-raises leaves the state the body left. *)
Lemma http_guard_state {S A} H prefix (m : Py S A) w :
  snd (http_guard H prefix m w) = snd (m w).
Proof.
  unfold http_guard, try_except, raise.
  destruct (m w) as [[a|e] w']; [reflexivity|]. destruct e; reflexivity.
Qed.

Lemma controller_analyze_frame_inv H sid fd w :
  store_inv w -> store_inv (snd (EmergencyController.analyze_frame H sid fd w)).
Proof.
  intros Hw. unfold EmergencyController.analyze_frame.
  rewrite http_guard_state. unfold get_session, on_session. unfold_py.
  destruct (sessions w !! sid) as [s|] eqn:E; [|exact Hw].
  destruct (analyze_frame H fd None (s, sys w)) as [r [s' k']] eqn:Hrun.
  destruct (analyze_frame_inv _ _ _ _ _ _ _ _ (Hw sid s E) Hrun) as [Hs' _].
  pose proof (store_inv_insert w sid s' k' Hw Hs') as Hw1.
  destruct r as [[a i]|e]; [|exact Hw1].
  pose proof (update_session_inv H sid s' _ Hw1 Hs') as Hw2.
  destruct (update_session H sid s' _) as [[s2|e] w2]; [|exact Hw2].
  simpl in *. destruct (analysis s2); exact Hw2.
Qed.

Lemma controller_advance_step_inv H request w :
  store_inv w -> store_inv (snd (EmergencyController.advance_step H request w)).
Proof.
  intros Hw. unfold EmergencyController.advance_step.
  rewrite http_guard_state. unfold get_session, on_session. unfold_py.
  destruct (sessions w !! adv_session_id request) as [s|] eqn:E; [|exact Hw].
  destruct (negb (current_step s =? adv_current_step request)); [exact Hw|].
  destruct (advance_instruction H (adv_feedback request) (s, sys w))
    as [r [s' k']] eqn:Hrun.
  pose proof (advance_instruction_inv _ _ _ _ _ _ _ (Hw _ s E) Hrun) as Hs'.
  pose proof (store_inv_insert w (adv_session_id request) s' k' Hw Hs') as Hw1.
  destruct r as [[success new_instruction]|e]; [|exact Hw1].
  pose proof (update_session_inv H (adv_session_id request) s' _ Hw1 Hs') as Hw2.
  destruct (update_session H _ s' _) as [[s2|e] w2]; [|exact Hw2].
  simpl in *. destruct (negb success); exact Hw2.
Qed.

Lemma controller_get_current_instruction_state H sid w :
  snd (EmergencyController.get_current_instruction H sid w) = w.
Proof.
  unfold EmergencyController.get_current_instruction.
  rewrite http_guard_state. unfold get_session. unfold_py.
  destruct (sessions w !! sid) as [s|]; [|reflexivity].
  destruct (instructions s); [reflexivity|].
  destruct (get_current_instruction s); reflexivity.
Qed.

Lemma handle_inv H w req : store_inv w -> store_inv (handle H w req).
Proof.
  intros Hw. destruct req as [request|sid fd|request|sid|sid request]; simpl.
  - unfold SessionController.create_session, try_except, raise.
    pose proof (create_session_inv H request w Hw) as Hc.
    destruct (create_session H request w) as [[s|e] w']; exact Hc.
  - apply controller_analyze_frame_inv, Hw.
  - apply controller_advance_step_inv, Hw.
  - rewrite controller_get_current_instruction_state. exact Hw.
  - unfold SessionController.end_session, try_except, raise.
    destruct (negb (String.eqb sid (end_session_id request))); [exact Hw|].
    pose proof (end_session_inv H sid request w Hw) as He.
    destruct (end_session H sid request w) as [[s|e] w']; [exact He|].
    destruct e; try exact He; destruct (is_value_error _); exact He.
Qed.

Lemma run_inv H reqs : forall w, store_inv w -> store_inv (run H reqs w).
Proof.
  induction reqs as [|req reqs IH]; intros w Hw; simpl; [exact Hw|].
  apply IH, handle_inv, Hw.
Qed.

Lemma initial_world_inv : store_inv initial_world.
Proof. intros sid s. simpl. rewrite lookup_empty. discriminate. Qed.

(** Every stored session is kept under its own identifier: the services
    never assign [session_id]. *)
Lemma analyze_frame_id H fd ctx s k r s' k' :
  analyze_frame H fd ctx (s, k) = (r, (s', k')) -> session_id s' = session_id s.
Proof.
  intros Hrun. rewrite analyze_frame_eq in Hrun. cbv zeta in Hrun.
  destruct (analyze_emergency_frame H fd (_build_context s ctx) _) as [[a|e0] k3].
  - destruct (generate_first_aid_instructions H _ _ _ k3) as [[i|e0] k4];
      inversion Hrun; subst; reflexivity.
  - inversion Hrun; subst; reflexivity.
Qed.

Lemma advance_instruction_id H feedback s k r s' k' :
  advance_instruction H feedback (s, k) = (r, (s', k')) -> session_id s' = session_id s.
Proof.
  intros Hrun.
  destruct (instructions s) as [|i0 l] eqn:E.
  - rewrite advance_instruction_empty in Hrun by exact E. inversion Hrun; subst. reflexivity.
  - assert (NE : instructions s <> []) by (rewrite E; discriminate).
    destruct (Z_lt_le_dec (current_step s) (n_instructions s)) as [Hlt|Hle].
    + rewrite advance_instruction_next in Hrun by assumption.
      inversion Hrun; subst. reflexivity.
    + rewrite advance_instruction_last in Hrun by assumption.
      inversion Hrun; subst. reflexivity.
Qed.

Lemma store_keyed_insert w sid s k :
  store_keyed w -> session_id s = sid ->
  store_keyed {| sessions := <[sid := s]> (sessions w); sys := k |}.
Proof.
  intros Hw Hs sid' s'. simpl. rewrite lookup_insert.
  destruct (decide (sid = sid')) as [<-|]; [intros [= <-]; exact Hs | apply Hw].
Qed.

Lemma store_keyed_insert2 w a b s k :
  store_keyed w -> session_id s = a -> session_id s = b ->
  store_keyed {| sessions := <[a := s]> (<[b := s]> (sessions w)); sys := k |}.
Proof.
  intros Hw Ha Hb sid' s'. simpl. rewrite !lookup_insert.
  destruct (decide (a = sid')) as [<-|]; [intros [= <-]; exact Ha|].
  destruct (decide (b = sid')) as [<-|]; [intros [= <-]; exact Hb | apply Hw].
Qed.

Lemma update_session_keyed H ref s w :
  store_keyed w -> session_id s = ref -> store_keyed (snd (update_session H ref s w)).
Proof.
  intros Hw Hs. unfold update_session.
  destruct (sessions w !! session_id s); simpl; [|exact Hw].
  apply store_keyed_insert2; [exact Hw | reflexivity | exact Hs].
Qed.

Lemma end_session_keyed H sid request w :
  store_keyed w -> store_keyed (snd (end_session H sid request w)).
Proof.
  intros Hw. unfold end_session, get_session, world_now. unfold_py.
  destruct (sessions w !! sid) as [s|] eqn:E; [|exact Hw].
  destruct (bool_decide (status s = RESOLVED) || bool_decide (status s = CANCELLED));
    [exact Hw|].
  simpl. pose proof (Hw sid s E) as Hs.
  apply store_keyed_insert2; [exact Hw|reflexivity|].
  destruct (end_notes request) as [notes|];
    try destruct (PyStr.truthy notes);
    destruct (end_emergency_services_called request);
    try destruct (PyStr.contains _ _);
    exact Hs.
Qed.

Lemma handle_keyed H w req : store_keyed w -> store_keyed (handle H w req).
Proof.
  intros Hw. destruct req as [request|sid fd|request|sid|sid request]; simpl.
  - unfold SessionController.create_session, try_except, raise.
    assert (Hc : store_keyed (snd (create_session H request w))).
    { unfold create_session. simpl. destruct (Pydantic.optional _ _); simpl.
      - apply store_keyed_insert; [exact Hw|reflexivity].
      - intros sid s. simpl. apply Hw. }
    destruct (create_session H request w) as [[s|e] w']; exact Hc.
  - unfold EmergencyController.analyze_frame.
    rewrite http_guard_state. unfold get_session, on_session. unfold_py.
    destruct (sessions w !! sid) as [s|] eqn:E; [|exact Hw].
    destruct (analyze_frame H fd None (s, sys w)) as [r [s' k']] eqn:Hrun.
    assert (Hs' : session_id s' = sid)
      by (rewrite (analyze_frame_id _ _ _ _ _ _ _ _ Hrun); apply (Hw sid s E)).
    pose proof (store_keyed_insert w sid s' k' Hw Hs') as Hw1.
    destruct r as [[a i]|e]; [|exact Hw1].
    pose proof (update_session_keyed H sid s' _ Hw1 Hs') as Hw2.
    destruct (update_session H sid s' _) as [[s2|e] w2]; [|exact Hw2].
    simpl in *. destruct (analysis s2); exact Hw2.
  - unfold EmergencyController.advance_step.
    rewrite http_guard_state. unfold get_session, on_session. unfold_py.
    destruct (sessions w !! adv_session_id request) as [s|] eqn:E; [|exact Hw].
    destruct (negb (current_step s =? adv_current_step request)); [exact Hw|].
    destruct (advance_instruction H (adv_feedback request) (s, sys w))
      as [r [s' k']] eqn:Hrun.
    assert (Hs' : session_id s' = adv_session_id request)
      by (rewrite (advance_instruction_id _ _ _ _ _ _ _ Hrun); apply (Hw _ s E)).
    pose proof (store_keyed_insert w _ s' k' Hw Hs') as Hw1.
    destruct r as [[success new_instruction]|e]; [|exact Hw1].
    pose proof (update_session_keyed H _ s' _ Hw1 Hs') as Hw2.
    destruct (update_session H _ s' _) as [[s2|e] w2]; [|exact Hw2].
    simpl in *. destruct (negb success); exact Hw2.
  - rewrite controller_get_current_instruction_state. exact Hw.
  - unfold SessionController.end_session, try_except, raise.
    destruct (negb (String.eqb sid (end_session_id request))); [exact Hw|].
    pose proof (end_session_keyed H sid request w Hw) as He.
    destruct (end_session H sid request w) as [[s|e] w']; [exact He|].
    destruct e; try exact He; destruct (is_value_error _); exact He.
Qed.

Lemma run_keyed H reqs : forall w, store_keyed w -> store_keyed (run H reqs w).
Proof.
  induction reqs as [|req reqs IH]; intros w Hw; simpl; [exact Hw|].
  apply IH, handle_keyed, Hw.
Qed.

Lemma reachable_sessions_keyed H reqs sid s :
  sessions (run H reqs initial_world) !! sid = Some s -> session_id s = sid.
Proof.
  apply (run_keyed H reqs initial_world).
  intros sid' s'. simpl. rewrite lookup_empty. discriminate.
Qed.

Lemma analyze_frame_success H fd ctx s k a i s' k' :
  analyze_frame H fd ctx (s, k) = (Return (a, i), (s', k')) ->
  instructions s' = i /\ status s' = ACTIVE /\ analysis s' = Some a
  /\ current_step s' = match i with [] => 0 | _ => 1 end.
Proof.
  intros Hrun. rewrite analyze_frame_eq in Hrun. cbv zeta in Hrun.
  destruct (analyze_emergency_frame H fd (_build_context s ctx) _) as [[a0|e0] k3];
    [|discriminate].
  destruct (generate_first_aid_instructions H _ _ _ k3) as [[i0|e0] k4];
    inversion Hrun; subst. repeat split; reflexivity.
Qed.

(** C4: after every sequence of the boundary operations (session creation,
    frame analysis whether it succeeds or fails, step advance, reading the
    current instruction, ending the session) every stored session has
    0 <= current_step <= len(instructions); each single operation preserves
    this; and a successful analysis leaves the pointer at 1 when it produced
    at least one instruction and at 0 when it produced none. *)
Theorem C4_step_pointer_invariant :
  forall (H : Host),
    (forall (reqs : list Request) (sid : UUID) (s : EmergencySession),
        sessions (run H reqs initial_world) !! sid = Some s ->
        0 <= current_step s <= n_instructions s)
    /\ (forall (w : World) (req : Request),
          store_inv w -> store_inv (handle H w req))
    /\ (forall frame_data user_context s k a i s' k',
          analyze_frame H frame_data user_context (s, k) = (Return (a, i), (s', k')) ->
          instructions s' = i
          /\ current_step s' = match i with [] => 0 | _ => 1 end
          /\ status s' = ACTIVE).
Proof.
  intros H. split; [|split].
  - intros reqs sid s Hs.
    exact (run_inv H reqs initial_world initial_world_inv sid s Hs).
  - intros w req. apply handle_inv.
  - intros fd ctx s k a i s' k' Hrun.
    destruct (analyze_frame_success _ _ _ _ _ _ _ _ _ Hrun) as (Hi & Hst & _ & Hcs).
    repeat split; assumption.
Qed.

(** The theorem on the reference host: the store after a creation keeps the
    invariant, and the analysis of the fresh session yields two
    instructions and the pointer 1. *)
Lemma C4_step_pointer_invariant_witness :
  store_inv (handle scenario_host initial_world (StartSession start_request))
  /\ exists a i s' k',
       analyze_frame scenario_host "AAAA" None (fresh_session, sys0)
       = (Return (a, i), (s', k'))
       /\ length i = 2%nat /\ current_step s' = 1 /\ status s' = ACTIVE.
Proof.
  destruct (C4_step_pointer_invariant scenario_host) as (_ & Hstep & Hana).
  split; [apply Hstep, initial_world_inv|].
  let v := eval vm_compute in (analyze_frame scenario_host "AAAA" None (fresh_session, sys0)) in
  assert (Hrun : analyze_frame scenario_host "AAAA" None (fresh_session, sys0) = v)
    by (vm_compute; reflexivity).
  match type of Hrun with
  | _ = (Return (?a, ?i), (?s', ?k')) =>
      exists a, i, s', k'; split; [exact Hrun|];
      destruct (Hana _ _ _ _ _ _ _ _ Hrun) as (_ & Hcs & Hst)
  end.
  split; [reflexivity|]. split; [rewrite Hcs; reflexivity | exact Hst].
Defined.

(* ===================================================================== *)
(** ** Properties: ending a session *)
(* ===================================================================== *)

(** The guard of [end_session] stops on the two statuses it lists. *)
Lemma end_session_rejects_resolved_and_cancelled H sid request w s :
  sessions w !! sid = Some s ->
  status s = RESOLVED \/ status s = CANCELLED ->
  end_session H sid request w
  = (Raise (ValueError ("Session " +:+ sid +:+ " is already ended")), w).
Proof.
  intros E Hst. unfold end_session, get_session. unfold_py. rewrite E.
  destruct Hst as [-> | ->]; reflexivity.
Qed.

(** The enumeration, the sweep and the active count all take Escalated as
    an ended status. *)
Lemma escalated_is_ended_elsewhere :
  is_terminal ESCALATED = true
  /\ In ESCALATED cleanup_ended_statuses
  /\ ~ In ESCALATED active_statuses.
Proof.
  split; [reflexivity|]. split; [simpl; tauto|].
  simpl. intros [E|[E|[E|[E|[]]]]]; discriminate.
Qed.

(** C1 (behaviour of the code on the status the guard misses): a session
    that is already Escalated is not rejected by [end_session]; it is ended a
    second time, its [ended_at] is stamped again and its status is chosen
    anew from the request. *)
Theorem C1_end_session_reends_escalated :
  forall (H : Host) (sid : UUID) (request : EndSessionRequest) (w : World)
         (s : EmergencySession),
    sessions w !! sid = Some s ->
    status s = ESCALATED ->
    exists s' w',
      end_session H sid request w = (Return s', w')
      /\ sessions w' !! sid = Some s'
      /\ ended_at s' = Some (utcnow_at H (ticks (sys w)))
      /\ status s' = (if end_emergency_services_called request then ESCALATED
                      else if PyStr.contains "cancel" (PyStr.lower (end_reason request))
                           then CANCELLED else RESOLVED).
Proof.
  intros H sid request w s E Hst.
  unfold end_session, get_session, world_now. unfold_py. rewrite E, Hst. simpl.
  eexists _, _. split; [reflexivity|]. simpl. split.
  - rewrite lookup_insert. case_decide; [reflexivity|]. rewrite lookup_insert_eq. reflexivity.
  - destruct (end_notes request) as [notes|];
      try destruct (PyStr.truthy notes);
      destruct (end_emergency_services_called request);
      try destruct (PyStr.contains _ _); split; reflexivity.
Qed.

(** The theorem at the session of [world_escalated], which was created and
    then ended with the emergency services called (Escalated, ended at time
    1002): ended again with the reason "patient recovered", it becomes
    Resolved and its end time becomes 1004. *)
Lemma C1_end_session_reends_escalated_witness :
  exists s s' w',
    sessions world_escalated !! "session-0" = Some s
    /\ status s = ESCALATED
    /\ ended_at s = Some 1002
    /\ end_session (reference_host []) "session-0" (end_request "patient recovered" false)
         world_escalated = (Return s', w')
    /\ ended_at s' = Some 1004
    /\ status s' = RESOLVED.
Proof.
  let v := eval vm_compute in (sessions world_escalated !! "session-0") in
  assert (Hs : sessions world_escalated !! "session-0" = v) by (vm_compute; reflexivity).
  match type of Hs with
  | _ = Some ?s =>
      destruct (C1_end_session_reends_escalated (reference_host []) "session-0"
                  (end_request "patient recovered" false) world_escalated s Hs eq_refl)
        as (s' & w' & Hrun & _ & Hend & Hst);
      exists s, s', w'
  end.
  split; [exact Hs|]. split; [reflexivity|]. split; [reflexivity|].
  split; [exact Hrun|].
  split; [rewrite Hend; vm_compute; reflexivity | rewrite Hst; reflexivity].
Defined.

(* ===================================================================== *)
(** ** Properties: advancing past the last step *)
(* ===================================================================== *)

(** An advance request whose claimed step matches, on a session that is on
    or past its last instruction. *)
Lemma controller_advance_at_last H request w s :
  sessions w !! adv_session_id request = Some s ->
  session_id s = adv_session_id request ->
  instructions s <> [] ->
  n_instructions s <= current_step s ->
  adv_current_step request = current_step s ->
  let t := fun n => utcnow_at H (n + ticks (sys w))%nat in
  let s' := set_updated_at (t 2%nat)
              (set_updated_at (t 1%nat)
                 (set_ended_at (Some (t 0%nat)) (set_status RESOLVED s))) in
  EmergencyController.advance_step H request w
  = (Return AllCompleted,
     {| sessions := <[adv_session_id request := s']> (sessions w);
        sys := {| ticks := 3 + ticks (sys w); calls := calls (sys w);
                  uuids := uuids (sys w) |} |}).
Proof.
  intros E Hid NE Hle Hclaim t s'.
  unfold EmergencyController.advance_step, http_guard, get_session, on_session.
  unfold_py. rewrite E, Hclaim, Z.eqb_refl. simpl.
  rewrite advance_instruction_last by assumption. simpl.
  unfold update_session. simpl. rewrite Hid, lookup_insert_eq. simpl.
  rewrite !insert_insert_eq. reflexivity.
Qed.

Lemma controller_advance_mismatch H request w s :
  sessions w !! adv_session_id request = Some s ->
  adv_current_step request <> current_step s ->
  EmergencyController.advance_step H request w
  = (Raise (HTTPException 400
              ("Step mismatch: current step is " +:+ pretty (current_step s))), w).
Proof.
  intros E Hne.
  unfold EmergencyController.advance_step, http_guard, get_session. unfold_py.
  rewrite E. replace (current_step s =? adv_current_step request) with false
    by (symmetry; apply Z.eqb_neq; congruence).
  reflexivity.
Qed.

(** C2 (as amended): on a session with at least one instruction whose step
    pointer equals the number of instructions, an advance request claiming
    that step returns the completion signal and sets the status to Resolved;
    a second request claiming the same step is accepted again: it returns
    the completion signal, leaves the status Resolved and the pointer
    unchanged, and stamps [ended_at] and [updated_at] with clock readings of
    the second call.  Only
    a request whose claimed step differs from the recorded one is rejected
    (step mismatch), without any change of state. *)
Theorem C2_advance_at_last_step_repeats :
  forall (H : Host) (request : AdvanceStepRequest) (w : World) (s : EmergencySession),
    sessions w !! adv_session_id request = Some s ->
    session_id s = adv_session_id request ->
    instructions s <> [] ->
    current_step s = n_instructions s ->
    adv_current_step request = current_step s ->
    exists w1 s1,
      EmergencyController.advance_step H request w = (Return AllCompleted, w1)
      /\ sessions w1 !! adv_session_id request = Some s1
      /\ status s1 = RESOLVED
      /\ ended_at s1 = Some (utcnow_at H (ticks (sys w)))
      /\ current_step s1 = current_step s
      /\ instructions s1 = instructions s
      /\ (exists w2 s2,
            EmergencyController.advance_step H request w1 = (Return AllCompleted, w2)
            /\ sessions w2 !! adv_session_id request = Some s2
            /\ status s2 = RESOLVED
            /\ current_step s2 = current_step s
            /\ ended_at s2 = Some (utcnow_at H (ticks (sys w1)))
            /\ updated_at s2 = utcnow_at H (2 + ticks (sys w1)))
      /\ (forall request',
            adv_session_id request' = adv_session_id request ->
            adv_current_step request' <> current_step s ->
            EmergencyController.advance_step H request' w1
            = (Raise (HTTPException 400
                        ("Step mismatch: current step is "
                         +:+ pretty (current_step s))), w1)).
Proof.
  intros H request w s E Hid NE Hcs Hclaim.
  assert (Hle : n_instructions s <= current_step s) by lia.
  pose proof (controller_advance_at_last H request w s E Hid NE Hle Hclaim) as H1.
  cbv zeta in H1.
  eexists _, _. split; [exact H1|]. simpl.
  split; [apply lookup_insert_eq|].
  repeat (split; [reflexivity|]).
  split.
  - eexists _, _. split.
    + apply controller_advance_at_last; simpl.
      * apply lookup_insert_eq.
      * exact Hid.
      * exact NE.
      * exact Hle.
      * exact Hclaim.
    + simpl. split; [apply lookup_insert_eq|]. repeat split; reflexivity.
  - intros request' Hsid Hne.
    rewrite (controller_advance_mismatch H request' _
               (set_updated_at (utcnow_at H (2 + ticks (sys w)))
                  (set_updated_at (utcnow_at H (1 + ticks (sys w)))
                     (set_ended_at (Some (utcnow_at H (0 + ticks (sys w))))
                        (set_status RESOLVED s))))).
    + reflexivity.
    + rewrite Hsid. simpl. apply lookup_insert_eq.
    + simpl. exact Hne.
Qed.

(** The theorem at the session of [world_at_last_step], which was created,
    analysed and advanced to the last of its two instructions: the first
    request resolves it at time 1011, the second one resolves it again. *)
Lemma C2_advance_at_last_step_repeats_witness :
  exists s w1 s1 w2 s2,
    sessions world_at_last_step !! "session-0" = Some s
    /\ EmergencyController.advance_step scenario_host (advance_request 2)
         world_at_last_step = (Return AllCompleted, w1)
    /\ sessions w1 !! "session-0" = Some s1
    /\ ended_at s1 = Some 1011
    /\ EmergencyController.advance_step scenario_host (advance_request 2) w1
       = (Return AllCompleted, w2)
    /\ sessions w2 !! "session-0" = Some s2
    /\ status s2 = RESOLVED
    /\ ended_at s2 = Some (utcnow_at scenario_host (ticks (sys w1))).
Proof.
  let v := eval vm_compute in (sessions world_at_last_step !! "session-0") in
  assert (Hs : sessions world_at_last_step !! "session-0" = v)
    by (vm_compute; reflexivity).
  match type of Hs with
  | _ = Some ?s =>
      destruct (C2_advance_at_last_step_repeats scenario_host (advance_request 2)
                  world_at_last_step s Hs)
        as (w1 & s1 & Hrun1 & Hs1 & _ & Hend1 & _ & _
            & (w2 & s2 & Hrun2 & Hs2 & Hst2 & _ & Hend2 & _) & _);
        [reflexivity | discriminate | reflexivity | reflexivity |];
      exists s, w1, s1, w2, s2
  end.
  split; [exact Hs|]. split; [exact Hrun1|]. split; [exact Hs1|].
  split; [rewrite Hend1; vm_compute; reflexivity|].
  split; [exact Hrun2|]. split; [exact Hs2|]. split; [exact Hst2 | exact Hend2].
Defined.

(** C2 as stated fails: in the store reached by creating a session,
    analysing a frame and advancing once, the request that claims step 2
    resolves the session at time 1011; the same request sent again is
    answered with the completion signal, not with an error, and the session
    is resolved again with [ended_at] 1014. *)
Lemma C2_counterexample :
  let first := EmergencyController.advance_step scenario_host (advance_request 2)
                 world_at_last_step in
  let second := EmergencyController.advance_step scenario_host (advance_request 2)
                  (snd first) in
  (current_step <$> sessions world_at_last_step !! "session-0") = Some 2
  /\ (length <$> (instructions <$> sessions world_at_last_step !! "session-0"))
     = Some 2%nat
  /\ fst first = Return AllCompleted
  /\ (status <$> sessions (snd first) !! "session-0") = Some RESOLVED
  /\ (ended_at <$> sessions (snd first) !! "session-0") = Some (Some 1011)
  /\ fst second = Return AllCompleted
  /\ (status <$> sessions (snd second) !! "session-0") = Some RESOLVED
  /\ (ended_at <$> sessions (snd second) !! "session-0") = Some (Some 1014).
Proof. vm_compute. repeat split; reflexivity. Qed.

(* ===================================================================== *)
(** ** Properties: the classifier adapter *)
(* ===================================================================== *)

(** The default analysis is built when its error text fits the field. *)
Lemma fallback_analysis_fits H e :
  (String.length ("Analysis error: " +:+ exc_str H e) <= 1000)%nat ->
  fallback_analysis H e = Return (fallback_record H e).
Proof.
  intros Hlen. unfold fallback_analysis, EmergencyAnalysis_new, fallback_record.
  assert (Hctx : Pydantic.optional (Pydantic.str_field None (Some 1000))
                   (JString ("Analysis error: " +:+ exc_str H e))
                 = Some (Some ("Analysis error: " +:+ exc_str H e))).
  { unfold Pydantic.optional, Pydantic.str_field, PyStr.len.
    replace (Z.of_nat (String.length ("Analysis error: " +:+ exc_str H e)) <=? 1000)
      with true by (symmetry; apply Z.leb_le; lia).
    reflexivity. }
  cbv zeta. rewrite Hctx. reflexivity.
Qed.

(** It is refused when the text is longer, and the refusal propagates. *)
Lemma fallback_analysis_too_long H e :
  (1000 < String.length ("Analysis error: " +:+ exc_str H e))%nat ->
  fallback_analysis H e = Raise (ValidationError "EmergencyAnalysis" ["additional_context"]).
Proof.
  intros Hlen. unfold fallback_analysis, EmergencyAnalysis_new.
  assert (Hctx : Pydantic.optional (Pydantic.str_field None (Some 1000))
                   (JString ("Analysis error: " +:+ exc_str H e)) = None).
  { unfold Pydantic.optional, Pydantic.str_field, PyStr.len.
    replace (Z.of_nat (String.length ("Analysis error: " +:+ exc_str H e)) <=? 1000)
      with false by (symmetry; apply Z.leb_gt; lia).
    reflexivity. }
  cbv zeta. rewrite Hctx. reflexivity.
Qed.

Lemma body_raises_when_call_raises H fd ctx k image e :
  b64decode H fd = Some image ->
  generate_content H (calls k) (AnalysisRequest image (prompt_context ctx)) = GenRaise e ->
  analyze_emergency_frame_body H fd ctx k = (Raise e, after_call k).
Proof.
  intros Hb Hg. unfold analyze_emergency_frame_body, call_generate. unfold_py.
  rewrite Hb, Hg. reflexivity.
Qed.

Lemma body_raises_when_mapping_raises H fd ctx k image text data e :
  b64decode H fd = Some image ->
  generate_content H (calls k) (AnalysisRequest image (prompt_context ctx))
    = GenText (Some text) ->
  _parse_analysis_response H (Some text) = Return data ->
  map_analysis_data H data = Raise e ->
  analyze_emergency_frame_body H fd ctx k = (Raise e, after_call k).
Proof.
  intros Hb Hg Hp Hm. unfold analyze_emergency_frame_body, call_generate. unfold_py.
  rewrite Hb, Hg, Hp, Hm. reflexivity.
Qed.

(** C5 (as amended): whenever the body of [analyze_emergency_frame] raises
    an exception, which it does when the generation call raises and when
    the field mapping raises, and the text "Analysis error: " followed by
    the exception text has at most 1000 characters, the function returns
    the default analysis: type unknown, severity HIGH whose value is 3,
    confidence 0.0, one observation noting the failure, the action to call
    911, and call_emergency_services true. *)
Theorem C5_fallback_analysis :
  forall (H : Host) (frame_data : string) (context : option string) (k : Sys),
    let k1 := snd (utcnow H k) in
    (forall e k',
        analyze_emergency_frame_body H frame_data context k1 = (Raise e, k') ->
        (String.length ("Analysis error: " +:+ exc_str H e) <= 1000)%nat ->
        exists a,
          analyze_emergency_frame H frame_data context k = (Return a, k')
          /\ emergency_type a = UNKNOWN
          /\ severity a = HIGH /\ severity_value (severity a) = 3
          /\ confidence_score a = float_0_0
          /\ observations a = ["Analysis failed - please describe the situation"]
          /\ recommended_action a = "Call 911 immediately and describe the emergency"
          /\ call_emergency_services a = true
          /\ additional_context a = Some ("Analysis error: " +:+ exc_str H e))
    /\ (forall image e,
          b64decode H frame_data = Some image ->
          generate_content H (calls k1) (AnalysisRequest image (prompt_context context))
            = GenRaise e ->
          analyze_emergency_frame_body H frame_data context k1 = (Raise e, after_call k1))
    /\ (forall image text data e,
          b64decode H frame_data = Some image ->
          generate_content H (calls k1) (AnalysisRequest image (prompt_context context))
            = GenText (Some text) ->
          _parse_analysis_response H (Some text) = Return data ->
          map_analysis_data H data = Raise e ->
          analyze_emergency_frame_body H frame_data context k1 = (Raise e, after_call k1)).
Proof.
  intros H fd ctx k k1. split; [|split].
  - intros e k' Hbody Hlen. exists (fallback_record H e). split.
    + unfold analyze_emergency_frame. unfold_py. simpl.
      change {| ticks := S (ticks k); calls := calls k; uuids := uuids k |} with k1.
      rewrite Hbody, fallback_analysis_fits by exact Hlen. reflexivity.
    + repeat split; reflexivity.
  - intros image e. apply body_raises_when_call_raises.
  - intros image text data e. apply body_raises_when_mapping_raises.
Qed.

(** The theorem when the generative model times out. *)
Lemma C5_fallback_analysis_witness :
  exists a k',
    analyze_emergency_frame (reference_host [GenRaise (ApiError "Deadline exceeded")])
      "AAAA" None sys0 = (Return a, k')
    /\ emergency_type a = UNKNOWN
    /\ severity a = HIGH
    /\ call_emergency_services a = true
    /\ additional_context a = Some "Analysis error: Deadline exceeded".
Proof.
  destruct (C5_fallback_analysis (reference_host [GenRaise (ApiError "Deadline exceeded")])
              "AAAA" None sys0) as (Hfall & Hcall & _).
  cbv zeta in Hfall, Hcall.
  specialize (Hcall "AAAA" (ApiError "Deadline exceeded") eq_refl eq_refl).
  destruct (Hfall _ _ Hcall) as (a & Hrun & Ht & Hs & _ & _ & _ & _ & Hc & Hctx).
  { vm_compute. repeat constructor. }
  eexists a, _. split; [exact Hrun|]. repeat split; assumption.
Defined.

(** C5 as stated fails on the severity: the default analysis has severity
    HIGH, whose value is 3 and not 4. *)
Lemma C5_counterexample :
  exists a k',
    analyze_emergency_frame (reference_host [GenRaise (ApiError "Deadline exceeded")])
      "AAAA" None sys0 = (Return a, k')
    /\ severity_value (severity a) = 3
    /\ severity_value (severity a) <> 4.
Proof.
  eexists _, _. split; [vm_compute; reflexivity|]. split; [reflexivity|discriminate].
Qed.

(* ===================================================================== *)
(** ** Properties: the field mapping *)
(* ===================================================================== *)





Lemma SeverityLevel_of_Return v l :
  SeverityLevel_of v = Return l -> py_eq_int v (severity_value l) = true.
Proof.
  unfold SeverityLevel_of.
  destruct (List.find _ all_severity_levels) as [l'|] eqn:E; intros R; inversion R; subst.
  apply List.find_some in E. apply E.
Qed.


Lemma SeverityLevel_of_in_range l :
  SeverityLevel_of (JInt (severity_value l)) = Return l.
Proof. destruct l; reflexivity. Qed.

Lemma EmergencyType_of_member t :
  EmergencyType_of (JString (emergency_type_value t)) = Return t.
Proof. destruct t; reflexivity. Qed.






(** The fallback is not always returned: for a reply whose emergency type
    is a text of a thousand characters, the mapping refuses the type, the
    text of that exception is too long for the context of the fallback
    analysis, and [analyze_emergency_frame] raises. *)
Lemma fallback_refused_for_long_type :
  analyze_emergency_frame (reference_host [GenText (Some long_type_reply)])
    "AAAA" None sys0
  = (Raise (ValidationError "EmergencyAnalysis" ["additional_context"]),
     after_call (snd (utcnow (reference_host [GenText (Some long_type_reply)]) sys0))).
Proof. vm_compute. reflexivity. Qed.

(* ===================================================================== *)
(** ** Properties: instruction generation *)
(* ===================================================================== *)

Lemma default_instructions_nonempty t : _get_default_instructions t <> [].
Proof. destruct t; discriminate. Qed.

Lemma generate_when_call_raises H t sv obs k e :
  generate_content H (calls k) (InstructionsRequest t sv obs) = GenRaise e ->
  generate_first_aid_instructions H t sv obs k
  = (Return (_get_default_instructions t), after_call k).
Proof.
  intros Hg. unfold generate_first_aid_instructions,
    generate_first_aid_instructions_body, call_generate. unfold_py.
  rewrite Hg. reflexivity.
Qed.

Lemma generate_when_text_missing H t sv obs k :
  generate_content H (calls k) (InstructionsRequest t sv obs) = GenText None ->
  generate_first_aid_instructions H t sv obs k
  = (Return (_get_default_instructions t), after_call k).
Proof.
  intros Hg. unfold generate_first_aid_instructions,
    generate_first_aid_instructions_body, call_generate. unfold_py.
  rewrite Hg. reflexivity.
Qed.

Lemma generate_when_nothing_parsed H t sv obs k text :
  generate_content H (calls k) (InstructionsRequest t sv obs) = GenText (Some text) ->
  _parse_instructions_response H (Some text) = Return [] ->
  generate_first_aid_instructions H t sv obs k = (Return [], after_call k).
Proof.
  intros Hg Hp. unfold generate_first_aid_instructions,
    generate_first_aid_instructions_body, call_generate. unfold_py.
  rewrite Hg, Hp. reflexivity.
Qed.

(** The text from which the instruction array is decoded, if any. *)
Lemma parse_instructions_no_match H text :
  Regex.search_fenced text = None ->
  Regex.search_span "[" "]" text = None ->
  _parse_instructions_response H (Some text) = Return [].
Proof. intros E1 E2. unfold _parse_instructions_response. rewrite E1, E2. reflexivity. Qed.

Lemma parse_instructions_undecodable H text json_str :
  match Regex.search_fenced text with
  | Some g => Some g
  | None => Regex.search_span "[" "]" text
  end = Some json_str ->
  json_loads H json_str = JsonDecodeError ->
  _parse_instructions_response H (Some text) = Return [].
Proof.
  intros E1 E2. unfold _parse_instructions_response. rewrite E1, E2. reflexivity.
Qed.

Lemma parse_instructions_decoder_raises H text json_str e :
  match Regex.search_fenced text with
  | Some g => Some g
  | None => Regex.search_span "[" "]" text
  end = Some json_str ->
  json_loads H json_str = JsonRaise e ->
  _parse_instructions_response H (Some text) = Raise e.
Proof.
  intros E1 E2. unfold _parse_instructions_response. rewrite E1, E2. reflexivity.
Qed.

Lemma generate_when_parse_raises H t sv obs k text e :
  generate_content H (calls k) (InstructionsRequest t sv obs) = GenText (Some text) ->
  _parse_instructions_response H (Some text) = Raise e ->
  generate_first_aid_instructions H t sv obs k
  = (Return (_get_default_instructions t), after_call k).
Proof.
  intros Hg Hp. unfold generate_first_aid_instructions,
    generate_first_aid_instructions_body, call_generate. unfold_py.
  rewrite Hg, Hp. reflexivity.
Qed.

Lemma curated_defaults_only_for t :
  default_instructions t <> None <-> t = CARDIAC_ARREST \/ t = CHOKING.
Proof.
  split.
  - destruct t; simpl; intros E; try (exfalso; apply E; reflexivity); auto.
  - intros [-> | ->]; discriminate.
Qed.

(** C7 (as amended): [generate_first_aid_instructions] returns the built-in
    set for the emergency type when the generation call raises, when its
    response has no text, and when the decoder raises something else than
    [json.JSONDecodeError] on the text taken from the response (that
    exception leaves the parser and is caught by the generator).  The
    built-in set is never empty: it is the curated set for cardiac arrest
    (three steps) and for choking (two steps), and the generic two steps
    (call 911; keep the person calm and still) for every other type.  When
    the response text is empty, when no JSON array can be taken from it, and
    when the decoder refuses the text with [json.JSONDecodeError], the
    function returns the empty list. *)
Theorem C7_instruction_fallback :
  forall (H : Host) (t : EmergencyType) (sv : SeverityLevel) (obs : list string)
         (k : Sys),
    let request := InstructionsRequest t sv obs in
    let found (text : string) :=
      match Regex.search_fenced text with
      | Some g => Some g
      | None => Regex.search_span "[" "]" text
      end in
    (forall e, generate_content H (calls k) request = GenRaise e ->
       generate_first_aid_instructions H t sv obs k
       = (Return (_get_default_instructions t), after_call k))
    /\ (generate_content H (calls k) request = GenText None ->
        generate_first_aid_instructions H t sv obs k
        = (Return (_get_default_instructions t), after_call k))
    /\ _get_default_instructions t <> []
    /\ (forall l, default_instructions t = Some l -> _get_default_instructions t = l)
    /\ (default_instructions t = None ->
        _get_default_instructions t = generic_default_instructions
        /\ List.map instruction_text (_get_default_instructions t)
           = ["Call 911 immediately"; "Keep the person calm and still"])
    /\ (forall text,
          generate_content H (calls k) request = GenText (Some text) ->
          _parse_instructions_response H (Some text) = Return [] ->
          generate_first_aid_instructions H t sv obs k = (Return [], after_call k))
    /\ (forall text,
          Regex.search_fenced text = None ->
          Regex.search_span "[" "]" text = None ->
          _parse_instructions_response H (Some text) = Return [])
    /\ _parse_instructions_response H (Some EmptyString) = Return []
    /\ (forall text json_str,
          generate_content H (calls k) request = GenText (Some text) ->
          found text = Some json_str ->
          json_loads H json_str = JsonDecodeError ->
          _parse_instructions_response H (Some text) = Return []
          /\ generate_first_aid_instructions H t sv obs k = (Return [], after_call k))
    /\ (forall text json_str e,
          generate_content H (calls k) request = GenText (Some text) ->
          found text = Some json_str ->
          json_loads H json_str = JsonRaise e ->
          _parse_instructions_response H (Some text) = Raise e
          /\ generate_first_aid_instructions H t sv obs k
             = (Return (_get_default_instructions t), after_call k))
    /\ (default_instructions t <> None <-> t = CARDIAC_ARREST \/ t = CHOKING)
    /\ _get_default_instructions CARDIAC_ARREST
       = [ {| step_number := 1; instruction_text := "Call 911 immediately";
              voice_text := "First, call 911 or have someone else call. Time is critical.";
              duration_seconds := None; requires_confirmation := true;
              warning := None; visual_cue := None |};
           {| step_number := 2; instruction_text := "Check for responsiveness";
              voice_text := "Tap the person's shoulders and shout 'Are you okay?'";
              duration_seconds := Some 5; requires_confirmation := false;
              warning := None; visual_cue := None |};
           {| step_number := 3; instruction_text := "Begin chest compressions";
              voice_text := "Place the heel of your hand on the center of the chest. Push hard and fast, about 2 inches deep, 100 to 120 times per minute.";
              duration_seconds := None; requires_confirmation := true;
              warning := Some "The person should be on a firm, flat surface";
              visual_cue := None |} ]
    /\ _get_default_instructions CHOKING
       = [ {| step_number := 1; instruction_text := "Ask if they can speak";
              voice_text := "Ask the person 'Are you choking?' If they cannot speak, cough, or breathe, they need help.";
              duration_seconds := Some 5; requires_confirmation := false;
              warning := None; visual_cue := None |};
           {| step_number := 2; instruction_text := "Perform abdominal thrusts";
              voice_text := "Stand behind them, make a fist above their navel, and thrust inward and upward.";
              duration_seconds := None; requires_confirmation := true;
              warning := Some "Be careful not to squeeze the ribs";
              visual_cue := None |} ]
    /\ generic_default_instructions
       = [ {| step_number := 1; instruction_text := "Call 911 immediately";
              voice_text := "Call 911 immediately and describe the emergency.";
              duration_seconds := None; requires_confirmation := true;
              warning := None; visual_cue := None |};
           {| step_number := 2; instruction_text := "Keep the person calm and still";
              voice_text := "Keep the person calm, still, and comfortable while waiting for help.";
              duration_seconds := None; requires_confirmation := true;
              warning := None; visual_cue := None |} ].
Proof.
  intros H t sv obs k request found.
  split; [intros e; apply generate_when_call_raises|].
  split; [apply generate_when_text_missing|].
  split; [apply default_instructions_nonempty|].
  split; [intros l E; unfold _get_default_instructions; rewrite E; reflexivity|].
  split.
  { intros E. unfold _get_default_instructions. rewrite E. split; reflexivity. }
  split; [intros text; apply generate_when_nothing_parsed|].
  split; [intros text; apply parse_instructions_no_match|].
  split; [reflexivity|].
  split.
  { intros text json_str Hg Hf Hj.
    pose proof (parse_instructions_undecodable H text json_str Hf Hj) as Hp.
    split; [exact Hp|]. exact (generate_when_nothing_parsed H t sv obs k text Hg Hp). }
  split.
  { intros text json_str e Hg Hf Hj.
    pose proof (parse_instructions_decoder_raises H text json_str e Hf Hj) as Hp.
    split; [exact Hp|]. exact (generate_when_parse_raises H t sv obs k text e Hg Hp). }
  split; [apply curated_defaults_only_for|].
  split; [reflexivity|]. split; reflexivity.
Qed.

(** The theorem when the generative model is unreachable, for a type
    without a curated set. *)
Lemma C7_instruction_fallback_witness :
  generate_first_aid_instructions (reference_host []) STROKE EXTREME [] sys0
  = (Return generic_default_instructions, after_call sys0).
Proof.
  destruct (C7_instruction_fallback (reference_host []) STROKE EXTREME [] sys0)
    as (Hraise & _ & _ & _ & Hgeneric & _).
  rewrite (Hraise (ApiError "service unavailable") eq_refl).
  destruct (Hgeneric eq_refl) as [-> _]. reflexivity.
Defined.

(** C7 as stated fails when the response cannot be parsed: for an empty
    response text, and for a response in prose, the function returns the
    empty list and not a built-in set. *)
Lemma C7_counterexample :
  generate_first_aid_instructions (reference_host [GenText (Some EmptyString)])
    CHOKING CRITICAL [] sys0 = (Return [], after_call sys0)
  /\ generate_first_aid_instructions
       (reference_host [GenText (Some "I am sorry, I cannot help with that.")])
       CHOKING CRITICAL [] sys0 = (Return [], after_call sys0)
  /\ _get_default_instructions CHOKING <> [].
Proof.
  split; [vm_compute; reflexivity|]. split; [vm_compute; reflexivity|].
  discriminate.
Qed.

(* ===================================================================== *)
(** ** Properties: the response normalizer *)
(* ===================================================================== *)

(** In this part [simpl] computes the concatenation of strings. *)
Local Arguments String.append !_ _ / : simpl nomatch.

Lemma substring_whole (s : string) : String.substring 0 (String.length s) s = s.
Proof. induction s as [|c s IH]; simpl; [reflexivity|]. rewrite IH. reflexivity. Qed.

Lemma substring_drop_prefix (p r : string) :
  String.substring (String.length p) (String.length (p +:+ r) - String.length p) (p +:+ r)
  = r.
Proof.
  induction p as [|c p IH]; simpl.
  - rewrite Nat.sub_0_r. apply substring_whole.
  - exact IH.
Qed.

Lemma starts_with_spec (p s : string) :
  PyStr.starts_with p s = true <-> exists r, s = p +:+ r.
Proof.
  revert s. induction p as [|a p IH]; intros s; simpl.
  - split; [intros _; exists s; reflexivity | reflexivity].
  - destruct s as [|b s].
    + split; [discriminate | intros [r E]; discriminate].
    + destruct (Ascii.eqb_spec a b) as [->|Hne].
      * rewrite IH. split; intros [r E]; exists r; [rewrite E; reflexivity|].
        inversion E. reflexivity.
      * split; [discriminate|]. intros [r E]. inversion E. congruence.
Qed.

Lemma split_here (p s : string) :
  PyStr.starts_with p s = true ->
  s = p +:+ String.substring (String.length p) (String.length s - String.length p) s.
Proof.
  intros E. apply starts_with_spec in E. destruct E as [r ->].
  rewrite substring_drop_prefix. reflexivity.
Qed.

(** [split_at] cuts at an occurrence of the pattern ... *)
Lemma split_at_spec (p s a b : string) :
  PyStr.split_at p s = Some (a, b) -> s = a +:+ p +:+ b.
Proof.
  revert a b. induction s as [|c s IH]; intros a b.
  - cbn [PyStr.split_at]. destruct (PyStr.starts_with p EmptyString) eqn:E; [|discriminate].
    intros R. inversion R; subst. simpl. apply split_here, E.
  - cbn [PyStr.split_at]. destruct (PyStr.starts_with p (String c s)) eqn:E.
    + intros R. inversion R; subst. simpl. apply split_here, E.
    + destruct (PyStr.split_at p s) as [[a' b']|]; [|discriminate].
      intros R. inversion R; subst. simpl. rewrite (IH a' b eq_refl). reflexivity.
Qed.

(** ... which is the first one. *)
Lemma split_at_first (p s a b : string) :
  PyStr.split_at p s = Some (a, b) ->
  forall a' b', s = a' +:+ p +:+ b' -> (String.length a <= String.length a')%nat.
Proof.
  revert a b. induction s as [|c s IH]; intros a b.
  - simpl. destruct (PyStr.starts_with p EmptyString); [|discriminate].
    intros R. inversion R; subst. intros; simpl; lia.
  - cbn [PyStr.split_at]. destruct (PyStr.starts_with p (String c s)) eqn:E.
    + intros R. inversion R; subst. intros; simpl; lia.
    + destruct (PyStr.split_at p s) as [[a0 b0]|] eqn:Es; [|discriminate].
      intros R. inversion R; subst. intros a' b' E'.
      destruct a' as [|x a'].
      * simpl in E'. assert (PyStr.starts_with p (String c s) = true) as E2
          by (apply starts_with_spec; exists b'; exact E').
        congruence.
      * simpl in E'. inversion E'; subst. simpl.
        pose proof (IH a0 b eq_refl a' b' eq_refl). lia.
Qed.


Lemma upto_last_None (c : ascii) (s : string) :
  Regex.upto_last c s = None <-> PyStr.has_char c s = false.
Proof.
  induction s as [|a s IH]; simpl; [tauto|].
  destruct (Regex.upto_last c s) as [r|].
  - split; [discriminate|]. intros E. apply orb_false_iff in E.
    destruct E as [_ E]. apply IH in E. discriminate.
  - destruct (Ascii.eqb a c); simpl; [split; discriminate|].
    split; intros _; [apply IH|]; reflexivity.
Qed.




(** The fenced group lies between an opening marker and the first closing
    marker after it, without the spaces around it. *)
Lemma search_fenced_spec (text g : string) :
  Regex.search_fenced text = Some g ->
  exists pre after inner post,
    text = pre +:+ "```json" +:+ after
    /\ PyStr.lstrip after = inner +:+ "```" +:+ post
    /\ (forall inner' post', PyStr.lstrip after = inner' +:+ "```" +:+ post' ->
          (String.length inner <= String.length inner')%nat)
    /\ g = PyStr.rstrip inner.
Proof.
  assert (Hhere : forall t g0,
    Regex.fenced_here t = Some g0 ->
    exists after inner post,
      t = "```json" +:+ after
      /\ PyStr.lstrip after = inner +:+ "```" +:+ post
      /\ (forall inner' post', PyStr.lstrip after = inner' +:+ "```" +:+ post' ->
            (String.length inner <= String.length inner')%nat)
      /\ g0 = PyStr.rstrip inner).
  { intros t g0. unfold Regex.fenced_here.
    destruct (PyStr.starts_with "```json" t) eqn:E; [|discriminate].
    apply starts_with_spec in E. destruct E as [after E]. subst t.
    change 7%nat with (String.length "```json").
    rewrite substring_drop_prefix. unfold Regex.fenced_group.
    destruct (PyStr.split_at "```" (PyStr.lstrip after)) as [[inner post]|] eqn:Es;
      [|discriminate].
    intros R. inversion R; subst. exists after, inner, post.
    split; [reflexivity|]. split; [apply split_at_spec, Es|].
    split; [apply (split_at_first _ _ _ _ Es) | reflexivity]. }
  revert g. induction text as [|a s IH]; intros g.
  - cbn [Regex.search_fenced]. intros R.
    destruct (Regex.fenced_here EmptyString) as [g0|] eqn:E; [|discriminate].
    inversion R; subst. destruct (Hhere _ _ E) as (after & inner & post & Ht & Hrest).
    exists EmptyString, after, inner, post. split; [exact Ht | exact Hrest].
  - cbn [Regex.search_fenced]. intros R.
    destruct (Regex.fenced_here (String a s)) as [g0|] eqn:E.
    + inversion R; subst. destruct (Hhere _ _ E) as (after & inner & post & Ht & Hrest).
      exists EmptyString, after, inner, post. split; [exact Ht | exact Hrest].
    + destruct (IH g R) as (pre & after & inner & post & Ht & Hrest).
      exists (String a pre), after, inner, post. split; [|exact Hrest].
      simpl. rewrite Ht. reflexivity.
Qed.

Lemma str_app_assoc (a b c : string) : (a +:+ b) +:+ c = a +:+ (b +:+ c).
Proof. induction a as [|x a IH]; simpl; [reflexivity|]. rewrite IH. reflexivity. Qed.

Lemma str_app_length (a b : string) :
  String.length (a +:+ b) = (String.length a + String.length b)%nat.
Proof. induction a as [|x a IH]; simpl; [reflexivity|]. rewrite IH. reflexivity. Qed.

Lemma contains_spec (p s : string) :
  PyStr.contains p s = true <-> exists a b, s = a +:+ p +:+ b.
Proof.
  split.
  - induction s as [|c s IH]; simpl; intros E.
    + apply orb_true_iff in E. destruct E as [E|E]; [|discriminate].
      apply starts_with_spec in E. destruct E as [r E]. exists EmptyString, r. exact E.
    + apply orb_true_iff in E. destruct E as [E|E].
      * apply starts_with_spec in E. destruct E as [r E]. exists EmptyString, r. exact E.
      * destruct (IH E) as (a & b & ->). exists (String c a), b. reflexivity.
  - intros (a & b & ->). induction a as [|c a IH].
    + simpl String.append.
      assert (E : PyStr.starts_with p (p +:+ b) = true)
        by (apply starts_with_spec; eexists; reflexivity).
      destruct (p +:+ b); simpl; simpl in E; rewrite E; reflexivity.
    + simpl String.append. simpl. rewrite IH. apply orb_true_r.
Qed.

Lemma contains_app_l (p a r : string) :
  PyStr.contains p a = true -> PyStr.contains p (a +:+ r) = true.
Proof.
  intros E. apply contains_spec in E. destruct E as (u & v & ->).
  apply contains_spec. exists u, (v +:+ r).
  rewrite !str_app_assoc. reflexivity.
Qed.

Lemma contains_app_r (p l a : string) :
  PyStr.contains p a = true -> PyStr.contains p (l +:+ a) = true.
Proof.
  intros E. apply contains_spec in E. destruct E as (u & v & ->).
  apply contains_spec. exists (l +:+ u), v. rewrite str_app_assoc. reflexivity.
Qed.

Lemma search_fenced_unfold text :
  Regex.search_fenced text
  = match Regex.fenced_here text with
    | Some g => Some g
    | None => match text with
              | EmptyString => None
              | String _ rest => Regex.search_fenced rest
              end
    end.
Proof. destruct text; reflexivity. Qed.

Lemma fenced_here_marker rest :
  Regex.fenced_here ("```json" +:+ rest) = Regex.fenced_group rest.
Proof.
  unfold Regex.fenced_here.
  assert (E : PyStr.starts_with "```json" ("```json" +:+ rest) = true)
    by (apply starts_with_spec; eexists; reflexivity).
  rewrite E. f_equal. exact (substring_drop_prefix "```json" rest).
Qed.












(** The text the normalizers decode: the fenced group when there is a
    fence, else the span between the brackets. *)
Lemma parse_instructions_eq H text :
  _parse_instructions_response H (Some text)
  = match match Regex.search_fenced text with
          | Some g => Some g
          | None => Regex.search_span "[" "]" text
          end with
    | None => Return []
    | Some json_str =>
        match json_loads H json_str with
        | JsonValue (JArray data) => Return data
        | JsonValue _ => Return []
        | JsonDecodeError => Return []
        | JsonRaise e => Raise e
        end
    end.
Proof.
  unfold _parse_instructions_response.
  destruct (match Regex.search_fenced text with
            | Some g => Some g
            | None => Regex.search_span "[" "]" text
            end) as [json_str|]; [|reflexivity].
  destruct (json_loads H json_str) as [[]| |]; reflexivity.
Qed.

Lemma parse_analysis_eq H text :
  _parse_analysis_response H (Some text)
  = match match Regex.search_fenced text with
          | Some g => Some g
          | None => Regex.search_span "{" "}" text
          end with
    | None => Return empty
    | Some json_str =>
        match json_loads H json_str with
        | JsonValue (JObject data) => Return data
        | JsonValue other => Raise (AttributeError other "keys")
        | JsonDecodeError => Return empty
        | JsonRaise e => Raise e
        end
    end.
Proof.
  unfold _parse_analysis_response.
  destruct (match Regex.search_fenced text with
            | Some g => Some g
            | None => Regex.search_span "{" "}" text
            end) as [json_str|]; [|reflexivity].
  destruct (json_loads H json_str) as [[]| |]; reflexivity.
Qed.




(** The normalizers do raise.  On an array with an integer literal of 4301
    digits the decoder raises a [ValueError] that is not a
    [json.JSONDecodeError]: it leaves [_parse_instructions_response], and
    [generate_first_aid_instructions], which catches every exception,
    returns the built-in set. *)
Lemma parse_instructions_response_raises_on_long_integer :
  _parse_instructions_response (digit_limit_host []) (Some long_integer_array_text)
  = Raise digit_limit_error
  /\ generate_first_aid_instructions
       (digit_limit_host [GenText (Some long_integer_array_text)]) CHOKING CRITICAL []
       sys0
     = (Return (_get_default_instructions CHOKING), after_call sys0).
Proof. split; vm_compute; reflexivity. Qed.

(** The other way the claim fails: a fenced block that holds an array is
    decoded, and the [data.keys()] of the log line then raises out of
    [_parse_analysis_response], whose handler is for decoding errors only;
    [_parse_instructions_response] checks the type of what it decoded. *)
Lemma parse_analysis_response_raises_on_fenced_array :
  _parse_analysis_response (reference_host []) (Some fenced_array_text)
  = Raise (AttributeError (JArray [JInt 1]) "keys")
  /\ _parse_instructions_response (reference_host []) (Some fenced_array_text)
     = Return [JInt 1].
Proof. split; vm_compute; reflexivity. Qed.

(* ===================================================================== *)
(** ** Further properties: strings and validators *)
(* ===================================================================== *)

Lemma lstrip_head s c r : PyStr.lstrip s = String c r -> PyStr.is_space c = false.
Proof.
  induction s as [|a s IH]; simpl; [discriminate|].
  destruct (PyStr.is_space a) eqn:E; [exact IH|].
  intros R. inversion R; subst. exact E.
Qed.

Lemma lstrip_id s :
  (forall c r, s = String c r -> PyStr.is_space c = false) -> PyStr.lstrip s = s.
Proof.
  destruct s as [|a s]; simpl; [reflexivity|].
  intros Hs. rewrite (Hs a s eq_refl). reflexivity.
Qed.

Lemma rstrip_cons c s :
  PyStr.rstrip (String c s)
  = match PyStr.rstrip s with
    | EmptyString => if PyStr.is_space c then EmptyString else String c EmptyString
    | r => String c r
    end.
Proof. reflexivity. Qed.

Lemma rstrip_head s c r : PyStr.rstrip s = String c r -> exists r0, s = String c r0.
Proof.
  destruct s as [|a s]; [discriminate|]. rewrite rstrip_cons.
  destruct (PyStr.rstrip s); [destruct (PyStr.is_space a); [discriminate|]|];
    intros R; inversion R; subst; eexists; reflexivity.
Qed.

Lemma rstrip_last s c : last_char (PyStr.rstrip s) = Some c -> PyStr.is_space c = false.
Proof.
  induction s as [|a s IH]; [discriminate|]. rewrite rstrip_cons.
  destruct (PyStr.rstrip s) as [|b r] eqn:E.
  - destruct (PyStr.is_space a) eqn:Ea; [discriminate|].
    simpl. intros R. inversion R; subst. exact Ea.
  - intros R. apply IH. exact R.
Qed.

Lemma rstrip_idempotent s : PyStr.rstrip (PyStr.rstrip s) = PyStr.rstrip s.
Proof.
  induction s as [|a s IH]; [reflexivity|]. rewrite rstrip_cons.
  destruct (PyStr.rstrip s) as [|b r] eqn:E.
  - destruct (PyStr.is_space a) eqn:Ea; [reflexivity|].
    rewrite rstrip_cons. simpl. rewrite Ea. reflexivity.
  - rewrite rstrip_cons, IH. reflexivity.
Qed.

Lemma strip_idempotent s : PyStr.strip (PyStr.strip s) = PyStr.strip s.
Proof.
  unfold PyStr.strip.
  assert (Hl : PyStr.lstrip (PyStr.rstrip (PyStr.lstrip s)) = PyStr.rstrip (PyStr.lstrip s)).
  { apply lstrip_id. intros c r E. destruct (rstrip_head _ _ _ E) as [r0 E0].
    exact (lstrip_head _ _ _ E0). }
  rewrite Hl. apply rstrip_idempotent.
Qed.

Lemma length_lstrip s : (String.length (PyStr.lstrip s) <= String.length s)%nat.
Proof.
  induction s as [|a s IH]; simpl; [lia|]. destruct (PyStr.is_space a); simpl; lia.
Qed.

Lemma length_rstrip s : (String.length (PyStr.rstrip s) <= String.length s)%nat.
Proof.
  induction s as [|a s IH]; [simpl; lia|]. rewrite rstrip_cons.
  destruct (PyStr.rstrip s); [destruct (PyStr.is_space a)|]; simpl in *; lia.
Qed.

Lemma length_strip s : (String.length (PyStr.strip s) <= String.length s)%nat.
Proof.
  unfold PyStr.strip. pose proof (length_rstrip (PyStr.lstrip s)).
  pose proof (length_lstrip s). lia.
Qed.

Lemma truthy_nonempty s : PyStr.truthy s = true <-> s <> EmptyString.
Proof. destruct s; simpl; split; congruence. Qed.

Lemma clean_observation_strip s :
  PyStr.truthy (PyStr.strip s) = true -> clean_observation (PyStr.strip s).
Proof.
  intros E. split; [apply truthy_nonempty, E | apply strip_idempotent].
Qed.

Lemma validate_observations_clean l : Forall clean_observation (validate_observations l).
Proof.
  unfold validate_observations. induction l as [|x l IH]; simpl; [constructor|].
  destruct (PyStr.truthy x && PyStr.truthy (PyStr.strip x)) eqn:E; [|exact IH].
  simpl. constructor; [|exact IH].
  apply andb_true_iff in E. apply clean_observation_strip, E.
Qed.

Lemma validate_observations_fixed l :
  Forall clean_observation l -> validate_observations l = l.
Proof.
  unfold validate_observations. induction 1 as [|x l [Hne Hs] _ IH]; simpl; [reflexivity|].
  unfold is_stripped in Hs. rewrite Hs.
  apply truthy_nonempty in Hne. rewrite Hne. simpl. rewrite Hs, IH. reflexivity.
Qed.

(** X1: the observation validator of [EmergencyAnalysis] leaves only
    entries that are non-empty and have no leading or trailing whitespace,
    and cleaning a second time changes nothing. *)
Theorem X1_validate_observations_cleans :
  forall (value : list string),
    Forall clean_observation (validate_observations value)
    /\ validate_observations (validate_observations value) = validate_observations value
    /\ (length (validate_observations value) <= length value)%nat.
Proof.
  intros value. split; [apply validate_observations_clean|]. split.
  - apply validate_observations_fixed, validate_observations_clean.
  - unfold validate_observations. rewrite length_map. apply List.filter_length_le.
Qed.

Lemma strip_whitespace_clean v x :
  strip_whitespace v = Some x -> clean_observation x.
Proof.
  unfold strip_whitespace. destruct v as [s|]; [|discriminate].
  destruct (PyStr.truthy (PyStr.strip s)) eqn:E; [|discriminate].
  intros R. inversion R; subst. apply clean_observation_strip, E.
Qed.

Lemma StartSessionRequest_new_Return n l d r :
  StartSessionRequest_new n l d = Return r ->
  r = {| start_user_notes := strip_whitespace n;
         start_location_data := strip_whitespace l;
         start_device_info := strip_whitespace d |}
  /\ (forall x, n = Some x -> PyStr.len x <= 2000).
Proof.
  unfold StartSessionRequest_new. cbv zeta.
  destruct n as [x|]; destruct l as [y|]; destruct d as [z|]; simpl;
    unfold Pydantic.optional, Pydantic.str_field; simpl;
    repeat match goal with
           | |- context [?a <=? ?b] => destruct (Z.leb_spec a b); simpl
           end;
    intros R; inversion R; subst; (split; [reflexivity|]);
    intros x' E; inversion E; subst; assumption.
Qed.

(** X2: a start request that passed its validation has notes, location and
    device information that are either absent or non-empty without
    surrounding whitespace (blank texts become absent), and
    [create_session] accepts every such request: it returns a Pending
    session that carries the notes and the location of the request. *)
Theorem X2_validated_start_request_creates_session :
  forall (H : Host) (notes location device : option string)
         (request : StartSessionRequest) (w : World),
    StartSessionRequest_new notes location device = Return request ->
    (forall x, start_user_notes request = Some x -> clean_observation x)
    /\ (forall x, start_location_data request = Some x -> clean_observation x)
    /\ (forall x, start_device_info request = Some x -> clean_observation x)
    /\ exists s w',
         create_session H request w = (Return s, w')
         /\ status s = PENDING
         /\ user_notes s = start_user_notes request
         /\ location_data s = start_location_data request.
Proof.
  intros H notes location device request w Hnew.
  apply StartSessionRequest_new_Return in Hnew. destruct Hnew as [-> Hlen]. simpl.
  split; [intros x; apply strip_whitespace_clean|].
  split; [intros x; apply strip_whitespace_clean|].
  split; [intros x; apply strip_whitespace_clean|].
  unfold create_session. simpl.
  assert (Hok : Pydantic.optional (Pydantic.str_field None (Some 2000))
                  (opt_json (strip_whitespace notes)) = Some (strip_whitespace notes)).
  { unfold strip_whitespace. destruct notes as [x|]; [|reflexivity].
    destruct (PyStr.truthy (PyStr.strip x)); [|reflexivity].
    unfold Pydantic.optional, Pydantic.str_field, opt_json. simpl.
    pose proof (length_strip x). pose proof (Hlen x eq_refl).
    unfold PyStr.len in *.
    replace (Z.of_nat (String.length (PyStr.strip x)) <=? 2000) with true
      by (symmetry; apply Z.leb_le; lia).
    reflexivity. }
  rewrite Hok. eexists _, _. split; [reflexivity|]. repeat split; reflexivity.
Qed.

(** The theorem at a request whose notes are padded and whose location is
    blank. *)
Lemma X2_validated_start_request_creates_session_witness :
  exists request s w',
    StartSessionRequest_new (Some "  fell from a ladder ") (Some "   ") None = Return request
    /\ create_session (reference_host []) request initial_world = (Return s, w')
    /\ user_notes s = Some "fell from a ladder"
    /\ location_data s = None.
Proof.
  let v := eval vm_compute in
             (StartSessionRequest_new (Some "  fell from a ladder ") (Some "   ") None) in
  assert (Hnew : StartSessionRequest_new (Some "  fell from a ladder ") (Some "   ") None = v)
    by (vm_compute; reflexivity).
  match type of Hnew with
  | _ = Return ?r =>
      destruct (X2_validated_start_request_creates_session (reference_host [])
                  _ _ _ r initial_world Hnew) as (_ & _ & _ & s & w' & Hrun & _ & Hn & Hl);
      exists r, s, w'
  end.
  split; [exact Hnew|]. split; [exact Hrun|].
  split; [rewrite Hn; reflexivity | rewrite Hl; reflexivity].
Defined.

Lemma str_app_nil_r (a : string) : a +:+ EmptyString = a.
Proof. induction a as [|x a IH]; simpl; [reflexivity|]. rewrite IH. reflexivity. Qed.

Lemma rstrip_id s :
  (forall c, last_char s = Some c -> PyStr.is_space c = false) -> PyStr.rstrip s = s.
Proof.
  induction s as [|a s IH]; [reflexivity|]. intros Hl. rewrite rstrip_cons.
  destruct s as [|b s].
  - simpl. rewrite (Hl a eq_refl). reflexivity.
  - rewrite IH; [reflexivity|]. intros c E. apply Hl. exact E.
Qed.

Lemma strip_last s c : last_char (PyStr.strip s) = Some c -> PyStr.is_space c = false.
Proof. apply rstrip_last. Qed.

Lemma strip_id s :
  (forall c r, s = String c r -> PyStr.is_space c = false) ->
  (forall c, last_char s = Some c -> PyStr.is_space c = false) ->
  PyStr.strip s = s.
Proof.
  intros Hh Hl. unfold PyStr.strip. rewrite (lstrip_id s Hh). apply rstrip_id, Hl.
Qed.

Lemma rstrip_all_spaces p : all_spaces p -> PyStr.rstrip p = EmptyString.
Proof.
  unfold all_spaces. induction p as [|a p IH]; [reflexivity|]. simpl.
  intros E. apply andb_true_iff in E. destruct E as [Ea Ep].
  rewrite (IH Ep), Ea. reflexivity.
Qed.

Lemma lstrip_app_spaces p x : all_spaces p -> PyStr.lstrip (p +:+ x) = PyStr.lstrip x.
Proof.
  unfold all_spaces. induction p as [|a p IH]; [reflexivity|]. simpl.
  intros E. apply andb_true_iff in E. destruct E as [Ea Ep].
  rewrite Ea. apply IH, Ep.
Qed.

Lemma rstrip_app_spaces x p : all_spaces p -> PyStr.rstrip (x +:+ p) = PyStr.rstrip x.
Proof.
  intros Hp. induction x as [|a x IH]; [apply rstrip_all_spaces, Hp|].
  simpl String.append. rewrite !rstrip_cons, IH. reflexivity.
Qed.

Lemma strip_padded p1 x p2 :
  all_spaces p1 -> all_spaces p2 -> PyStr.strip (p1 +:+ x +:+ p2) = PyStr.strip x.
Proof.
  intros H1 H2. unfold PyStr.strip. rewrite lstrip_app_spaces by exact H1.
  destruct (PyStr.lstrip x) as [|c r] eqn:E.
  - assert (Hx : all_spaces x).
    { clear -E. unfold all_spaces. induction x as [|a x IH]; [reflexivity|].
      simpl in *. destruct (PyStr.is_space a); [apply IH, E | discriminate]. }
    rewrite lstrip_app_spaces by exact Hx.
    assert (Hp : all_spaces (PyStr.lstrip p2)).
    { clear -H2. unfold all_spaces in *. induction p2 as [|a p IH]; [reflexivity|].
      simpl in *. apply andb_true_iff in H2. destruct H2 as [Ea Ep].
      rewrite Ea. apply IH, Ep. }
    rewrite rstrip_all_spaces by exact Hp. reflexivity.
  - assert (Hx : exists pre, x = pre +:+ String c r /\ all_spaces pre).
    { clear -E. unfold all_spaces. induction x as [|a x IH]; [discriminate|].
      simpl in E. destruct (PyStr.is_space a) eqn:Ea.
      - destruct (IH E) as (pre & -> & Hpre). exists (String a pre). simpl.
        rewrite Ea. split; [reflexivity | exact Hpre].
      - exists EmptyString. split; [simpl; exact E | reflexivity]. }
    destruct Hx as (pre & -> & Hpre).
    rewrite str_app_assoc, lstrip_app_spaces by exact Hpre.
    assert (Hc : PyStr.is_space c = false) by exact (lstrip_head _ _ _ E).
    replace (PyStr.lstrip (String c r +:+ p2)) with (String c r +:+ p2)
      by (simpl; rewrite Hc; reflexivity).
    apply rstrip_app_spaces, H2.
Qed.

Lemma base64_char_not_space c : is_base64_char c = true -> PyStr.is_space c = false.
Proof.
  destruct c as [[] [] [] [] [] [] [] []]; vm_compute; intros E;
    first [reflexivity | discriminate E].
Qed.

Lemma base64_char_not_newline c : is_base64_char c = true -> (N_of_ascii c =? 10)%N = false.
Proof.
  destruct c as [[] [] [] [] [] [] [] []]; vm_compute; intros E;
    first [reflexivity | discriminate E].
Qed.

Lemma before_final_newline_id s :
  (forall c, last_char s = Some c -> (N_of_ascii c =? 10)%N = false) ->
  before_final_newline s = s.
Proof.
  induction s as [|a s IH]; [reflexivity|]. intros Hl.
  destruct s as [|b s].
  - simpl. rewrite (Hl a eq_refl). reflexivity.
  - change (before_final_newline (String a (String b s)))
      with (String a (before_final_newline (String b s))).
    rewrite IH; [reflexivity|]. intros c E. apply Hl. exact E.
Qed.

Lemma last_char_app a b : b <> EmptyString -> last_char (a +:+ b) = last_char b.
Proof.
  intros Hb. induction a as [|x a IH]; [reflexivity|]. simpl String.append.
  destruct (a +:+ b) as [|y r] eqn:E.
  - destruct a; [simpl in E; contradiction | discriminate E].
  - exact IH.
Qed.

Lemma all_base64_last s c :
  forallb is_base64_char (list_ascii_of_string s) = true ->
  last_char s = Some c -> is_base64_char c = true.
Proof.
  induction s as [|a s IH]; [discriminate|]. simpl list_ascii_of_string. simpl forallb.
  intros E. apply andb_true_iff in E. destruct E as [Ea Es].
  destruct s as [|b s].
  - simpl. intros R. inversion R; subst. exact Ea.
  - intros R. apply (IH Es). exact R.
Qed.

Lemma all_base64_strip s :
  s <> EmptyString ->
  forallb is_base64_char (list_ascii_of_string s) = true ->
  PyStr.strip s = s.
Proof.
  intros Hne Hs. apply strip_id.
  - intros c r ->. simpl in Hs. apply andb_true_iff in Hs.
    apply base64_char_not_space, Hs.
  - intros c E. apply base64_char_not_space. exact (all_base64_last s c Hs E).
Qed.

Lemma all_base64_matches s :
  s <> EmptyString ->
  forallb is_base64_char (list_ascii_of_string s) = true ->
  matches_base64 s = true.
Proof.
  intros Hne Hs. unfold matches_base64. cbv zeta.
  rewrite before_final_newline_id.
  - rewrite Hs. destruct s; [contradiction | reflexivity].
  - intros c E. apply base64_char_not_newline. exact (all_base64_last s c Hs E).
Qed.

Lemma all_base64_no_scheme s :
  forallb is_base64_char (list_ascii_of_string s) = true ->
  PyStr.starts_with "data:" s = false.
Proof.
  intros Hs. destruct (PyStr.starts_with "data:" s) eqn:E; [|reflexivity].
  apply starts_with_spec in E. destruct E as [r ->].
  vm_compute in Hs. discriminate Hs.
Qed.

Lemma validate_base64_plain s :
  s <> EmptyString ->
  forallb is_base64_char (list_ascii_of_string s) = true ->
  validate_base64 s = Return s.
Proof.
  intros Hne Hs. unfold validate_base64. cbv zeta.
  rewrite (all_base64_strip s Hne Hs), (all_base64_no_scheme s Hs).
  simpl. rewrite (all_base64_matches s Hne Hs). reflexivity.
Qed.

Lemma matches_base64_stripped s :
  (forall c, last_char s = Some c -> PyStr.is_space c = false) ->
  matches_base64 s = true ->
  s <> EmptyString /\ forallb is_base64_char (list_ascii_of_string s) = true.
Proof.
  intros Hl. unfold matches_base64. cbv zeta. rewrite before_final_newline_id.
  - intros E. apply andb_true_iff in E. destruct E as [Et Ef].
    split; [apply truthy_nonempty, Et | exact Ef].
  - intros c E. specialize (Hl c E).
    destruct c as [[] [] [] [] [] [] [] []]; vm_compute in Hl |- *;
      first [reflexivity | discriminate Hl].
Qed.

(** X3: what [AnalyzeFrameRequest.validate_base64] accepts.  An accepted
    frame is returned as a non-empty text over the base64 alphabet
    [A-Za-z0-9+/=] only, with no whitespace left, and validating the
    returned text again returns it unchanged. *)
Theorem X3_validate_base64_accepts_only_base64 :
  forall (value r : string),
    validate_base64 value = Return r ->
    r <> EmptyString
    /\ forallb is_base64_char (list_ascii_of_string r) = true
    /\ validate_base64 r = Return r.
Proof.
  intros value r. unfold validate_base64 at 1. cbv zeta.
  assert (Hlast : forall c, last_char (PyStr.strip value) = Some c -> PyStr.is_space c = false)
    by (intros c; apply strip_last).
  assert (Hgoal : forall t, (forall c, last_char t = Some c -> PyStr.is_space c = false) ->
            (if matches_base64 t then Return t
             else Raise (ValueError "Invalid base64 encoding")) = Return r ->
            r <> EmptyString
            /\ forallb is_base64_char (list_ascii_of_string r) = true
            /\ validate_base64 r = Return r).
  { intros t Ht. destruct (matches_base64 t) eqn:Em; [|discriminate].
    intros R. inversion R; subst.
    destruct (matches_base64_stripped r Ht Em) as [Hne Hs].
    split; [exact Hne|]. split; [exact Hs|]. apply validate_base64_plain; assumption. }
  destruct (PyStr.starts_with "data:" (PyStr.strip value)) eqn:Ed.
  - destruct (PyStr.split_at "," (PyStr.strip value)) as [[before after_comma]|] eqn:Es;
      [|discriminate].
    simpl. apply Hgoal. intros c Hc.
    destruct after_comma as [|a rest]; [discriminate|].
    apply Hlast. rewrite (split_at_spec _ _ _ _ Es).
    rewrite last_char_app by discriminate.
    rewrite (last_char_app "," (String a rest)) by discriminate.
    exact Hc.
  - simpl. apply Hgoal. exact Hlast.
Qed.

(** The theorem at a padded data URL. *)
Lemma X3_validate_base64_accepts_only_base64_witness :
  validate_base64 "  data:image/jpeg;base64,QUJD " = Return "QUJD"
  /\ validate_base64 "QUJD" = Return "QUJD".
Proof.
  assert (Hrun : validate_base64 "  data:image/jpeg;base64,QUJD " = Return "QUJD")
    by (vm_compute; reflexivity).
  split; [exact Hrun|].
  exact (proj2 (proj2 (X3_validate_base64_accepts_only_base64 _ _ Hrun))).
Defined.

Lemma split_at_unfold (p s : string) :
  PyStr.split_at p s
  = if PyStr.starts_with p s
    then Some (EmptyString,
               String.substring (String.length p) (String.length s - String.length p) s)
    else match s with
         | EmptyString => None
         | String c s' =>
             match PyStr.split_at p s' with
             | Some (before, after) => Some (String c before, after)
             | None => None
             end
         end.
Proof. destruct s; reflexivity. Qed.

Lemma split_at_char (c : ascii) (a b : string) :
  PyStr.has_char c a = false ->
  PyStr.split_at (String c EmptyString) (a +:+ String c b) = Some (a, b).
Proof.
  induction a as [|x a IH]; intros Ha.
  - rewrite split_at_unfold. simpl String.append.
    simpl PyStr.starts_with. rewrite Ascii.eqb_refl.
    f_equal. f_equal. exact (substring_drop_prefix (String c EmptyString) b).
  - simpl in Ha. apply orb_false_iff in Ha. destruct Ha as [Hx Ha].
    rewrite split_at_unfold. simpl String.append.
    simpl PyStr.starts_with. rewrite Ascii.eqb_sym, Hx. rewrite (IH Ha). reflexivity.
Qed.

(** X4: what [AnalyzeFrameRequest.validate_base64] returns for well-formed
    input.  A non-empty text over the base64 alphabet is returned as it is
    when it comes surrounded by whitespace, and also when it comes as a data
    URL [data:<media type>,<payload>] whose media type has no comma: the
    prefix up to the first comma and the surrounding whitespace are
    removed. *)
Theorem X4_validate_base64_strips_padding_and_data_url :
  forall (pad1 pad2 media body : string),
    all_spaces pad1 -> all_spaces pad2 ->
    PyStr.has_char "," media = false ->
    body <> EmptyString ->
    forallb is_base64_char (list_ascii_of_string body) = true ->
    validate_base64 (pad1 +:+ body +:+ pad2) = Return body
    /\ validate_base64 (pad1 +:+ ("data:" +:+ media +:+ "," +:+ body) +:+ pad2) = Return body.
Proof.
  intros pad1 pad2 media body H1 H2 Hm Hne Hb. split.
  - unfold validate_base64. cbv zeta.
    rewrite (strip_padded pad1 body pad2 H1 H2), (all_base64_strip body Hne Hb).
    rewrite (all_base64_no_scheme body Hb). simpl.
    rewrite (all_base64_matches body Hne Hb). reflexivity.
  - unfold validate_base64. cbv zeta.
    rewrite (strip_padded pad1 _ pad2 H1 H2).
    assert (Hs : PyStr.strip ("data:" +:+ media +:+ "," +:+ body)
                 = "data:" +:+ media +:+ "," +:+ body).
    { apply strip_id.
      - intros c r E. simpl in E. inversion E; subst. reflexivity.
      - intros c E. apply base64_char_not_space.
        apply (all_base64_last body c Hb).
        rewrite <- E.
        rewrite (last_char_app "data:").
        + rewrite (last_char_app media).
          * rewrite (last_char_app "," body Hne). reflexivity.
          * discriminate.
        + destruct media; discriminate. }
    rewrite Hs.
    assert (Hd : PyStr.starts_with "data:" ("data:" +:+ media +:+ "," +:+ body) = true)
      by (apply starts_with_spec; eexists; reflexivity).
    rewrite Hd.
    assert (Hsp : PyStr.split_at "," ("data:" +:+ media +:+ "," +:+ body)
                  = Some ("data:" +:+ media, body)).
    { rewrite <- (str_app_assoc "data:" media ("," +:+ body)).
      apply (split_at_char "," ("data:" +:+ media) body).
      simpl. exact Hm. }
    rewrite Hsp. simpl. rewrite (all_base64_matches body Hne Hb). reflexivity.
Qed.

(** The theorem at a data URL between a tab and a line feed. *)
Lemma X4_validate_base64_strips_padding_and_data_url_witness :
  validate_base64 (String (ascii_of_N 9) EmptyString +:+ "QUJD+/8="
                   +:+ String (ascii_of_N 10) EmptyString) = Return "QUJD+/8="
  /\ validate_base64 (String (ascii_of_N 9) EmptyString
                      +:+ ("data:" +:+ "image/png;base64" +:+ "," +:+ "QUJD+/8=")
                      +:+ String (ascii_of_N 10) EmptyString) = Return "QUJD+/8=".
Proof.
  apply (X4_validate_base64_strips_padding_and_data_url
           (String (ascii_of_N 9) EmptyString) (String (ascii_of_N 10) EmptyString)
           "image/png;base64" "QUJD+/8=");
    first [reflexivity | discriminate].
Defined.

Lemma lower_app (a b : string) : PyStr.lower (a +:+ b) = PyStr.lower a +:+ PyStr.lower b.
Proof. induction a as [|x a IH]; simpl; [reflexivity|]. rewrite IH. reflexivity. Qed.

Lemma lower_substring (n m : nat) (s : string) :
  PyStr.lower (String.substring n m s) = String.substring n m (PyStr.lower s).
Proof.
  revert n m. induction s as [|c s IH]; intros n m.
  - destruct n, m; reflexivity.
  - destruct n as [|n].
    + destruct m as [|m]; simpl; [reflexivity|]. rewrite IH. reflexivity.
    + simpl. apply IH.
Qed.

Lemma substring_prefix (n : nat) (s : string) :
  exists r, s = String.substring 0 n s +:+ r.
Proof.
  revert n. induction s as [|c s IH]; intros n.
  - exists EmptyString. destruct n; reflexivity.
  - destruct n as [|n].
    + exists (String c s). reflexivity.
    + destruct (IH n) as [r Hr]. exists r. simpl. rewrite <- Hr. reflexivity.
Qed.

Lemma length_substring_le (n : nat) (s : string) :
  (String.length (String.substring 0 n s) <= n)%nat.
Proof.
  revert n. induction s as [|c s IH]; intros n.
  - destruct n; simpl; lia.
  - destruct n as [|n]; simpl; [lia|]. specialize (IH n). lia.
Qed.

Lemma starts_with_before (p x d : string) :
  (forall c, PyStr.has_char c d = true -> PyStr.has_char c p = false) ->
  PyStr.starts_with p (x +:+ d) = true -> PyStr.starts_with p x = true.
Proof.
  revert x. induction p as [|a p IH]; intros x Hd; [reflexivity|].
  destruct x as [|b x].
  - simpl String.append. destruct d as [|e d]; simpl; [discriminate|].
    destruct (Ascii.eqb a e) eqn:Ee; [|discriminate].
    apply Ascii.eqb_eq in Ee. subst e.
    specialize (Hd a). simpl in Hd. rewrite Ascii.eqb_refl in Hd. simpl in Hd.
    specialize (Hd eq_refl). discriminate Hd.
  - simpl. destruct (Ascii.eqb a b); [|discriminate].
    apply IH. intros c Hc. specialize (Hd c Hc). simpl in Hd.
    apply orb_false_iff in Hd. apply Hd.
Qed.

Lemma contains_has_char (a : ascii) (p d : string) :
  PyStr.contains (String a p) d = true -> PyStr.has_char a d = true.
Proof.
  induction d as [|e d IH]; simpl; [discriminate|].
  intros E. apply orb_true_iff in E. destruct E as [E|E].
  - destruct (Ascii.eqb a e) eqn:Ee; [|discriminate].
    rewrite Ascii.eqb_sym, Ee. reflexivity.
  - rewrite (IH E). apply orb_true_r.
Qed.

Lemma contains_before (p x d : string) :
  p <> EmptyString ->
  (forall c, PyStr.has_char c d = true -> PyStr.has_char c p = false) ->
  PyStr.contains p (x +:+ d) = true -> PyStr.contains p x = true.
Proof.
  intros Hne Hd. induction x as [|b x IH].
  - simpl String.append. intros E. destruct p as [|a p]; [contradiction|].
    pose proof (contains_has_char a p d E) as Ha.
    specialize (Hd a Ha). simpl in Hd. rewrite Ascii.eqb_refl in Hd. discriminate Hd.
  - simpl String.append. simpl. intros E. apply orb_true_iff in E. destruct E as [E|E].
    + change (String b (x +:+ d)) with (String b x +:+ d) in E.
      rewrite (starts_with_before p (String b x) d Hd E). reflexivity.
    + rewrite (IH E). apply orb_true_r.
Qed.

(** X5: the error details that the error middleware hands to a client never
    contain one of the sensitive patterns (a home or application path, a
    drive root, the words password, secret, api_key, token), whatever the
    letter case, and are never longer than 203 characters: a message with
    such a pattern is replaced by a fixed text, a longer clean message is
    cut after 200 characters, and cutting cannot bring a pattern in. *)
Theorem X5_safe_error_details_hide_sensitive_patterns :
  forall (error_str : string),
    (forall pattern, In pattern sensitive_patterns ->
       PyStr.contains (PyStr.lower pattern)
         (PyStr.lower (_get_safe_error_details error_str)) = false)
    /\ PyStr.len (_get_safe_error_details error_str) <= 203.
Proof.
  intros error_str. unfold _get_safe_error_details.
  destruct (existsb _ sensitive_patterns) eqn:Ex.
  - split; [|vm_compute; discriminate].
    intros pattern Hin. simpl in Hin.
    repeat (destruct Hin as [<-|Hin]; [vm_compute; reflexivity|]). contradiction.
  - assert (Hclean : forall pattern, In pattern sensitive_patterns ->
              PyStr.contains (PyStr.lower pattern) (PyStr.lower error_str) = false).
    { intros pattern Hin. destruct (PyStr.contains _ _) eqn:E; [|reflexivity].
      assert (Ht : existsb (fun pattern =>
                      PyStr.contains (PyStr.lower pattern) (PyStr.lower error_str))
                     sensitive_patterns = true)
        by (apply existsb_exists; exists pattern; split; assumption).
      rewrite Ht in Ex. discriminate Ex. }
    destruct (200 <? PyStr.len error_str) eqn:El.
    + split.
      * intros pattern Hin. specialize (Hclean pattern Hin).
        destruct (PyStr.contains (PyStr.lower pattern)
                    (PyStr.lower (str_prefix 200 error_str +:+ "..."))) eqn:E;
          [|reflexivity].
        rewrite lower_app in E. unfold str_prefix in E. rewrite lower_substring in E.
        change (PyStr.lower "...") with "..." in E.
        assert (Hp : PyStr.contains (PyStr.lower pattern)
                       (String.substring 0 200 (PyStr.lower error_str)) = true).
        { apply (contains_before _ _ "..."); [| |exact E].
          - simpl in Hin.
            repeat (destruct Hin as [<-|Hin]; [discriminate|]). contradiction.
          - intros c Hc.
            assert (c = "."%char) as ->.
            { change (PyStr.has_char c "...")
                with (Ascii.eqb "." c || (Ascii.eqb "." c || (Ascii.eqb "." c || false)))
                in Hc.
              destruct (Ascii.eqb "." c) eqn:Ee; [|discriminate Hc].
              apply Ascii.eqb_eq in Ee. symmetry. exact Ee. }
            simpl in Hin.
            repeat (destruct Hin as [<-|Hin]; [vm_compute; reflexivity|]). contradiction. }
        destruct (substring_prefix 200 (PyStr.lower error_str)) as [r Hr].
        rewrite Hr in Hclean.
        rewrite (contains_app_l _ _ r Hp) in Hclean. discriminate Hclean.
      * unfold PyStr.len, str_prefix. rewrite str_app_length.
        pose proof (length_substring_le 200 error_str). simpl String.length. lia.
    + split; [exact Hclean|]. apply Z.ltb_ge in El. lia.
Qed.

(* ===================================================================== *)
(** ** Further properties: the session store and its endpoints *)
(* ===================================================================== *)

(** X6: [create_session] followed by [get_session].  The session that
    [create_session] returns is the one [get_session] finds under its
    identifier; it is Pending, at step 0, without analysis, instructions or
    end time, its identifier is the next one the host generates, and every
    other identifier of the store keeps what it had. *)
Theorem X6_create_then_get_session :
  forall (H : Host) (request : StartSessionRequest) (w w' : World) (s : EmergencySession),
    create_session H request w = (Return s, w') ->
    get_session (session_id s) w' = (Return (Some s), w')
    /\ session_id s = uuid4_at H (uuids (sys w))
    /\ status s = PENDING /\ current_step s = 0 /\ instructions s = []
    /\ analysis s = None /\ ended_at s = None
    /\ started_at s = utcnow_at H (ticks (sys w))
    /\ (forall sid, sid <> session_id s -> sessions w' !! sid = sessions w !! sid).
Proof.
  intros H request w w' s. unfold create_session. simpl.
  destruct (Pydantic.optional _ _) as [notes|]; [|discriminate].
  intros R. inversion R; subst. clear R. unfold get_session. simpl.
  rewrite lookup_insert_eq.
  repeat split; try reflexivity.
  intros sid Hne. rewrite lookup_insert_ne by congruence. reflexivity.
Qed.

(** The theorem at the first request of the example scenario. *)
Lemma X6_create_then_get_session_witness :
  exists s w',
    create_session scenario_host start_request initial_world = (Return s, w')
    /\ get_session "session-0" w' = (Return (Some s), w')
    /\ status s = PENDING.
Proof.
  let v := eval vm_compute in (create_session scenario_host start_request initial_world) in
  assert (Hrun : create_session scenario_host start_request initial_world = v)
    by (vm_compute; reflexivity).
  match type of Hrun with
  | _ = (Return ?s, ?w') =>
      exists s, w';
      destruct (X6_create_then_get_session scenario_host start_request
                  initial_world w' s Hrun) as (Hget & _ & Hst & _)
  end.
  split; [exact Hrun|]. split; [exact Hget | exact Hst].
Defined.




(** X8: the endpoints that only read.  Whatever they answer, instruction
    retrieval, session retrieval and audio processing leave the store and
    the counters exactly as they found them. *)
Theorem X8_read_only_endpoints_change_nothing :
  forall (H : Host) (w : World) (sid : UUID),
    snd (EmergencyController.get_current_instruction H sid w) = w
    /\ snd (controller_get_session H sid w) = w
    /\ snd (controller_process_audio H sid w) = w.
Proof.
  intros H w sid. split; [apply controller_get_current_instruction_state|]. split.
  - unfold controller_get_session. rewrite http_guard_state.
    unfold get_session, lift_outcome. unfold_py.
    destruct (sessions w !! sid); reflexivity.
  - unfold controller_process_audio. rewrite http_guard_state.
    unfold get_session. unfold_py.
    destruct (sessions w !! sid); reflexivity.
Qed.

(** X9: session retrieval on a store reached from the empty one by any
    sequence of requests.  For every identifier the store holds, retrieval
    succeeds (the response model accepts the counters) and reports the
    identifier asked for, the stored status and start time, and a current
    step between 0 and the total number of steps. *)
Theorem X9_get_session_succeeds_on_reachable_store :
  forall (H : Host) (reqs : list Request) (sid : UUID) (s : EmergencySession),
    sessions (run H reqs initial_world) !! sid = Some s ->
    exists data,
      controller_get_session H sid (run H reqs initial_world)
      = (Return data, run H reqs initial_world)
      /\ sd_session_id data = sid
      /\ sd_status data = status s
      /\ sd_started_at data = started_at s
      /\ sd_current_step data = current_step s
      /\ sd_total_steps data = n_instructions s
      /\ 0 <= sd_current_step data <= sd_total_steps data
      /\ sd_emergency_type data = option_map emergency_type (analysis s).
Proof.
  intros H reqs sid s E.
  pose proof (run_inv H reqs initial_world initial_world_inv sid s E) as [Hlo Hhi].
  pose proof (reachable_sessions_keyed H reqs sid s E) as Hid.
  unfold controller_get_session, http_guard, try_except, get_session, lift_outcome.
  unfold_py. rewrite E. unfold build_session_response.
  assert (H1 : (0 <=? current_step s) = true) by (apply Z.leb_le; lia).
  assert (H2 : (0 <=? n_instructions s) = true) by (apply Z.leb_le; lia).
  rewrite H1, H2. simpl. eexists. split; [reflexivity|]. simpl.
  repeat split; try reflexivity; try assumption.
Qed.

(** The theorem at the store of the example scenario in which the session
    has reached its last step. *)
Lemma X9_get_session_succeeds_on_reachable_store_witness :
  exists data,
    controller_get_session scenario_host "session-0"
      (run scenario_host requests_to_last_step initial_world)
    = (Return data, run scenario_host requests_to_last_step initial_world)
    /\ sd_current_step data = 2 /\ sd_total_steps data = 2.
Proof.
  let v := eval vm_compute in
             (sessions (run scenario_host requests_to_last_step initial_world)
                !! "session-0") in
  assert (Hrun : sessions (run scenario_host requests_to_last_step initial_world)
                   !! "session-0" = v) by (vm_compute; reflexivity).
  match type of Hrun with
  | _ = Some ?s =>
      destruct (X9_get_session_succeeds_on_reachable_store scenario_host
                  requests_to_last_step "session-0" s Hrun)
        as (data & Hget & Hid & Hst & Hsa & Hcur & Htot & Hrange & Hty)
  end.
  exists data. split; [exact Hget|].
  split; [rewrite Hcur | rewrite Htot]; reflexivity.
Defined.

Lemma end_session_found H sid request w s :
  sessions w !! sid = Some s ->
  status s <> RESOLVED -> status s <> CANCELLED ->
  let s1 :=
    if end_emergency_services_called request then set_status ESCALATED s
    else if PyStr.contains "cancel" (PyStr.lower (end_reason request))
         then set_status CANCELLED s
         else set_status RESOLVED s in
  let s2 := set_updated_at (utcnow_at H (S (ticks (sys w))))
              (set_ended_at (Some (utcnow_at H (ticks (sys w)))) s1) in
  let s3 := append_resolution_notes (end_notes request) s2 in
  end_session H sid request w
  = (Return s3,
     {| sessions := <[session_id s3 := s3]> (<[sid := s3]> (sessions w));
        sys := {| ticks := S (S (ticks (sys w))); calls := calls (sys w);
                  uuids := uuids (sys w) |} |}).
Proof.
  intros E Hr Hc. cbv zeta. unfold end_session, get_session, world_now. unfold_py.
  rewrite E.
  rewrite (bool_decide_eq_false_2 _ Hr), (bool_decide_eq_false_2 _ Hc). simpl.
  reflexivity.
Qed.

Lemma append_resolution_notes_fields notes x :
  status (append_resolution_notes notes x) = status x
  /\ ended_at (append_resolution_notes notes x) = ended_at x
  /\ current_step (append_resolution_notes notes x) = current_step x
  /\ instructions (append_resolution_notes notes x) = instructions x
  /\ analysis (append_resolution_notes notes x) = analysis x
  /\ session_id (append_resolution_notes notes x) = session_id x
  /\ started_at (append_resolution_notes notes x) = started_at x
  /\ updated_at (append_resolution_notes notes x) = updated_at x.
Proof.
  unfold append_resolution_notes. destruct notes as [notes|];
    [destruct (PyStr.truthy notes)|]; repeat split; reflexivity.
Qed.

Lemma lookup_insert_twice (sid a : UUID) (x : EmergencySession)
    (m : gmap UUID EmergencySession) :
  (<[a := x]> (<[sid := x]> m)) !! sid = Some x.
Proof.
  destruct (decide (a = sid)) as [->|Hne].
  - apply lookup_insert_eq.
  - rewrite lookup_insert_ne by exact Hne. apply lookup_insert_eq.
Qed.

(** X10: ending a session without the emergency services, and ending it
    again.  Ending a session that is neither Resolved nor Cancelled, with
    [emergency_services_called] false, stores it as Cancelled when the
    reason contains "cancel" in any letter case and as Resolved otherwise,
    with the end time read from the clock and its step, instructions and
    analysis untouched.  As long as the stored session keeps that status (in
    particular right after this end), in whatever store, an attempt to end
    it raises "Session <id> is already ended" and changes nothing.  This
    lasts only until a frame is analysed for the session again: a successful
    analysis makes it Active, and it can then be ended once more. *)
Theorem X10_end_session_rejects_while_ended :
  forall (H : Host) (sid : UUID) (request : EndSessionRequest) (w : World)
         (s : EmergencySession),
    sessions w !! sid = Some s ->
    status s <> RESOLVED -> status s <> CANCELLED ->
    end_emergency_services_called request = false ->
    exists s1 w1,
      end_session H sid request w = (Return s1, w1)
      /\ sessions w1 !! sid = Some s1
      /\ status s1 = (if PyStr.contains "cancel" (PyStr.lower (end_reason request))
                      then CANCELLED else RESOLVED)
      /\ ended_at s1 = Some (utcnow_at H (ticks (sys w)))
      /\ current_step s1 = current_step s
      /\ instructions s1 = instructions s
      /\ analysis s1 = analysis s
      /\ (forall request',
            end_session H sid request' w1
            = (Raise (ValueError ("Session " +:+ sid +:+ " is already ended")), w1))
      /\ (forall w2 s2 request',
            sessions w2 !! sid = Some s2 -> status s2 = status s1 ->
            end_session H sid request' w2
            = (Raise (ValueError ("Session " +:+ sid +:+ " is already ended")), w2))
      /\ (forall frame_data user_context a i s2 k2 request',
            analyze_frame H frame_data user_context (s1, sys w1)
            = (Return (a, i), (s2, k2)) ->
            status s2 = ACTIVE
            /\ exists s3 w3,
                 end_session H sid request'
                   {| sessions := <[sid := s2]> (sessions w1); sys := k2 |}
                 = (Return s3, w3)
                 /\ ended_at s3 = Some (utcnow_at H (ticks k2))).
Proof.
  intros H sid request w s E Hr Hc Hcalled.
  pose proof (end_session_found H sid request w s E Hr Hc) as Hrun. cbv zeta in Hrun.
  rewrite Hcalled in Hrun.
  destruct (append_resolution_notes_fields (end_notes request)
              (set_updated_at (utcnow_at H (S (ticks (sys w))))
                 (set_ended_at (Some (utcnow_at H (ticks (sys w))))
                    (if PyStr.contains "cancel" (PyStr.lower (end_reason request))
                     then set_status CANCELLED s else set_status RESOLVED s))))
    as (H1 & H2 & H3 & H4 & H5 & _).
  set (s3 := append_resolution_notes _ _) in *.
  assert (Hstatus : status s3 = (if PyStr.contains "cancel" (PyStr.lower (end_reason request))
                                 then CANCELLED else RESOLVED)).
  { rewrite H1. destruct (PyStr.contains _ _); reflexivity. }
  assert (Hended : status s3 = RESOLVED \/ status s3 = CANCELLED).
  { rewrite Hstatus. destruct (PyStr.contains _ _); [right | left]; reflexivity. }
  eexists _, _. split; [exact Hrun|]. simpl sessions.
  split; [apply lookup_insert_twice|].
  split; [exact Hstatus|].
  split; [rewrite H2; reflexivity|].
  split; [rewrite H3; destruct (PyStr.contains _ _); reflexivity|].
  split; [rewrite H4; destruct (PyStr.contains _ _); reflexivity|].
  split; [rewrite H5; destruct (PyStr.contains _ _); reflexivity|].
  split.
  { intros request'.
    apply (end_session_rejects_resolved_and_cancelled H sid request' _ s3).
    - simpl. apply lookup_insert_twice.
    - exact Hended. }
  split.
  { intros w2 s2 request' E2 Hs2.
    apply (end_session_rejects_resolved_and_cancelled H sid request' w2 s2 E2).
    rewrite Hs2. exact Hended. }
  intros fd ctx a i s2 k2 request' Han.
  destruct (analyze_frame_success _ _ _ _ _ _ _ _ _ Han) as (_ & Hact & _).
  split; [exact Hact|].
  assert (E2 : sessions {| sessions := <[sid := s2]>
                             (<[session_id s3 := s3]> (<[sid := s3]> (sessions w)));
                           sys := k2 |} !! sid = Some s2)
    by (simpl; apply lookup_insert_eq).
  pose proof (end_session_found H sid request' _ s2 E2) as Hrun2. cbv zeta in Hrun2.
  rewrite Hact in Hrun2.
  specialize (Hrun2 ltac:(discriminate) ltac:(discriminate)).
  eexists _, _. split; [exact Hrun2|].
  match goal with
  | |- ended_at (append_resolution_notes ?n ?x) = _ =>
      destruct (append_resolution_notes_fields n x) as (_ & Hen & _)
  end.
  rewrite Hen. reflexivity.
Qed.

(** The theorem at a freshly created session that the user cancels. *)
Lemma X10_end_session_rejects_while_ended_witness :
  exists s1 w1,
    end_session scenario_host "session-0" (end_request "User CANCELLED the call" false)
      (run scenario_host [StartSession start_request] initial_world) = (Return s1, w1)
    /\ status s1 = CANCELLED
    /\ end_session scenario_host "session-0" (end_request "again" true) w1
       = (Raise (ValueError "Session session-0 is already ended"), w1).
Proof.
  let v := eval vm_compute in
             (sessions (run scenario_host [StartSession start_request] initial_world)
                !! "session-0") in
  assert (Hrun : sessions (run scenario_host [StartSession start_request] initial_world)
                   !! "session-0" = v) by (vm_compute; reflexivity).
  match type of Hrun with
  | _ = Some ?s =>
      destruct (X10_end_session_rejects_while_ended scenario_host "session-0"
                  (end_request "User CANCELLED the call" false) _ s Hrun)
        as (s1 & w1 & Hend & _ & Hst & _ & _ & _ & _ & Hagain & _);
        [discriminate | discriminate | reflexivity |]
  end.
  exists s1, w1. split; [exact Hend|]. split; [exact Hst|]. apply Hagain.
Defined.

Lemma rstrip_nonempty_head c s :
  PyStr.is_space c = false -> PyStr.rstrip (String c s) <> EmptyString.
Proof.
  intros Hc. rewrite rstrip_cons. destruct (PyStr.rstrip s); [rewrite Hc|]; discriminate.
Qed.

Lemma rstrip_app_nonempty a b :
  PyStr.rstrip b <> EmptyString -> PyStr.rstrip (a +:+ b) = a +:+ PyStr.rstrip b.
Proof.
  intros Hb. induction a as [|x a IH]; [reflexivity|].
  simpl String.append. rewrite rstrip_cons, IH.
  destruct (a +:+ PyStr.rstrip b) eqn:E; [|reflexivity].
  destruct a; [simpl in E; contradiction | discriminate E].
Qed.

Lemma stripped_head s c r :
  PyStr.strip s = s -> s = String c r -> PyStr.is_space c = false.
Proof.
  intros Hs ->. unfold PyStr.strip in Hs.
  destruct (rstrip_head _ _ _ Hs) as [r0 E0]. exact (lstrip_head _ _ _ E0).
Qed.

(** X11: the resolution notes of an end request are appended to the notes
    the session already has.  When the request carries non-empty notes and
    the session's own notes are absent, or non-empty without surrounding
    whitespace (as a validated start request leaves them), the stored notes
    become the old notes, a blank line, and "Resolution: <notes>" without
    trailing whitespace; with no old notes the text starts at "Resolution:".
    The result is again non-empty without surrounding whitespace. *)
Theorem X11_end_session_appends_resolution_notes :
  forall (H : Host) (sid : UUID) (request : EndSessionRequest) (w : World)
         (s : EmergencySession) (notes : string),
    sessions w !! sid = Some s ->
    status s <> RESOLVED -> status s <> CANCELLED ->
    end_notes request = Some notes -> notes <> EmptyString ->
    (forall e, user_notes s = Some e -> clean_observation e) ->
    exists s1 w1 text,
      end_session H sid request w = (Return s1, w1)
      /\ user_notes s1 = Some text
      /\ text = match user_notes s with
                | Some e => e +:+ newline +:+ newline
                | None => EmptyString
                end +:+ PyStr.rstrip ("Resolution: " +:+ notes)
      /\ clean_observation text.
Proof.
  intros H sid request w s notes E Hr Hc Hn Hne Hclean.
  pose proof (end_session_found H sid request w s E Hr Hc) as Hrun. cbv zeta in Hrun.
  rewrite Hn in Hrun. unfold append_resolution_notes in Hrun.
  apply truthy_nonempty in Hne. rewrite Hne in Hrun.
  match type of Hrun with
  | context [PyStr.strip ?t] => set (full := t) in *
  end.
  assert (Hfull : full = match user_notes s with
                         | Some e => e
                         | None => EmptyString
                         end +:+ newline +:+ newline +:+ "Resolution: " +:+ notes).
  { subst full. destruct (end_emergency_services_called request);
      [|destruct (PyStr.contains _ _)]; simpl;
      (destruct (user_notes s) as [e|] eqn:Eu; [|reflexivity]);
      destruct (Hclean e eq_refl) as [He _]; apply truthy_nonempty in He;
      rewrite He; reflexivity. }
  assert (HR : PyStr.rstrip ("Resolution: " +:+ notes) <> EmptyString)
    by (apply rstrip_nonempty_head; reflexivity).
  assert (Hstrip : PyStr.strip full
                   = match user_notes s with
                     | Some e => e +:+ newline +:+ newline
                     | None => EmptyString
                     end +:+ PyStr.rstrip ("Resolution: " +:+ notes)).
  { rewrite Hfull. destruct (user_notes s) as [e|] eqn:Eu.
    - destruct (Hclean e eq_refl) as [He Hs].
      destruct e as [|c r]; [contradiction|]. unfold is_stripped in Hs.
      pose proof (stripped_head (String c r) c r Hs eq_refl) as Hhead.
      unfold PyStr.strip. rewrite lstrip_id.
      + set (R := "Resolution: " +:+ notes) in *.
        rewrite <- (str_app_assoc newline newline R).
        rewrite <- (str_app_assoc (String c r) (newline +:+ newline) R).
        rewrite rstrip_app_nonempty by exact HR. reflexivity.
      + intros c' r' E'. simpl in E'. inversion E'; subst. exact Hhead.
    - unfold PyStr.strip. simpl PyStr.lstrip. reflexivity. }
  eexists _, _, _. split; [exact Hrun|]. simpl user_notes.
  split; [reflexivity|]. split; [exact Hstrip|].
  apply clean_observation_strip. rewrite Hstrip. apply truthy_nonempty.
  destruct (user_notes s) as [e|]; [|exact HR].
  destruct (Hclean e eq_refl) as [He _]. destruct e; [contradiction | discriminate].
Qed.

(** The theorem at the first session of the example scenario, created with
    the notes "cannot breathe". *)
Lemma X11_end_session_appends_resolution_notes_witness :
  exists s1 w1,
    end_session scenario_host "session-0"
      (end_request_with_notes "recovered" "inhaler helped  ") world_created
    = (Return s1, w1)
    /\ user_notes s1
       = Some ("cannot breathe" +:+ newline +:+ newline +:+ "Resolution: inhaler helped").
Proof.
  let v := eval vm_compute in (sessions world_created !! "session-0") in
  assert (Hrun : sessions world_created !! "session-0" = v) by (vm_compute; reflexivity).
  match type of Hrun with
  | _ = Some ?s =>
      destruct (X11_end_session_appends_resolution_notes scenario_host "session-0"
                  (end_request_with_notes "recovered" "inhaler helped  ") world_created
                  s "inhaler helped  " Hrun)
        as (s1 & w1 & text & Hend & Hnotes & Htext & _);
        [discriminate | discriminate | reflexivity | discriminate
        | intros e He; inversion He; subst; split; [discriminate | reflexivity] |]
  end.
  exists s1, w1. split; [exact Hend|]. rewrite Hnotes, Htext. reflexivity.
Defined.

Lemma active_not_expired cutoff s :
  status s ∈ active_statuses -> expired cutoff s = false.
Proof.
  unfold expired, active_statuses, cleanup_ended_statuses. intros Ha.
  rewrite bool_decide_eq_false_2; [reflexivity|].
  rewrite !elem_of_cons, elem_of_nil in Ha. rewrite !elem_of_cons, elem_of_nil.
  intros Hb. destruct (status s); intuition congruence.
Qed.

(** X12: the sweep of old sessions, for an age of 0 to 1000000 hours.  With
    the cutoff that many hours before the clock reading, the sweep removes
    exactly the sessions that are Resolved, Cancelled or Escalated and whose
    end time (or last update, when there is no end time) lies before the
    cutoff, and leaves every other session as it was.  The number it returns
    is the number of sessions removed; a session that is Pending, Analyzing,
    Active or Monitoring is never removed, so the count of active sessions
    is the same before and after. *)
Theorem X12_cleanup_removes_exactly_expired_sessions :
  forall (H : Host) (max_age_hours : Z) (w : World),
    0 <= max_age_hours <= 1000000 ->
    let cutoff := utcnow_at H (ticks (sys w)) - max_age_hours * 3600000000 in
    let swept := snd (cleanup_expired_sessions H max_age_hours w) in
    (forall sid,
        sessions swept !! sid
        = match sessions w !! sid with
          | Some s => if expired cutoff s then None else Some s
          | None => None
          end)
    /\ (fst (cleanup_expired_sessions H max_age_hours w) + size (sessions swept)
        = size (sessions w))%nat
    /\ (forall sid s, sessions w !! sid = Some s -> status s ∈ active_statuses ->
          sessions swept !! sid = Some s)
    /\ get_active_sessions_count swept = get_active_sessions_count w.
Proof.
  intros H max_age_hours w _ cutoff swept.
  assert (Hlook : forall sid,
             sessions swept !! sid
             = match sessions w !! sid with
               | Some s => if expired cutoff s then None else Some s
               | None => None
               end).
  { intros sid. subst swept. unfold cleanup_expired_sessions. simpl. fold cutoff.
    destruct (sessions w !! sid) as [s|] eqn:E.
    - destruct (expired cutoff s) eqn:Ex.
      + apply map_lookup_filter_None. right. intros s' E' Hn. simpl in Hn.
        rewrite E in E'. inversion E'; subst. apply Hn. exact Ex.
      + apply map_lookup_filter_Some. split; [exact E|]. simpl. rewrite Ex. discriminate.
    - apply map_lookup_filter_None. left. exact E. }
  split; [exact Hlook|]. split; [|split].
  - subst swept. unfold cleanup_expired_sessions. simpl. fold cutoff.
    rewrite <- map_size_disj_union by apply map_disjoint_filter_complement.
    rewrite map_filter_union_complement. reflexivity.
  - intros sid s E Ha. rewrite Hlook, E, (active_not_expired cutoff s Ha). reflexivity.
  - unfold get_active_sessions_count. f_equal.
    apply map_filter_strong_ext_1. intros sid s. simpl. rewrite Hlook.
    split; intros [Ha E]; (split; [exact Ha|]).
    + destruct (sessions w !! sid) as [s'|]; [|discriminate].
      destruct (expired cutoff s'); [discriminate | exact E].
    + rewrite E, (active_not_expired cutoff s Ha). reflexivity.
Qed.

(** The theorem at the store of the example scenario whose only session was
    ended with the emergency services called: a sweep with age 0 removes
    it. *)
Lemma X12_cleanup_removes_exactly_expired_sessions_witness :
  (fst (cleanup_expired_sessions (reference_host []) 0 world_escalated)
   + size (sessions (snd (cleanup_expired_sessions (reference_host []) 0 world_escalated)))
   = size (sessions world_escalated))%nat
  /\ fst (cleanup_expired_sessions (reference_host []) 0 world_escalated) = 1%nat.
Proof.
  split.
  - exact (proj1 (proj2 (X12_cleanup_removes_exactly_expired_sessions
                           (reference_host []) 0 world_escalated
                           (conj (Z.le_refl 0) (Zle_bool_imp_le 0 1000000 eq_refl))))).
  - vm_compute. reflexivity.
Defined.

Lemma terminal_not_active s :
  status s = ESCALATED \/ status s = CANCELLED \/ status s = RESOLVED ->
  ~ status s ∈ active_statuses.
Proof.
  unfold active_statuses. rewrite !elem_of_cons, elem_of_nil.
  intros [E|[E|E]]; rewrite E; intuition congruence.
Qed.

Lemma create_session_stored H request w w1 s :
  create_session H request w = (Return s, w1) ->
  sessions w1 = <[session_id s := s]> (sessions w) /\ status s = PENDING.
Proof.
  unfold create_session. simpl.
  destruct (Pydantic.optional _ _) as [notes|]; [|discriminate].
  intros R. inversion R; subst. split; reflexivity.
Qed.

(** X13: the count of active sessions follows creation and ending.  When
    [create_session] files the new session under an identifier the store
    did not hold, the count of active sessions is one more than before; and
    when that session is then ended, the count is back at what it was. *)
Theorem X13_active_count_follows_create_and_end :
  forall (H : Host) (request : StartSessionRequest) (w w1 : World)
         (s : EmergencySession),
    create_session H request w = (Return s, w1) ->
    sessions w !! session_id s = None ->
    get_active_sessions_count w1 = S (get_active_sessions_count w)
    /\ forall end_request,
         exists s2 w2,
           end_session H (session_id s) end_request w1 = (Return s2, w2)
           /\ get_active_sessions_count w2 = get_active_sessions_count w.
Proof.
  intros H request w w1 s Hcreate Hfresh.
  destruct (create_session_stored H request w w1 s Hcreate) as (Hw1 & Hst).
  assert (Hact : status s ∈ active_statuses)
    by (rewrite Hst; unfold active_statuses; rewrite !elem_of_cons; auto).
  split.
  - unfold get_active_sessions_count. rewrite Hw1.
    rewrite map_filter_insert_True by exact Hact.
    apply map_size_insert_None. apply map_lookup_filter_None. left. exact Hfresh.
  - intros end_request.
    assert (E : sessions w1 !! session_id s = Some s)
      by (rewrite Hw1; apply lookup_insert_eq).
    pose proof (end_session_found H (session_id s) end_request w1 s E) as Hrun.
    cbv zeta in Hrun. rewrite Hst in Hrun.
    specialize (Hrun ltac:(discriminate) ltac:(discriminate)).
    destruct (append_resolution_notes_fields (end_notes end_request)
                (set_updated_at (utcnow_at H (S (ticks (sys w1))))
                   (set_ended_at (Some (utcnow_at H (ticks (sys w1))))
                      (if end_emergency_services_called end_request
                       then set_status ESCALATED s
                       else if PyStr.contains "cancel" (PyStr.lower (end_reason end_request))
                            then set_status CANCELLED s
                            else set_status RESOLVED s))))
      as (H1 & _ & _ & _ & _ & H6 & _).
    set (s3 := append_resolution_notes _ _) in *.
    assert (Hid : session_id s3 = session_id s).
    { rewrite H6. destruct (end_emergency_services_called end_request);
        [|destruct (PyStr.contains _ _)]; reflexivity. }
    assert (Hterm : ~ status s3 ∈ active_statuses).
    { apply terminal_not_active. rewrite H1.
      destruct (end_emergency_services_called end_request);
        [|destruct (PyStr.contains _ _)]; simpl; auto. }
    eexists _, _. split; [exact Hrun|].
    unfold get_active_sessions_count. simpl sessions. rewrite Hid, Hw1.
    rewrite insert_insert_eq, insert_insert_eq.
    rewrite map_filter_insert_False by exact Hterm.
    rewrite (delete_id _ _ Hfresh). reflexivity.
Qed.

(** The theorem at the first session of the example scenario, ended with
    the emergency services called. *)
Lemma X13_active_count_follows_create_and_end_witness :
  exists s w1 s2 w2,
    create_session scenario_host start_request initial_world = (Return s, w1)
    /\ get_active_sessions_count w1 = 1%nat
    /\ end_session scenario_host (session_id s) (end_request "ambulance arrived" true) w1
       = (Return s2, w2)
    /\ get_active_sessions_count w2 = 0%nat.
Proof.
  let v := eval vm_compute in (create_session scenario_host start_request initial_world) in
  assert (Hrun : create_session scenario_host start_request initial_world = v)
    by (vm_compute; reflexivity).
  match type of Hrun with
  | _ = (Return ?s, ?w1) =>
      destruct (X13_active_count_follows_create_and_end scenario_host start_request
                  initial_world w1 s Hrun (lookup_empty _)) as [Hcount Hend];
      destruct (Hend (end_request "ambulance arrived" true)) as (s2 & w2 & Hrun2 & Hcount2);
      exists s, w1, s2, w2
  end.
  split; [exact Hrun|]. split; [rewrite Hcount; reflexivity|].
  split; [exact Hrun2|]. rewrite Hcount2. reflexivity.
Defined.

(* ===================================================================== *)
(** ** Further properties: the emergency service *)
(* ===================================================================== *)

Lemma advance_times_fields H n :
  forall s k,
    instructions s <> [] ->
    current_step s + Z.of_nat n <= n_instructions s ->
    current_step (fst (advance_times H n (s, k))) = current_step s + Z.of_nat n
    /\ instructions (fst (advance_times H n (s, k))) = instructions s
    /\ status (fst (advance_times H n (s, k))) = status s
    /\ ended_at (fst (advance_times H n (s, k))) = ended_at s
    /\ session_id (fst (advance_times H n (s, k))) = session_id s
    /\ ticks (snd (advance_times H n (s, k))) = (ticks k + n)%nat.
Proof.
  induction n as [|n IH]; intros s k Hne Hle.
  - simpl. rewrite Z.add_0_r, Nat.add_0_r. repeat split; reflexivity.
  - change (advance_times H (S n) (s, k))
      with (advance_times H n (snd (advance_instruction H None (s, k)))).
    rewrite (advance_instruction_next H None s k Hne) by lia. simpl snd.
    match goal with
    | |- context [advance_times H n (?s1, ?k1)] =>
        destruct (IH s1 k1) as (H1 & H2 & H3 & H4 & H5 & H6);
          [exact Hne | unfold n_instructions in *; simpl; lia|]
    end.
    rewrite H1, H2, H3, H4, H5, H6. simpl.
    repeat split; try reflexivity; lia.
Qed.

(** X14: walking through the instructions.  Take a session with
    instructions whose step pointer is not negative, and advance it [m]
    times, where [m] does not lead past the last instruction.  Each of these
    advances moves the pointer by one and one clock reading is taken; the
    instructions, the status and the end time stay as they were.  If
    instructions remain, the next advance succeeds and returns the
    instruction at the new position; if the pointer has reached the last
    instruction, the next advance reports completion and the session becomes
    Resolved with an end time, its pointer staying on the last
    instruction. *)
Theorem X14_walk_through_instructions :
  forall (H : Host) (s : EmergencySession) (k : Sys) (m : nat),
    instructions s <> [] ->
    0 <= current_step s ->
    current_step s + Z.of_nat m <= n_instructions s ->
    let st := advance_times H m (s, k) in
    current_step (fst st) = current_step s + Z.of_nat m
    /\ instructions (fst st) = instructions s
    /\ status (fst st) = status s
    /\ ended_at (fst st) = ended_at s
    /\ ticks (snd st) = (ticks k + m)%nat
    /\ (current_step s + Z.of_nat m < n_instructions s ->
        exists i,
          fst (advance_instruction H None st) = Return (true, Some i)
          /\ instructions s !! Z.to_nat (current_step s + Z.of_nat m) = Some i)
    /\ (current_step s + Z.of_nat m = n_instructions s ->
        exists s' k',
          advance_instruction H None st = (Return (false, None), (s', k'))
          /\ status s' = RESOLVED
          /\ ended_at s' = Some (utcnow_at H (ticks k + m))
          /\ current_step s' = n_instructions s
          /\ instructions s' = instructions s).
Proof.
  intros H s k m Hne Hlo Hle st.
  destruct (advance_times_fields H m s k Hne Hle) as (H1 & H2 & H3 & H4 & _ & H6).
  fold st in H1, H2, H3, H4, H6.
  split; [exact H1|]. split; [exact H2|]. split; [exact H3|]. split; [exact H4|].
  split; [exact H6|].
  destruct st as [s1 k1] eqn:Est. simpl in H1, H2, H3, H4, H6.
  assert (Hne1 : instructions s1 <> []) by (rewrite H2; exact Hne).
  assert (HN : n_instructions s1 = n_instructions s)
    by (unfold n_instructions; rewrite H2; reflexivity).
  split.
  - intros Hlt.
    rewrite (advance_instruction_next H None s1 k1 Hne1) by lia. simpl fst.
    match goal with
    | |- context [get_current_instruction ?s2] =>
        destruct (get_current_instruction_in_range s2) as (i & Hi & Hat);
          [unfold n_instructions in *; simpl; lia|]
    end.
    exists i. rewrite Hi. split; [reflexivity|].
    simpl in Hat. rewrite H2, H1 in Hat.
    replace (current_step s + Z.of_nat m + 1 - 1) with (current_step s + Z.of_nat m)
      in Hat by lia.
    exact Hat.
  - intros Heq.
    rewrite (advance_instruction_last H None s1 k1 Hne1) by lia.
    eexists _, _. split; [reflexivity|]. simpl.
    rewrite H6, H1, H2. repeat split; try reflexivity. exact Heq.
Qed.

(** The theorem at a session on the first of its two instructions, advanced
    once: the next advance completes it. *)
Lemma X14_walk_through_instructions_witness :
  exists s' k',
    advance_instruction (reference_host []) None
      (advance_times (reference_host []) 1 (session_at_first_step, sys0))
    = (Return (false, None), (s', k'))
    /\ status s' = RESOLVED
    /\ ended_at s' = Some 1001.
Proof.
  destruct (X14_walk_through_instructions (reference_host []) session_at_first_step sys0 1)
    as (_ & _ & _ & _ & _ & _ & Hlast);
    [discriminate | vm_compute; discriminate | vm_compute; discriminate |].
  destruct (Hlast eq_refl) as (s' & k' & Hrun & Hst & Hend & _).
  exists s', k'. split; [exact Hrun|]. split; [exact Hst|]. rewrite Hend. reflexivity.
Defined.

Lemma build_context_same s1 s2 ctx :
  user_notes s1 = user_notes s2 -> location_data s1 = location_data s2 ->
  _build_context s1 ctx = _build_context s2 ctx.
Proof. intros E1 E2. unfold _build_context. rewrite E1, E2. reflexivity. Qed.

(** X15: a successful analysis replaces the progress of the session.  Two
    sessions with the same identifier, start time, end time, notes and
    location give the same result when a frame is analysed, whatever their
    status, analysis, instructions and step were: the same answer, and on
    success the same session afterwards.  After a successful analysis the
    session is Active, also when it had been ended before, and its end time
    is still the one it had. *)
Theorem X15_analysis_replaces_progress :
  forall (H : Host) (frame_data : string) (user_context : option string)
         (s1 s2 : EmergencySession) (k : Sys),
    same_identity s1 s2 ->
    fst (analyze_frame H frame_data user_context (s1, k))
    = fst (analyze_frame H frame_data user_context (s2, k))
    /\ forall a i s' k',
         analyze_frame H frame_data user_context (s1, k) = (Return (a, i), (s', k')) ->
         analyze_frame H frame_data user_context (s2, k) = (Return (a, i), (s', k'))
         /\ status s' = ACTIVE
         /\ ended_at s' = ended_at s1
         /\ current_step s' = match i with [] => 0 | _ => 1 end.
Proof.
  intros H fd ctx s1 s2 k (Hid & Hsa & Hen & Hno & Hlo).
  rewrite (analyze_frame_eq H fd ctx s1 k), (analyze_frame_eq H fd ctx s2 k). cbv zeta.
  rewrite (build_context_same s1 s2 ctx Hno Hlo).
  destruct (analyze_emergency_frame H fd (_build_context s2 ctx) _) as [[a|e] k3].
  - destruct (generate_first_aid_instructions H _ _ _ k3) as [[i|e] k4].
    + split; [reflexivity|]. intros a' i' s' k' R. inversion R; subst. clear R.
      split; [|repeat split; reflexivity].
      f_equal. f_equal.
      unfold set_updated_at, set_current_step, set_status, set_instructions, set_analysis.
      simpl. rewrite Hid, Hsa, Hen, Hno, Hlo. reflexivity.
    + split; [reflexivity|]. intros a' i' s' k' R. discriminate R.
  - split; [reflexivity|]. intros a' i' s' k' R. discriminate R.
Qed.

(** The theorem at the example session on its first and on its last
    instruction: both are back on step 1 of the newly generated
    instructions. *)
Lemma X15_analysis_replaces_progress_witness :
  exists a i s' k',
    analyze_frame scenario_host "AAAA" None (session_at_first_step, sys0)
    = (Return (a, i), (s', k'))
    /\ analyze_frame scenario_host "AAAA" None (session_at_last_step, sys0)
       = (Return (a, i), (s', k'))
    /\ current_step s' = 1.
Proof.
  let v := eval vm_compute in
             (analyze_frame scenario_host "AAAA" None (session_at_first_step, sys0)) in
  assert (Hrun : analyze_frame scenario_host "AAAA" None (session_at_first_step, sys0) = v)
    by (vm_compute; reflexivity).
  match type of Hrun with
  | _ = (Return (?a, ?i), (?s', ?k')) =>
      exists a, i, s', k';
      destruct (X15_analysis_replaces_progress scenario_host "AAAA" None
                  session_at_first_step session_at_last_step sys0) as [_ Hsame];
        [repeat split; reflexivity|];
      destruct (Hsame a i s' k' Hrun) as (Hrun2 & _ & _ & Hstep)
  end.
  split; [exact Hrun|]. split; [exact Hrun2|]. rewrite Hstep. reflexivity.
Defined.

(* ===================================================================== *)
(** ** Further properties: the order of the timestamps *)
(* ===================================================================== *)

Lemma times_ok_mono H b b' s :
  session_times_ok H b s -> (b <= b')%nat -> session_times_ok H b' s.
Proof.
  intros (x & y & Hxy & Hy & Hs & Hu & He) Hb.
  exists x, y. repeat split; try assumption. lia.
Qed.

Lemma times_ok_touch H b s s' n :
  session_times_ok H b s -> (b <= n)%nat ->
  started_at s' = started_at s -> ended_at s' = ended_at s ->
  updated_at s' = utcnow_at H n ->
  session_times_ok H (S n) s'.
Proof.
  intros (x & y & Hxy & Hy & Hs & Hu & He) Hb Es Ee Eu.
  exists x, n. split; [lia|]. split; [lia|].
  split; [rewrite Es; exact Hs|]. split; [exact Eu|].
  intros t Ht. rewrite Ee in Ht. destruct (He t Ht) as (c & Hc1 & Hc2 & Hc3).
  exists c. split; [exact Hc1|]. split; [lia | exact Hc3].
Qed.

Lemma times_ok_end H b s s' n m :
  session_times_ok H b s -> (b <= n)%nat -> (n <= m)%nat ->
  started_at s' = started_at s -> ended_at s' = Some (utcnow_at H n) ->
  updated_at s' = utcnow_at H m ->
  session_times_ok H (S m) s'.
Proof.
  intros (x & y & Hxy & Hy & Hs & Hu & He) Hb Hnm Es Ee Eu.
  exists x, m. split; [lia|]. split; [lia|].
  split; [rewrite Es; exact Hs|]. split; [exact Eu|].
  intros t Ht. rewrite Ee in Ht. inversion Ht; subst.
  exists n. split; [lia|]. split; [lia | reflexivity].
Qed.

Ltac ticks_le :=
  first [apply le_n | apply le_S, le_n | apply le_S, le_S, le_n].

Lemma analyze_emergency_frame_ticks H fd ctx k r k' :
  analyze_emergency_frame H fd ctx k = (r, k') -> (ticks k <= ticks k')%nat.
Proof.
  unfold analyze_emergency_frame, analyze_emergency_frame_body, call_generate, utcnow,
    after_call, lift_outcome, bind, ret, raise, try_except.
  cbv beta iota zeta.
  destruct (b64decode H fd); cbv beta iota zeta;
    [|intros R; inversion R; subst; cbn [ticks]; ticks_le].
  destruct (generate_content H _ _) as [e|[text|]]; cbv beta iota zeta;
    try (intros R; inversion R; subst; cbn [ticks]; ticks_le).
  destruct (_parse_analysis_response H (Some text)) as [d|e]; cbv beta iota zeta;
    [|intros R; inversion R; subst; cbn [ticks]; ticks_le].
  destruct (map_analysis_data H d); cbv beta iota zeta;
    intros R; inversion R; subst; cbn [ticks]; ticks_le.
Qed.

Lemma generate_first_aid_instructions_ticks H t sv obs k r k' :
  generate_first_aid_instructions H t sv obs k = (r, k') -> ticks k' = ticks k.
Proof.
  unfold generate_first_aid_instructions, generate_first_aid_instructions_body,
    call_generate, after_call, lift_outcome, bind, ret, raise, try_except.
  cbv beta iota zeta.
  destruct (generate_content H _ _) as [e|text]; cbv beta iota zeta;
    [intros R; inversion R; subst; reflexivity|].
  destruct (_parse_instructions_response H text) as [d|e]; cbv beta iota zeta;
    [|intros R; inversion R; subst; reflexivity].
  destruct (convert_instructions H 1 d); cbv beta iota zeta;
    intros R; inversion R; subst; reflexivity.
Qed.

Lemma analyze_frame_times H fd ctx s k r s' k' :
  session_times_ok H (ticks k) s ->
  analyze_frame H fd ctx (s, k) = (r, (s', k')) ->
  session_times_ok H (ticks k') s' /\ (ticks k <= ticks k')%nat.
Proof.
  intros Hs. rewrite analyze_frame_eq. cbv zeta.
  destruct (analyze_emergency_frame H fd _ _) as [[a|e] k3] eqn:Ea.
  - apply analyze_emergency_frame_ticks in Ea. simpl in Ea.
    destruct (generate_first_aid_instructions H _ _ _ k3) as [[i|e] k4] eqn:Eg;
      apply generate_first_aid_instructions_ticks in Eg;
      intros R; inversion R; subst; simpl; (split; [|lia]).
    + apply (times_ok_mono H (S (ticks k4))); [|lia].
      apply (times_ok_touch H (ticks k) s); first [exact Hs | reflexivity | lia].
    + apply (times_ok_touch H (ticks k) s); first [exact Hs | reflexivity | lia].
  - apply analyze_emergency_frame_ticks in Ea. simpl in Ea.
    intros R; inversion R; subst; simpl; (split; [|lia]).
    apply (times_ok_touch H (ticks k) s); first [exact Hs | reflexivity | lia].
Qed.

Lemma advance_instruction_times H feedback s k r s' k' :
  session_times_ok H (ticks k) s ->
  advance_instruction H feedback (s, k) = (r, (s', k')) ->
  session_times_ok H (ticks k') s' /\ (ticks k <= ticks k')%nat.
Proof.
  intros Hs. destruct (instructions s) as [|i0 l] eqn:Ei.
  - rewrite (advance_instruction_empty H feedback s k Ei).
    intros R; inversion R; subst. split; [exact Hs | lia].
  - assert (Hne : instructions s <> []) by (rewrite Ei; discriminate).
    destruct (Z_lt_le_dec (current_step s) (n_instructions s)) as [Hlt|Hge].
    + rewrite (advance_instruction_next H feedback s k Hne Hlt).
      intros R; inversion R; subst; simpl. split; [|lia].
      apply (times_ok_touch H (ticks k) s); first [exact Hs | reflexivity | lia].
    + rewrite (advance_instruction_last H feedback s k Hne Hge).
      intros R; inversion R; subst; simpl. split; [|lia].
      apply (times_ok_end H (ticks k) s _ (ticks k) (S (ticks k)));
        first [exact Hs | reflexivity | lia].
Qed.

Lemma store_times_insert H w sid s k :
  store_times_ok H w -> (ticks (sys w) <= ticks k)%nat ->
  session_times_ok H (ticks k) s ->
  store_times_ok H {| sessions := <[sid := s]> (sessions w); sys := k |}.
Proof.
  intros Hw Hk Hs sid' s'. simpl. intros E.
  destruct (decide (sid = sid')) as [->|Hne].
  - rewrite lookup_insert_eq in E. inversion E; subst. exact Hs.
  - rewrite lookup_insert_ne in E by exact Hne.
    apply (times_ok_mono H (ticks (sys w))); [apply (Hw sid' s' E) | exact Hk].
Qed.

Lemma store_times_insert2 H w a b s k :
  store_times_ok H w -> (ticks (sys w) <= ticks k)%nat ->
  session_times_ok H (ticks k) s ->
  store_times_ok H {| sessions := <[a := s]> (<[b := s]> (sessions w)); sys := k |}.
Proof.
  intros Hw Hk Hs.
  pose proof (store_times_insert H w b s k Hw Hk Hs) as H1.
  exact (store_times_insert H _ a s k H1 (le_n _) Hs).
Qed.

Lemma update_session_times H ref s w :
  store_times_ok H w -> session_times_ok H (ticks (sys w)) s ->
  store_times_ok H (snd (update_session H ref s w))
  /\ (ticks (sys w) <= ticks (sys (snd (update_session H ref s w))))%nat.
Proof.
  intros Hw Hs. unfold update_session.
  destruct (sessions w !! session_id s); simpl; [|split; [exact Hw | lia]].
  split; [|lia]. apply store_times_insert2; [exact Hw | simpl; lia|]. simpl.
  apply (times_ok_touch H (ticks (sys w)) s); first [exact Hs | reflexivity | lia].
Qed.

Lemma create_session_times H request w :
  store_times_ok H w -> store_times_ok H (snd (create_session H request w)).
Proof.
  intros Hw. unfold create_session. simpl.
  destruct (Pydantic.optional _ _); simpl.
  - apply store_times_insert; [exact Hw | simpl; lia|]. simpl.
    exists (ticks (sys w)), (S (ticks (sys w))). simpl.
    split; [lia|]. split; [lia|]. split; [reflexivity|]. split; [reflexivity|].
    intros t Ht. discriminate Ht.
  - intros sid s E. simpl in *. apply (times_ok_mono H (ticks (sys w))); [|lia].
    apply (Hw sid s E).
Qed.

Lemma end_session_times H sid request w :
  store_times_ok H w -> store_times_ok H (snd (end_session H sid request w)).
Proof.
  intros Hw. destruct (sessions w !! sid) as [s|] eqn:E.
  - destruct (decide (status s = RESOLVED)) as [Hr|Hr];
      [rewrite (end_session_rejects_resolved_and_cancelled H sid request w s E (or_introl Hr));
       exact Hw|].
    destruct (decide (status s = CANCELLED)) as [Hc|Hc];
      [rewrite (end_session_rejects_resolved_and_cancelled H sid request w s E (or_intror Hc));
       exact Hw|].
    rewrite (end_session_found H sid request w s E Hr Hc). cbv zeta. simpl snd.
    apply store_times_insert2; [exact Hw | simpl; lia|]. simpl.
    match goal with
    | |- session_times_ok _ _ (append_resolution_notes ?n ?x) =>
        destruct (append_resolution_notes_fields n x) as (_ & H2 & _ & _ & _ & _ & H7 & H8)
    end.
    apply (times_ok_end H (ticks (sys w)) s _ (ticks (sys w)) (S (ticks (sys w))));
      [apply (Hw sid s E) | lia | lia | | |].
    + rewrite H7. destruct (end_emergency_services_called request);
        [|destruct (PyStr.contains _ _)]; reflexivity.
    + rewrite H2. reflexivity.
    + rewrite H8. reflexivity.
  - unfold end_session, get_session. unfold_py. rewrite E. exact Hw.
Qed.

Lemma handle_times H w req : store_times_ok H w -> store_times_ok H (handle H w req).
Proof.
  intros Hw. destruct req as [request|sid fd|request|sid|sid request]; simpl.
  - unfold SessionController.create_session, try_except, raise.
    pose proof (create_session_times H request w Hw) as Hc.
    destruct (create_session H request w) as [[s|e] w']; exact Hc.
  - unfold EmergencyController.analyze_frame.
    rewrite http_guard_state. unfold get_session, on_session. unfold_py.
    destruct (sessions w !! sid) as [s|] eqn:E; [|exact Hw].
    destruct (analyze_frame H fd None (s, sys w)) as [r [s' k']] eqn:Hrun.
    destruct (analyze_frame_times _ _ _ _ _ _ _ _ (Hw sid s E) Hrun) as [Hs' Hk'].
    pose proof (store_times_insert H w sid s' k' Hw Hk' Hs') as Hw1.
    destruct r as [[a i]|e]; [|exact Hw1].
    destruct (update_session_times H sid s' _ Hw1 Hs') as [Hw2 _].
    destruct (update_session H sid s' _) as [[s2|e] w2]; [|exact Hw2].
    simpl in *. destruct (analysis s2); exact Hw2.
  - unfold EmergencyController.advance_step.
    rewrite http_guard_state. unfold get_session, on_session. unfold_py.
    destruct (sessions w !! adv_session_id request) as [s|] eqn:E; [|exact Hw].
    destruct (negb (current_step s =? adv_current_step request)); [exact Hw|].
    destruct (advance_instruction H (adv_feedback request) (s, sys w))
      as [r [s' k']] eqn:Hrun.
    destruct (advance_instruction_times _ _ _ _ _ _ _ (Hw _ s E) Hrun) as [Hs' Hk'].
    pose proof (store_times_insert H w (adv_session_id request) s' k' Hw Hk' Hs') as Hw1.
    destruct r as [[success new_instruction]|e]; [|exact Hw1].
    destruct (update_session_times H (adv_session_id request) s' _ Hw1 Hs') as [Hw2 _].
    destruct (update_session H _ s' _) as [[s2|e] w2]; [|exact Hw2].
    simpl in *. destruct (negb success); exact Hw2.
  - rewrite controller_get_current_instruction_state. exact Hw.
  - unfold SessionController.end_session, try_except, raise.
    destruct (negb (String.eqb sid (end_session_id request))); [exact Hw|].
    pose proof (end_session_times H sid request w Hw) as He.
    destruct (end_session H sid request w) as [[s|e] w']; [exact He|].
    destruct e; try exact He; destruct (is_value_error _); exact He.
Qed.

Lemma run_times H reqs : forall w, store_times_ok H w -> store_times_ok H (run H reqs w).
Proof.
  induction reqs as [|req reqs IH]; intros w Hw; simpl; [exact Hw|].
  apply IH, handle_times, Hw.
Qed.

(** X16: the timestamps of the stored sessions are in order.  On a host
    whose clock never goes back, in every store reached from the empty one
    by any sequence of requests, every session was last updated no earlier
    than it started, and a session with an end time ended no earlier than
    it started and no later than its last update.  Every session is also
    filed under its own identifier. *)
Theorem X16_timestamps_stay_ordered :
  forall (H : Host) (reqs : list Request) (sid : UUID) (s : EmergencySession),
    clock_monotone H ->
    sessions (run H reqs initial_world) !! sid = Some s ->
    started_at s <= updated_at s
    /\ (forall t, ended_at s = Some t -> started_at s <= t <= updated_at s)
    /\ session_id s = sid.
Proof.
  intros H reqs sid s Hclock E.
  assert (Hinit : store_times_ok H initial_world)
    by (intros sid' s'; simpl; rewrite lookup_empty; discriminate).
  destruct (run_times H reqs initial_world Hinit sid s E)
    as (a & b & Hab & _ & Hs & Hu & He).
  split; [rewrite Hs, Hu; apply Hclock; exact Hab|].
  split; [|exact (reachable_sessions_keyed H reqs sid s E)].
  intros t Ht. destruct (He t Ht) as (c & Hac & Hcb & ->).
  rewrite Hs, Hu. split; apply Hclock; assumption.
Qed.

(** The theorem at the example scenario, after the session was ended with
    the emergency services called. *)
Lemma X16_timestamps_stay_ordered_witness :
  exists s t,
    sessions (run scenario_host requests_to_escalated initial_world) !! "session-0" = Some s
    /\ ended_at s = Some t
    /\ started_at s <= t <= updated_at s.
Proof.
  let v := eval vm_compute in
             (sessions (run scenario_host requests_to_escalated initial_world)
                !! "session-0") in
  assert (Hrun : sessions (run scenario_host requests_to_escalated initial_world)
                   !! "session-0" = v) by (vm_compute; reflexivity).
  match type of Hrun with
  | _ = Some ?s =>
      assert (Hclock : clock_monotone scenario_host)
        by (intros n m Hnm; simpl; lia);
      destruct (X16_timestamps_stay_ordered scenario_host requests_to_escalated
                  "session-0" s Hclock Hrun) as (_ & Hend & _);
      exists s; eexists; split; [exact Hrun|]; split; [reflexivity|];
      apply Hend; reflexivity
  end.
Defined.

(* ===================================================================== *)
(** ** Further properties: what the classifier adapter hands on *)
(* ===================================================================== *)

Lemma str_field_bounds lo hi v s :
  Pydantic.str_field (Some lo) (Some hi) v = Some s -> lo <= PyStr.len s <= hi.
Proof.
  unfold Pydantic.str_field. destruct v; try discriminate.
  destruct (lo <=? PyStr.len s0) eqn:E1; destruct (PyStr.len s0 <=? hi) eqn:E2;
    simpl; try discriminate.
  intros R; inversion R; subst. apply Z.leb_le in E1. apply Z.leb_le in E2. lia.
Qed.

Lemma optional_str_field_max hi v o :
  Pydantic.optional (Pydantic.str_field None (Some hi)) v = Some o ->
  forall s, o = Some s -> PyStr.len s <= hi.
Proof.
  unfold Pydantic.optional, Pydantic.str_field. destruct v; simpl; try discriminate.
  - intros R s' Hs'. congruence.
  - destruct (PyStr.len s <=? hi) eqn:E; [|discriminate].
    intros R s' Hs'. assert (s' = s) by congruence. subst. apply Z.leb_le, E.
Qed.

Lemma int_field_ge H lo v z :
  Pydantic.int_field H (Some lo) v = Some z -> lo <= z.
Proof.
  unfold Pydantic.int_field. cbv zeta.
  match goal with
  | |- match ?raw with _ => _ end = _ -> _ => destruct raw as [r|]; [|discriminate]
  end.
  destruct (lo <=? r) eqn:E; [|discriminate].
  intros R; inversion R; subst. apply Z.leb_le, E.
Qed.

Lemma optional_int_field_ge H lo v o :
  Pydantic.optional (Pydantic.int_field H (Some lo)) v = Some o ->
  forall z, o = Some z -> lo <= z.
Proof.
  intros R z ->.
  assert (E : Pydantic.int_field H (Some lo) v = Some z).
  { unfold Pydantic.optional in R. destruct v; try discriminate R;
      destruct (Pydantic.int_field H (Some lo) _) as [?|]; congruence. }
  exact (int_field_ge H lo v z E).
Qed.

Lemma EmergencyAnalysis_new_valid t sv c vo vr vc va a :
  EmergencyAnalysis_new t sv c vo vr vc va = Return a -> analysis_valid a.
Proof.
  unfold EmergencyAnalysis_new. cbv zeta.
  destruct (Pydantic.float_range float_0_0 float_1_0 c) as [c'|] eqn:E3;
  destruct (Pydantic.list_str_field vo) as [l|] eqn:E4;
  destruct (Pydantic.str_field (Some 1) (Some 500) vr) as [r|] eqn:E5;
  destruct (Pydantic.bool_field vc) as [b|] eqn:E6;
  destruct (Pydantic.optional (Pydantic.str_field None (Some 1000)) va) as [x|] eqn:E7;
  intros E; try discriminate E.
  inversion E; subst; clear E. unfold analysis_valid. simpl.
  unfold Pydantic.float_range in E3.
  destruct (float_le float_0_0 c) eqn:F1; destruct (float_le c float_1_0) eqn:F2;
    simpl in E3; try discriminate E3.
  inversion E3; subst.
  split; [exact F1|]. split; [exact F2|].
  split; [exact (str_field_bounds 1 500 vr r E5)|].
  split; [exact (optional_str_field_max 1000 va x E7)|].
  apply validate_observations_clean.
Qed.

Lemma analyze_emergency_frame_valid H fd ctx k a k' :
  analyze_emergency_frame H fd ctx k = (Return a, k') -> analysis_valid a.
Proof.
  unfold analyze_emergency_frame, analyze_emergency_frame_body, call_generate, utcnow,
    after_call, lift_outcome, bind, ret, raise, try_except.
  cbv beta iota zeta.
  assert (Hfb : forall e k0,
             (fallback_analysis H e, k0) = (Return a, k') -> analysis_valid a).
  { intros e k0 R. inversion R as [[R1 R2]].
    exact (EmergencyAnalysis_new_valid _ _ _ _ _ _ _ a R1). }
  destruct (b64decode H fd); cbv beta iota zeta; [|apply Hfb].
  destruct (generate_content H _ _) as [e|[text|]]; cbv beta iota zeta;
    try apply Hfb.
  destruct (_parse_analysis_response H (Some text)) as [d|e]; cbv beta iota zeta;
    [|apply Hfb].
  destruct (map_analysis_data H d) as [a0|e] eqn:Em; cbv beta iota zeta; [|apply Hfb].
  intros R; inversion R; subst.
  unfold map_analysis_data, and_then in Em.
  destruct (EmergencyType_of _); [|discriminate Em].
  destruct (SeverityLevel_of _); [|discriminate Em].
  destruct (py_float H _); [|discriminate Em].
  exact (EmergencyAnalysis_new_valid _ _ _ _ _ _ _ a Em).
Qed.

Lemma FirstAidInstruction_new_valid H v1 v2 v3 v4 v5 v6 v7 i :
  FirstAidInstruction_new H v1 v2 v3 v4 v5 v6 v7 = Return i -> instruction_valid i.
Proof.
  unfold FirstAidInstruction_new. cbv zeta.
  destruct (Pydantic.int_field H (Some 1) v1) as [a1|] eqn:E1;
  destruct (Pydantic.str_field (Some 1) (Some 500) v2) as [a2|] eqn:E2;
  destruct (Pydantic.str_field (Some 1) (Some 500) v3) as [a3|] eqn:E3;
  destruct (Pydantic.optional (Pydantic.int_field H (Some 0)) v4) as [a4|] eqn:E4;
  destruct (Pydantic.bool_field v5) as [a5|] eqn:E5;
  destruct (Pydantic.optional (Pydantic.str_field None (Some 200)) v6) as [a6|] eqn:E6;
  destruct (Pydantic.optional (Pydantic.str_field None (Some 200)) v7) as [a7|] eqn:E7;
  intros E; try discriminate E.
  inversion E; subst; clear E. unfold instruction_valid. simpl.
  split; [exact (int_field_ge H 1 v1 a1 E1)|].
  split; [exact (str_field_bounds 1 500 v2 a2 E2)|].
  split; [exact (str_field_bounds 1 500 v3 a3 E3)|].
  split; [exact (optional_int_field_ge H 0 v4 a4 E4)|].
  split; [exact (optional_str_field_max 200 v6 a6 E6)
         | exact (optional_str_field_max 200 v7 a7 E7)].
Qed.

Lemma convert_instructions_valid H data :
  forall n l, convert_instructions H n data = Return l ->
    Forall instruction_valid l /\ length l = length data.
Proof.
  induction data as [|d data IH]; intros n l; simpl.
  - intros R; inversion R; subst. split; [constructor | reflexivity].
  - destruct d; try discriminate. unfold and_then.
    destruct (FirstAidInstruction_new H _ _ _ _ _ _ _) as [i|e] eqn:Ei; [|discriminate].
    destruct (convert_instructions H (n + 1) data) as [others|e] eqn:Eo; [|discriminate].
    intros R; inversion R; subst. destruct (IH _ _ Eo) as [Hv Hl].
    split; [|simpl; rewrite Hl; reflexivity].
    constructor; [exact (FirstAidInstruction_new_valid _ _ _ _ _ _ _ _ _ Ei) | exact Hv].
Qed.

Ltac instruction_valid_by_computation :=
  unfold instruction_valid, instruction; simpl;
  repeat split;
  try (unfold PyStr.len; simpl String.length; lia);
  try (intros ? E; inversion E; subst; unfold PyStr.len; simpl String.length; lia).

Lemma default_instructions_valid t : Forall instruction_valid (_get_default_instructions t).
Proof.
  destruct t; unfold _get_default_instructions, default_instructions,
    generic_default_instructions;
    repeat (constructor; [instruction_valid_by_computation|]); constructor.
Qed.

(** X17: [generate_first_aid_instructions] always returns, after exactly
    one call of the generative model, and every instruction it returns
    meets the constraints of the instruction model: a step number of at
    least 1, instruction and voice texts of 1 to 500 characters, a duration
    that is not negative, a warning and a visual cue of at most 200
    characters.  When the reply cannot be used for any reason (the call
    raises, an entry is not an object or is refused by the model), the
    result is the built-in list for the emergency type, which is not
    empty. *)
Theorem X17_generated_instructions_are_valid :
  forall (H : Host) (t : EmergencyType) (sv : SeverityLevel) (obs : list string) (k : Sys),
    exists l,
      generate_first_aid_instructions H t sv obs k = (Return l, after_call k)
      /\ Forall instruction_valid l
      /\ (forall e k',
            generate_first_aid_instructions_body H t sv obs k = (Raise e, k') ->
            l = _get_default_instructions t /\ l <> []).
Proof.
  intros H t sv obs k.
  unfold generate_first_aid_instructions, generate_first_aid_instructions_body,
    call_generate, lift_outcome, bind, ret, raise, try_except.
  cbv beta iota zeta.
  destruct (generate_content H (calls k) _) as [e|text]; cbv beta iota zeta.
  - eexists. split; [reflexivity|]. split; [apply default_instructions_valid|].
    intros _ _ _. split; [reflexivity | apply default_instructions_nonempty].
  - destruct (_parse_instructions_response H text) as [d|e]; cbv beta iota zeta.
    + destruct (convert_instructions H 1 d) as [l|e] eqn:Ec; cbv beta iota zeta.
      * exists l. split; [reflexivity|].
        split; [exact (proj1 (convert_instructions_valid H d 1 l Ec))|].
        intros e k' R. discriminate R.
      * eexists. split; [reflexivity|]. split; [apply default_instructions_valid|].
        intros _ _ _. split; [reflexivity | apply default_instructions_nonempty].
    + eexists. split; [reflexivity|]. split; [apply default_instructions_valid|].
      intros _ _ _. split; [reflexivity | apply default_instructions_nonempty].
Qed.

Lemma generate_first_aid_instructions_valid H t sv obs k l k' :
  generate_first_aid_instructions H t sv obs k = (Return l, k') ->
  Forall instruction_valid l.
Proof.
  unfold generate_first_aid_instructions, generate_first_aid_instructions_body,
    call_generate, lift_outcome, bind, ret, raise, try_except.
  cbv beta iota zeta.
  assert (Hdef : forall k0, (Return (_get_default_instructions t), k0) = (Return l, k') ->
                            Forall instruction_valid l).
  { intros k0 R. inversion R; subst. apply default_instructions_valid. }
  destruct (generate_content H (calls k) _) as [e|text]; cbv beta iota zeta;
    [apply Hdef|].
  destruct (_parse_instructions_response H text) as [d|e]; cbv beta iota zeta;
    [|apply Hdef].
  destruct (convert_instructions H 1 d) as [l0|e] eqn:Ec; cbv beta iota zeta;
    [|apply Hdef].
  intros R; inversion R; subst. exact (proj1 (convert_instructions_valid H d 1 l Ec)).
Qed.

(** X18: what a successful [analyze_frame] hands on.  The analysis it
    returns meets the constraints of the analysis model (a confidence
    between 0 and 1, a recommended action of 1 to 500 characters, a context
    of at most 1000 characters, observations that are non-empty and
    stripped), every instruction meets those of the instruction model, and
    [build_analysis_response] succeeds on the session it leaves, also after
    [update_session] has stamped it: the response carries the session's
    identifier, the analysis fields and the instructions just stored. *)
Theorem X18_successful_analysis_can_be_reported :
  forall (H : Host) (frame_data : string) (user_context : option string)
         (s s' : EmergencySession) (k k' : Sys)
         (a : EmergencyAnalysis) (i : list FirstAidInstruction),
    analyze_frame H frame_data user_context (s, k) = (Return (a, i), (s', k')) ->
    analysis_valid a
    /\ Forall instruction_valid i
    /\ forall t, exists data,
         build_analysis_response (set_updated_at t s') = Return data
         /\ ad_session_id data = session_id s
         /\ ad_emergency_type data = emergency_type a
         /\ ad_severity data = severity a
         /\ ad_confidence_score data = confidence_score a
         /\ ad_observations data = observations a
         /\ ad_recommended_action data = recommended_action a
         /\ ad_call_emergency_services data = call_emergency_services a
         /\ ad_instructions data = i.
Proof.
  intros H fd ctx s s' k k' a i Hrun.
  pose proof (analyze_frame_id _ _ _ _ _ _ _ _ Hrun) as Hid.
  destruct (analyze_frame_success _ _ _ _ _ _ _ _ _ Hrun) as (Hi & _ & Ha & _).
  assert (Hvalid : analysis_valid a /\ Forall instruction_valid i).
  { revert Hrun. rewrite analyze_frame_eq. cbv zeta.
    destruct (analyze_emergency_frame H fd _ _) as [[a0|e] k3] eqn:Ea; [|discriminate].
    destruct (generate_first_aid_instructions H _ _ _ k3) as [[i0|e] k4] eqn:Eg;
      [|discriminate].
    intros R; inversion R; subst.
    split; [exact (analyze_emergency_frame_valid _ _ _ _ _ _ Ea)
           | exact (generate_first_aid_instructions_valid _ _ _ _ _ _ _ Eg)]. }
  destruct Hvalid as [Hva Hvi]. split; [exact Hva|]. split; [exact Hvi|].
  intros t. unfold build_analysis_response. simpl analysis. rewrite Ha.
  destruct Hva as (F1 & F2 & _). unfold Pydantic.float_range. rewrite F1, F2. simpl.
  eexists. split; [reflexivity|]. simpl. rewrite Hid, Hi.
  repeat split; reflexivity.
Qed.

(** The theorem at the analysis of the example scenario. *)
Lemma X18_successful_analysis_can_be_reported_witness :
  exists a i s' k' data,
    analyze_frame scenario_host "AAAA" None (fresh_session, sys0) = (Return (a, i), (s', k'))
    /\ build_analysis_response (set_updated_at 2000 s') = Return data
    /\ ad_instructions data = i
    /\ length i = 2%nat.
Proof.
  let v := eval vm_compute in
             (analyze_frame scenario_host "AAAA" None (fresh_session, sys0)) in
  assert (Hrun : analyze_frame scenario_host "AAAA" None (fresh_session, sys0) = v)
    by (vm_compute; reflexivity).
  match type of Hrun with
  | _ = (Return (?a, ?i), (?s', ?k')) =>
      destruct (X18_successful_analysis_can_be_reported scenario_host "AAAA" None
                  fresh_session s' sys0 k' a i Hrun) as (_ & _ & Hbuild);
      destruct (Hbuild 2000) as (data & Hdata & _ & _ & _ & _ & _ & _ & _ & Hins);
      exists a, i, s', k', data
  end.
  split; [exact Hrun|]. split; [exact Hdata|]. split; [exact Hins | reflexivity].
Defined.

Lemma join_cons_prefix sep x rest : exists r, PyStr.join sep (x :: rest) = x +:+ r.
Proof.
  destruct rest as [|y rest].
  - exists EmptyString. simpl. rewrite str_app_nil_r. reflexivity.
  - eexists. reflexivity.
Qed.

Lemma contains_self_app p r : PyStr.contains p (p +:+ r) = true.
Proof. apply contains_spec. exists EmptyString, r. reflexivity. Qed.

Lemma contains_trans (p q s : string) :
  PyStr.contains p q = true -> PyStr.contains q s = true -> PyStr.contains p s = true.
Proof.
  intros E1 E2. apply contains_spec in E2. destruct E2 as (u & v & ->).
  apply contains_app_r, contains_app_l, E1.
Qed.

Lemma join_contains_member sep x parts :
  In x parts -> PyStr.contains x (PyStr.join sep parts) = true.
Proof.
  induction parts as [|y parts IH]; [contradiction|].
  intros [->|Hin].
  - destruct (join_cons_prefix sep x parts) as [r ->]. apply contains_self_app.
  - specialize (IH Hin). destruct parts as [|z parts]; [contradiction|].
    change (PyStr.join sep (y :: z :: parts))
      with (y +:+ sep +:+ PyStr.join sep (z :: parts)).
    apply contains_app_r, contains_app_r, IH.
Qed.

(** X19: the voice guidance names the emergency number whenever the
    analysis asks for the emergency services.  For a session whose analysis
    has [call_emergency_services] set, the guidance starts with "This is a
    critical emergency. Call 911 immediately if you haven't already." when
    the severity is 4 or 5 and with "Consider calling 911 if professional
    help is needed." otherwise, so it always contains "911"; it also
    contains the recommended action of the analysis, and the voice text of
    the current instruction when there is one. *)
Theorem X19_voice_guidance_names_emergency_number :
  forall (s : EmergencySession) (a : EmergencyAnalysis)
         (current : option FirstAidInstruction),
    analysis s = Some a ->
    call_emergency_services a = true ->
    let guidance := _build_voice_guidance s current in
    PyStr.starts_with
      (if 4 <=? severity_value (severity a)
       then "This is a critical emergency. Call 911 immediately if you haven't already."
       else "Consider calling 911 if professional help is needed.") guidance = true
    /\ PyStr.contains "911" guidance = true
    /\ PyStr.contains (recommended_action a) guidance = true
    /\ (forall i, current = Some i -> PyStr.contains (voice_text i) guidance = true).
Proof.
  intros s a current Ha Hcall guidance. subst guidance.
  unfold _build_voice_guidance. rewrite Ha, Hcall.
  set (first := if 4 <=? severity_value (severity a)
                then "This is a critical emergency. Call 911 immediately if you haven't already."
                else "Consider calling 911 if professional help is needed.").
  assert (Hparts : (if 4 <=? severity_value (severity a)
                    then ["This is a critical emergency. Call 911 immediately if you haven't already."]
                    else ["Consider calling 911 if professional help is needed."])
                   = [first]) by (subst first; destruct (4 <=? _); reflexivity).
  rewrite Hparts. clear Hparts.
  set (rest := (if PyStr.truthy (recommended_action a) then [recommended_action a] else [])
               ++ match current with
                  | Some i => ["Step " +:+ pretty (step_number i) +:+ ": " +:+ voice_text i]
                  | None => []
                  end).
  change ([first] ++ rest) with (first :: rest).
  destruct (join_cons_prefix " " first rest) as [r Hr].
  assert (Hstart : PyStr.starts_with first (PyStr.join " " (first :: rest)) = true)
    by (apply starts_with_spec; exists r; exact Hr).
  split; [exact Hstart|]. split; [|split].
  - apply (contains_trans "911" first).
    + subst first. destruct (4 <=? _); vm_compute; reflexivity.
    + rewrite Hr. apply contains_self_app.
  - destruct (recommended_action a) as [|c ra] eqn:Era.
    + destruct (PyStr.join " " (first :: rest)); reflexivity.
    + apply join_contains_member. right. subst rest. simpl. left. reflexivity.
  - intros i ->.
    apply (contains_trans _ ("Step " +:+ pretty (step_number i) +:+ ": " +:+ voice_text i)).
    + apply contains_app_r, contains_app_r, contains_app_r.
      rewrite <- (str_app_nil_r (voice_text i)) at 2. apply contains_self_app.
    + apply join_contains_member. right. subst rest. apply in_or_app. right.
      left. reflexivity.
Qed.

(** The theorem at the analysed session of the example scenario, on its
    first instruction. *)
Lemma X19_voice_guidance_names_emergency_number_witness :
  PyStr.contains "911"
    (_build_voice_guidance analysed_session (get_current_instruction analysed_session))
  = true.
Proof.
  let v := eval vm_compute in (analysis analysed_session) in
  assert (Ha : analysis analysed_session = v) by (vm_compute; reflexivity).
  match type of Ha with
  | _ = Some ?a =>
      exact (proj1 (proj2 (X19_voice_guidance_names_emergency_number analysed_session a
                             (get_current_instruction analysed_session) Ha eq_refl)))
  end.
Defined.

(** X20: the voice assistant and the connection check never raise.
    Whatever the generative model does, [process_voice_input] of the
    emergency service returns a reply, makes exactly one call and leaves the
    session as it was: the reply is the text of the model without
    surrounding whitespace, and the fixed sentence "I'm having trouble
    understanding. ..." when the call raises or the response has no text.
    [check_connection] returns true exactly when the call returns a
    non-empty text, and false in every other case. *)
Theorem X20_voice_operations_never_raise :
  forall (reply : GenOutcome) (transcribed_text : string)
         (s : EmergencySession) (k : Sys),
    process_voice_input reply transcribed_text (s, k)
    = (Return match reply with
              | GenText (Some text) => PyStr.strip text
              | _ => voice_fallback
              end, (s, after_call k))
    /\ check_connection reply k
       = (Return match reply with
                 | GenText (Some text) => PyStr.truthy text
                 | _ => false
                 end, after_call k).
Proof.
  intros reply text s k. split.
  - unfold process_voice_input, gemini_process_voice_input, with_sys, this.
    unfold_py. destruct reply as [e|[t|]]; reflexivity.
  - unfold check_connection. unfold_py. destruct reply as [e|[t|]]; reflexivity.
Qed.

Lemma join_prefix sep a b : exists r, PyStr.join sep (a ++ b) = PyStr.join sep a +:+ r.
Proof.
  induction a as [|x a IH].
  - eexists. reflexivity.
  - destruct a as [|y a].
    + simpl app. simpl PyStr.join at 2. apply join_cons_prefix.
    + destruct IH as [r Hr]. exists r.
      change (PyStr.join sep ((x :: y :: a) ++ b))
        with (x +:+ sep +:+ PyStr.join sep ((y :: a) ++ b)).
      change (PyStr.join sep (x :: y :: a)) with (x +:+ sep +:+ PyStr.join sep (y :: a)).
      rewrite Hr, !str_app_assoc. reflexivity.
Qed.

Lemma join_suffix sep a b : exists l, PyStr.join sep (a ++ b) = l +:+ PyStr.join sep b.
Proof.
  induction a as [|x a IH].
  - exists EmptyString. reflexivity.
  - destruct IH as [l Hl]. destruct (a ++ b) as [|y rest] eqn:E.
    + destruct a; [|discriminate E]. simpl in E. subst b.
      exists x. simpl. rewrite str_app_nil_r. reflexivity.
    + exists (x +:+ sep +:+ l). simpl app. rewrite E.
      change (PyStr.join sep (x :: y :: rest)) with (x +:+ sep +:+ PyStr.join sep (y :: rest)).
      rewrite Hl, !str_app_assoc. reflexivity.
Qed.

Lemma lower_char_idempotent c : PyStr.lower_char (PyStr.lower_char c) = PyStr.lower_char c.
Proof. destruct c as [[] [] [] [] [] [] [] []]; vm_compute; reflexivity. Qed.

Lemma lower_idempotent s : PyStr.lower (PyStr.lower s) = PyStr.lower s.
Proof.
  induction s as [|c s IH]; [reflexivity|]. simpl. rewrite lower_char_idempotent, IH.
  reflexivity.
Qed.

Lemma lower_join sep parts :
  PyStr.lower (PyStr.join sep parts) = PyStr.join (PyStr.lower sep) (map PyStr.lower parts).
Proof.
  induction parts as [|x parts IH]; [reflexivity|].
  destruct parts as [|y parts]; [reflexivity|].
  change (PyStr.join sep (x :: y :: parts)) with (x +:+ sep +:+ PyStr.join sep (y :: parts)).
  rewrite !lower_app, IH. reflexivity.
Qed.

Lemma keyword_hit_extends obs before after :
  existsb (fun k => PyStr.contains k (PyStr.lower (PyStr.join " " obs))) critical_keywords
  = true ->
  existsb (fun k => PyStr.contains k
                      (PyStr.lower (PyStr.join " " (before ++ obs ++ after))))
    critical_keywords = true.
Proof.
  intros E. apply existsb_exists in E. destruct E as (kw & Hin & Hk).
  apply existsb_exists. exists kw. split; [exact Hin|].
  destruct (join_suffix " " before (obs ++ after)) as [l ->].
  destruct (join_prefix " " obs after) as [r ->].
  rewrite !lower_app. apply contains_app_r, contains_app_l, Hk.
Qed.

(** X21: the severity score only looks at what the observations say.  It
    does not depend on the letter case of the observations, and observations
    added before or after the given ones never lower it. *)
Theorem X21_severity_score_is_monotone_and_ignores_case :
  forall (t : EmergencyType) (obs before after : list string),
    calculate_severity_score t (map PyStr.lower obs) = calculate_severity_score t obs
    /\ calculate_severity_score t obs
       <= calculate_severity_score t (before ++ obs ++ after).
Proof.
  intros t obs before after. unfold calculate_severity_score. cbv zeta.
  rewrite !escalate_on_keyword_once. split.
  - rewrite !lower_join. rewrite map_map.
    rewrite (map_ext (fun x => PyStr.lower (PyStr.lower x)) PyStr.lower lower_idempotent).
    reflexivity.
  - pose proof (type_severity_range t) as Hr.
    destruct (existsb _ critical_keywords) eqn:E.
    + rewrite (keyword_hit_extends obs before after E). reflexivity.
    + match goal with
      | |- context [if ?b then _ else _] => destruct b
      end; lia.
Qed.

(** X22: which instruction is the current one.  [get_current_instruction]
    of the emergency service returns an instruction exactly when the session
    has instructions and its step pointer lies between 1 and their number,
    and it is then the instruction at position [current_step - 1]; in every
    other case it returns nothing.  The method of the same name of the
    session model agrees with it on every session. *)
Theorem X22_current_instruction_exactly_in_range :
  forall (s : EmergencySession),
    match get_current_instruction s with
    | Some i =>
        instructions s <> [] /\ 1 <= current_step s <= n_instructions s
        /\ instructions s !! Z.to_nat (current_step s - 1) = Some i
    | None =>
        instructions s = [] \/ current_step s < 1 \/ n_instructions s < current_step s
    end
    /\ get_current_instruction_method s = get_current_instruction s.
Proof.
  intros s. split; [|apply get_current_instruction_method_agrees].
  destruct (instructions s) as [|i0 l] eqn:Ei.
  - unfold get_current_instruction. rewrite Ei. left. reflexivity.
  - assert (Hne : instructions s <> []) by (rewrite Ei; discriminate).
    destruct (Z_lt_le_dec (current_step s) 1) as [Hlo|Hlo].
    + unfold get_current_instruction. rewrite Ei.
      replace (current_step s <? 1) with true by (symmetry; apply Z.ltb_lt; lia).
      simpl. right. left. exact Hlo.
    + destruct (Z_lt_le_dec (n_instructions s) (current_step s)) as [Hhi|Hhi].
      * unfold get_current_instruction. rewrite Ei.
        replace (n_instructions s <? current_step s) with true
          by (symmetry; apply Z.ltb_lt; lia).
        rewrite orb_true_r. right. right. exact Hhi.
      * destruct (get_current_instruction_in_range s (conj Hlo Hhi)) as (i & Hi & Hat).
        rewrite Hi. rewrite <- Ei. split; [exact Hne|]. split; [lia | exact Hat].
Qed.

(** X23: the enumeration values identify their members.  Looking a member
    up by its own value gives that member back, for the emergency types and
    for the severity levels; conversely a text accepted as an emergency type
    is the value of the member returned, and an integer accepted as a
    severity is the value of the level returned, which lies between 1 and
    5. *)
Theorem X23_enumeration_values_round_trip :
  (forall t, EmergencyType_of (JString (emergency_type_value t)) = Return t)
  /\ (forall s t, EmergencyType_of (JString s) = Return t -> s = emergency_type_value t)
  /\ (forall l, SeverityLevel_of (JInt (severity_value l)) = Return l)
  /\ (forall z l, SeverityLevel_of (JInt z) = Return l ->
        z = severity_value l /\ 1 <= z <= 5).
Proof.
  split; [apply EmergencyType_of_member|]. split; [|split].
  - intros s t. unfold EmergencyType_of.
    destruct (List.find _ all_emergency_types) as [t'|] eqn:E; [|discriminate].
    intros R; inversion R; subst. apply List.find_some in E. destruct E as [_ E].
    apply String.eqb_eq in E. symmetry. exact E.
  - apply SeverityLevel_of_in_range.
  - intros z l E. apply SeverityLevel_of_Return in E. simpl in E.
    apply Z.eqb_eq in E. subst z. split; [reflexivity|]. destruct l; simpl; lia.
Qed.

(* ===================================================================== *)
(** ** Further properties: what the response normalizer finds *)
(* ===================================================================== *)

Lemma has_char_app c a b :
  PyStr.has_char c (a +:+ b) = PyStr.has_char c a || PyStr.has_char c b.
Proof.
  induction a as [|x a IH]; [reflexivity|]. simpl. rewrite IH, orb_assoc. reflexivity.
Qed.

Lemma all_spaces_no_backtick ws : all_spaces ws -> PyStr.has_char backtick ws = false.
Proof.
  unfold all_spaces. induction ws as [|x ws IH]; [reflexivity|]. simpl.
  intros E. apply andb_true_iff in E. destruct E as [Ex Ews]. rewrite (IH Ews).
  rewrite orb_false_r.
  destruct (Ascii.eqb x backtick) eqn:Eb; [|reflexivity].
  apply Ascii.eqb_eq in Eb. subst x. vm_compute in Ex. discriminate Ex.
Qed.

Lemma split_at_marker (c : ascii) (p a b : string) :
  PyStr.has_char c a = false ->
  PyStr.split_at (String c p) (a +:+ String c p +:+ b) = Some (a, b).
Proof.
  induction a as [|x a IH]; intros Ha.
  - change (EmptyString +:+ String c p +:+ b) with (String c p +:+ b).
    rewrite split_at_unfold.
    assert (E : PyStr.starts_with (String c p) (String c p +:+ b) = true)
      by (apply starts_with_spec; eexists; reflexivity).
    rewrite E. f_equal. f_equal. exact (substring_drop_prefix (String c p) b).
  - simpl in Ha. apply orb_false_iff in Ha. destruct Ha as [Hx Ha].
    change (String x a +:+ String c p +:+ b) with (String x (a +:+ String c p +:+ b)).
    rewrite split_at_unfold.
    simpl PyStr.starts_with. rewrite Ascii.eqb_sym, Hx. rewrite (IH Ha). reflexivity.
Qed.

Lemma fenced_here_no_backtick x rest :
  Ascii.eqb x backtick = false -> Regex.fenced_here (String x rest) = None.
Proof.
  intros Hx. unfold Regex.fenced_here.
  destruct (PyStr.starts_with "```json" (String x rest)) eqn:E; [|reflexivity].
  apply starts_with_spec in E. destruct E as [r E]. simpl in E. inversion E; subst.
  vm_compute in Hx. discriminate Hx.
Qed.

Lemma search_fenced_skip pre rest :
  PyStr.has_char backtick pre = false ->
  Regex.search_fenced (pre +:+ rest) = Regex.search_fenced rest.
Proof.
  induction pre as [|x pre IH]; [reflexivity|]. simpl PyStr.has_char.
  intros Ha. apply orb_false_iff in Ha. destruct Ha as [Hx Ha].
  simpl String.append. rewrite search_fenced_unfold.
  rewrite (fenced_here_no_backtick x _ Hx). apply IH, Ha.
Qed.

Lemma search_fenced_no_backtick text :
  PyStr.has_char backtick text = false -> Regex.search_fenced text = None.
Proof.
  intros Ha. rewrite <- (str_app_nil_r text).
  rewrite (search_fenced_skip text EmptyString Ha). reflexivity.
Qed.

(** X24: a payload inside a fence is found as it is.  In a text made of a
    prose part without backticks, the marker ```json, spaces, a payload that
    is non-empty, has no surrounding whitespace and no backtick, spaces, the
    closing ``` and anything after it, the fence search returns exactly the
    payload; what the parsers do is then what the decoder does on the
    payload.  The instruction parser returns the array the payload decodes
    to, the empty list when it decodes to something else or is refused with
    [json.JSONDecodeError], and raises what the decoder raises otherwise;
    the analysis parser returns the object the payload decodes to, the empty
    result on [json.JSONDecodeError], and raises on a decoded value that is
    not an object and on any other exception of the decoder. *)
Theorem X24_fenced_payload_is_extracted :
  forall (H : Host) (pre ws1 payload ws2 post : string),
    PyStr.has_char backtick pre = false ->
    all_spaces ws1 -> all_spaces ws2 ->
    clean_observation payload ->
    PyStr.has_char backtick payload = false ->
    let text := pre +:+ "```json" +:+ ws1 +:+ payload +:+ ws2 +:+ "```" +:+ post in
    Regex.search_fenced text = Some payload
    /\ _parse_instructions_response H (Some text)
       = match json_loads H payload with
         | JsonValue (JArray data) => Return data
         | JsonValue _ => Return []
         | JsonDecodeError => Return []
         | JsonRaise e => Raise e
         end
    /\ _parse_analysis_response H (Some text)
       = match json_loads H payload with
         | JsonValue (JObject data) => Return data
         | JsonValue other => Raise (AttributeError other "keys")
         | JsonDecodeError => Return empty
         | JsonRaise e => Raise e
         end.
Proof.
  intros H pre ws1 payload ws2 post Hpre Hws1 Hws2 [Hne Hstripped] Hpay text.
  assert (Hfound : Regex.search_fenced text = Some payload).
  { subst text. rewrite (search_fenced_skip pre _ Hpre).
    rewrite search_fenced_unfold, fenced_here_marker.
    unfold Regex.fenced_group.
    rewrite (lstrip_app_spaces ws1 _ Hws1).
    destruct payload as [|c r] eqn:Ep; [contradiction|]. rewrite <- Ep in *.
    assert (Hhead : PyStr.is_space c = false).
    { apply (stripped_head payload c r); [exact Hstripped | exact Ep]. }
    assert (Hl : PyStr.lstrip (payload +:+ ws2 +:+ "```" +:+ post)
                 = payload +:+ ws2 +:+ "```" +:+ post).
    { apply lstrip_id. intros c' r' E'. rewrite Ep in E'. simpl in E'.
      inversion E'; subst. exact Hhead. }
    rewrite Hl. rewrite <- (str_app_assoc payload ws2).
    change "```" with (String backtick "``").
    rewrite (split_at_marker backtick "``" (payload +:+ ws2) post).
    - rewrite (rstrip_app_spaces payload ws2 Hws2).
      unfold is_stripped, PyStr.strip in Hstripped.
      rewrite (lstrip_id payload) in Hstripped.
      + rewrite Hstripped. reflexivity.
      + intros c' r' E'. rewrite Ep in E'. inversion E'; subst. exact Hhead.
    - rewrite has_char_app, Hpay, (all_spaces_no_backtick ws2 Hws2). reflexivity. }
  split; [exact Hfound|]. split.
  - rewrite parse_instructions_eq, Hfound. reflexivity.
  - rewrite parse_analysis_eq, Hfound. reflexivity.
Qed.

(** The theorem at a reply with prose around a fenced array. *)
Lemma X24_fenced_payload_is_extracted_witness :
  Regex.search_fenced
    ("Here are the steps: " +:+ "```json" +:+ newline +:+ "[]" +:+ newline
     +:+ "```" +:+ " Stay safe.")
  = Some "[]"
  /\ _parse_instructions_response (reference_host [])
       (Some ("Here are the steps: " +:+ "```json" +:+ newline +:+ "[]" +:+ newline
              +:+ "```" +:+ " Stay safe."))
     = Return [].
Proof.
  destruct (X24_fenced_payload_is_extracted (reference_host [])
              "Here are the steps: " newline "[]" newline " Stay safe.")
    as (Hfound & Hparse & _);
    [reflexivity | reflexivity | reflexivity
    | split; [discriminate | reflexivity] | reflexivity |].
  split; [exact Hfound|]. rewrite Hparse. vm_compute. reflexivity.
Defined.

Lemma upto_last_app c body post :
  PyStr.has_char c post = false ->
  Regex.upto_last c (body +:+ String c post) = Some (body +:+ String c EmptyString).
Proof.
  intros Hpost. induction body as [|a body IH].
  - simpl. apply upto_last_None in Hpost. rewrite Hpost, Ascii.eqb_refl. reflexivity.
  - simpl String.append. simpl Regex.upto_last. rewrite IH. reflexivity.
Qed.

Lemma search_span_skip o c pre rest :
  PyStr.has_char o pre = false ->
  Regex.search_span o c (pre +:+ rest) = Regex.search_span o c rest.
Proof.
  induction pre as [|x pre IH]; [reflexivity|]. simpl PyStr.has_char.
  intros Ha. apply orb_false_iff in Ha. destruct Ha as [Hx Ha].
  simpl String.append. simpl Regex.search_span. rewrite Hx. apply IH, Ha.
Qed.

(** X25: without a fence, the span from the first opening bracket to the
    last closing bracket is found.  In a text without backticks made of a
    part without the opening character, the opening character, any body,
    the closing character and a part without the closing character, the
    fence search finds nothing and the span search returns the opening
    character, the body and the closing character; the same holds for the
    brackets of arrays.  What the parsers do is then what the decoder does
    on this span: they return the decoded array, respectively object, the
    empty result when the decoder refuses the span with
    [json.JSONDecodeError] (and, for the instructions, when it decodes to
    something that is not an array), and they raise what the decoder raises
    otherwise; the analysis parser also raises on a decoded value that is
    not an object. *)
Theorem X25_bare_span_is_extracted :
  forall (H : Host) (opening closing : ascii) (pre body post : string),
    PyStr.has_char opening pre = false ->
    PyStr.has_char closing post = false ->
    let span := String opening (body +:+ String closing EmptyString) in
    let text := pre +:+ String opening (body +:+ String closing post) in
    PyStr.has_char backtick text = false ->
    Regex.search_fenced text = None
    /\ Regex.search_span opening closing text = Some span
    /\ (opening = "["%char -> closing = "]"%char ->
        _parse_instructions_response H (Some text)
        = match json_loads H span with
          | JsonValue (JArray data) => Return data
          | JsonValue _ => Return []
          | JsonDecodeError => Return []
          | JsonRaise e => Raise e
          end)
    /\ (opening = "{"%char -> closing = "}"%char ->
        _parse_analysis_response H (Some text)
        = match json_loads H span with
          | JsonValue (JObject data) => Return data
          | JsonValue other => Raise (AttributeError other "keys")
          | JsonDecodeError => Return empty
          | JsonRaise e => Raise e
          end).
Proof.
  intros H opening closing pre body post Hpre Hpost span text Htick.
  assert (Hnofence : Regex.search_fenced text = None)
    by exact (search_fenced_no_backtick text Htick).
  assert (Hspan : Regex.search_span opening closing text = Some span).
  { subst text span. rewrite (search_span_skip opening closing pre _ Hpre).
    simpl Regex.search_span. rewrite Ascii.eqb_refl.
    rewrite (upto_last_app closing body post Hpost). reflexivity. }
  split; [exact Hnofence|]. split; [exact Hspan|]. split.
  - intros -> ->. rewrite parse_instructions_eq, Hnofence, Hspan. reflexivity.
  - intros -> ->. rewrite parse_analysis_eq, Hnofence, Hspan. reflexivity.
Qed.

(** The theorem at a reply with two objects in prose: the span runs from
    the first opening brace to the last closing one. *)
Lemma X25_bare_span_is_extracted_witness :
  Regex.search_span "{" "}" ("First " +:+ String "{" ("a} and {b" +:+ String "}" " done"))
  = Some (String "{" ("a} and {b" +:+ String "}" EmptyString)).
Proof.
  exact (proj1 (proj2 (X25_bare_span_is_extracted (reference_host []) "{" "}"
                         "First " "a} and {b" " done" eq_refl eq_refl eq_refl))).
Defined.

(* ===================================================================== *)
(** ** Further properties: advancing, context and failures *)
(* ===================================================================== *)

(** X26: the two ways of advancing.  Below the last instruction, the
    [advance_step] method of the session model and [advance_instruction] of
    the emergency service do the same: both move the pointer by one, stamp
    the update time with the same clock reading and report success.  The
    method never moves the pointer past the number of instructions; on a
    session with instructions whose pointer is at or past the last one it
    reports failure and changes nothing, where the service marks the session
    Resolved. *)
Theorem X26_model_method_and_service_advance :
  forall (H : Host) (feedback : option string) (s : EmergencySession) (k : Sys),
    session_inv s ->
    session_inv (snd (fst (advance_step_method H s k)))
    /\ (current_step s < n_instructions s ->
        exists i,
          advance_instruction H feedback (s, k)
          = (Return (true, Some i),
             (snd (fst (advance_step_method H s k)), snd (advance_step_method H s k)))
          /\ fst (fst (advance_step_method H s k)) = true)
    /\ (instructions s <> [] -> n_instructions s <= current_step s ->
        advance_step_method H s k = (false, s, k)
        /\ status (fst (snd (advance_instruction H feedback (s, k)))) = RESOLVED).
Proof.
  intros H feedback s k [Hlo Hhi]. rewrite advance_step_method_spec.
  split; [|split].
  - destruct (current_step s <? n_instructions s) eqn:E; simpl.
    + apply Z.ltb_lt in E. unfold session_inv, n_instructions in *. simpl. lia.
    + split; assumption.
  - intros Hlt.
    assert (Hne : instructions s <> []).
    { intros E. unfold n_instructions in Hlt. rewrite E in Hlt. simpl in Hlt. lia. }
    replace (current_step s <? n_instructions s) with true
      by (symmetry; apply Z.ltb_lt; exact Hlt).
    simpl. rewrite (advance_instruction_next H feedback s k Hne Hlt).
    match goal with
    | |- context [get_current_instruction ?s2] =>
        destruct (get_current_instruction_in_range s2) as (i & Hi & _);
          [unfold n_instructions in *; simpl; lia|]
    end.
    exists i. rewrite Hi. split; reflexivity.
  - intros Hne Hge.
    replace (current_step s <? n_instructions s) with false
      by (symmetry; apply Z.ltb_ge; exact Hge).
    split; [reflexivity|].
    rewrite (advance_instruction_last H feedback s k Hne Hge). reflexivity.
Qed.

(** The theorem at the example session on the first of its two
    instructions. *)
Lemma X26_model_method_and_service_advance_witness :
  exists i,
    advance_instruction (reference_host []) None (session_at_first_step, sys0)
    = (Return (true, Some i),
       (snd (fst (advance_step_method (reference_host []) session_at_first_step sys0)),
        snd (advance_step_method (reference_host []) session_at_first_step sys0))).
Proof.
  destruct (X26_model_method_and_service_advance (reference_host []) None
              session_at_first_step sys0) as (_ & Hsame & _);
    [split; vm_compute; discriminate|].
  destruct Hsame as (i & Hrun & _); [vm_compute; reflexivity|].
  exists i. exact Hrun.
Defined.

(** X27: the context given to the classifier.  [_build_context] returns
    nothing exactly when the notes of the session, its location and the
    additional text are each absent or empty; otherwise the context contains
    every one of them that is present, after its label. *)
Theorem X27_build_context_keeps_every_part :
  forall (s : EmergencySession) (additional : option string),
    let present (v : option string) :=
      match v with Some text => PyStr.truthy text | None => false end in
    (_build_context s additional = None
     <-> present (user_notes s) = false /\ present (location_data s) = false
         /\ present additional = false)
    /\ forall context, _build_context s additional = Some context ->
         (forall n, user_notes s = Some n -> n <> EmptyString ->
            PyStr.contains ("User notes: " +:+ n) context = true)
         /\ (forall l, location_data s = Some l -> l <> EmptyString ->
               PyStr.contains ("Location: " +:+ l) context = true)
         /\ (forall a, additional = Some a -> a <> EmptyString ->
               PyStr.contains ("Additional info: " +:+ a) context = true).
Proof.
  intros s additional present. unfold _build_context. cbv zeta.
  set (part := fun (label : string) (v : option string) =>
                 match v with
                 | Some text => if PyStr.truthy text then [label +:+ text] else []
                 | None => []
                 end).
  change (match user_notes s with
          | Some text => if PyStr.truthy text then ["User notes: " +:+ text] else []
          | None => []
          end) with (part "User notes: " (user_notes s)).
  change (match location_data s with
          | Some text => if PyStr.truthy text then ["Location: " +:+ text] else []
          | None => []
          end) with (part "Location: " (location_data s)).
  change (match additional with
          | Some text => if PyStr.truthy text then ["Additional info: " +:+ text] else []
          | None => []
          end) with (part "Additional info: " additional).
  assert (Hpart : forall label v,
             (part label v = [] <-> present v = false)
             /\ forall x, v = Some x -> x <> EmptyString -> part label v = [label +:+ x]).
  { intros label v. subst part present. simpl. destruct v as [x|].
    - destruct (PyStr.truthy x) eqn:E; (split; [split; [discriminate + reflexivity
                                                       | discriminate + reflexivity]|]).
      + intros y Hy _. inversion Hy; subst. reflexivity.
      + intros y Hy Hne. inversion Hy; subst. apply truthy_nonempty in Hne. congruence.
    - split; [split; reflexivity|]. intros y Hy. discriminate Hy. }
  set (parts := part "User notes: " (user_notes s) ++ part "Location: " (location_data s)
                ++ part "Additional info: " additional).
  split.
  - split.
    + intros E. destruct parts eqn:Ep; [|discriminate E].
      subst parts. apply app_eq_nil in Ep. destruct Ep as [E1 Ep].
      apply app_eq_nil in Ep. destruct Ep as [E2 E3].
      split; [apply (Hpart "User notes: "), E1|].
      split; [apply (Hpart "Location: "), E2 | apply (Hpart "Additional info: "), E3].
    + intros (E1 & E2 & E3). subst parts.
      apply (Hpart "User notes: ") in E1. apply (Hpart "Location: ") in E2.
      apply (Hpart "Additional info: ") in E3. rewrite E1, E2, E3. reflexivity.
  - intros context E.
    assert (Hc : context = PyStr.join ". " parts).
    { destruct parts; [discriminate E|]. inversion E; subst. reflexivity. }
    subst context. split; [|split].
    + intros n Hn Hne. apply join_contains_member. subst parts.
      apply in_or_app. left.
      rewrite (proj2 (Hpart "User notes: " (user_notes s)) n Hn Hne). left. reflexivity.
    + intros l Hl Hne. apply join_contains_member. subst parts.
      apply in_or_app. right. apply in_or_app. left.
      rewrite (proj2 (Hpart "Location: " (location_data s)) l Hl Hne). left. reflexivity.
    + intros a Ha Hne. apply join_contains_member. subst parts.
      apply in_or_app. right. apply in_or_app. right.
      rewrite (proj2 (Hpart "Additional info: " additional) a Ha Hne). left. reflexivity.
Qed.

(** X28: a successful step advance seen from the endpoint.  For a stored
    session (filed under its own identifier) with instructions left, a
    request that names the current step is answered with the new step
    number, the total, the instruction at the new position and, as preview,
    the instruction after it when there is one; the stored session has moved
    by one step and kept its instructions and its status, and no other
    session has changed. *)
Theorem X28_advance_step_endpoint_success :
  forall (H : Host) (request : AdvanceStepRequest) (w : World) (s : EmergencySession),
    sessions w !! adv_session_id request = Some s ->
    session_id s = adv_session_id request ->
    0 <= current_step s < n_instructions s ->
    adv_current_step request = current_step s ->
    exists w' s' i,
      EmergencyController.advance_step H request w
      = (Return (CurrentInstruction (current_step s + 1) (n_instructions s) (Some i)
                   (instructions s !! Z.to_nat (current_step s + 1))), w')
      /\ instructions s !! Z.to_nat (current_step s) = Some i
      /\ sessions w' !! adv_session_id request = Some s'
      /\ current_step s' = current_step s + 1
      /\ instructions s' = instructions s
      /\ status s' = status s
      /\ (forall sid, sid <> adv_session_id request ->
            sessions w' !! sid = sessions w !! sid).
Proof.
  intros H request w s E Hid [Hlo Hhi] Hclaim.
  assert (Hne : instructions s <> []).
  { intros En. unfold n_instructions in Hhi. rewrite En in Hhi. simpl in Hhi. lia. }
  unfold EmergencyController.advance_step, http_guard, get_session, on_session.
  unfold_py. rewrite E, Hclaim, Z.eqb_refl. simpl.
  rewrite (advance_instruction_next H (adv_feedback request) s (sys w) Hne Hhi). simpl.
  unfold update_session. simpl. rewrite Hid, lookup_insert_eq. simpl.
  rewrite !insert_insert_eq.
  match goal with
  | |- context [get_current_instruction ?s2] =>
      destruct (get_current_instruction_in_range s2) as (i & Hi & Hat);
        [unfold n_instructions in *; simpl; lia|]
  end.
  rewrite Hi. simpl in Hat.
  replace (current_step s + 1 - 1) with (current_step s) in Hat by lia.
  assert (Hnext : (if current_step s + 1 <? n_instructions s
                   then instructions s !! Z.to_nat (current_step s + 1)
                   else None)
                  = instructions s !! Z.to_nat (current_step s + 1)).
  { destruct (current_step s + 1 <? n_instructions s) eqn:El; [reflexivity|].
    apply Z.ltb_ge in El. symmetry. apply lookup_ge_None.
    unfold n_instructions in *. lia. }
  unfold n_instructions in *. simpl. unfold n_instructions in Hnext. rewrite Hnext.
  eexists _, _, i. split; [reflexivity|]. simpl.
  split; [exact Hat|]. split; [apply lookup_insert_eq|].
  repeat split; try reflexivity.
  intros sid Hsid. rewrite lookup_insert_ne by congruence. reflexivity.
Qed.

(** The theorem at the example scenario after the analysis: the first
    advance leads to the second and last instruction. *)
Lemma X28_advance_step_endpoint_success_witness :
  exists w' i,
    EmergencyController.advance_step scenario_host (advance_request 1)
      (run scenario_host [StartSession start_request; AnalyzeFrame "session-0" "AAAA"]
         initial_world)
    = (Return (CurrentInstruction 2 2 (Some i) None), w').
Proof.
  let v := eval vm_compute in
             (sessions (run scenario_host
                          [StartSession start_request; AnalyzeFrame "session-0" "AAAA"]
                          initial_world) !! "session-0") in
  assert (Hrun : sessions (run scenario_host
                             [StartSession start_request; AnalyzeFrame "session-0" "AAAA"]
                             initial_world) !! adv_session_id (advance_request 1) = v)
    by (vm_compute; reflexivity).
  match type of Hrun with
  | _ = Some ?s =>
      destruct (X28_advance_step_endpoint_success scenario_host (advance_request 1) _ s
                  Hrun) as (w' & s' & i & Hadv & _);
        [reflexivity | split; vm_compute; [discriminate | reflexivity] | reflexivity |];
      exists w', i; exact Hadv
  end.
Defined.

(** X29: when [analyze_frame] fails.  The emergency service raises from a
    frame analysis in one case only: the classifier raised an exception
    whose text, after "Analysis error: ", is longer than 1000 characters, so
    that the fallback analysis itself is refused; the exception is then the
    validation error of the analysis model on [additional_context].  In
    every other case the analysis returns. *)
Theorem X29_analyze_frame_fails_only_on_long_error_text :
  forall (H : Host) (frame_data : string) (user_context : option string)
         (s s' : EmergencySession) (k k' : Sys) (e : PyExc),
    analyze_frame H frame_data user_context (s, k) = (Raise e, (s', k')) ->
    e = ValidationError "EmergencyAnalysis" ["additional_context"]
    /\ exists e0 k0 k1,
         analyze_emergency_frame_body H frame_data (_build_context s user_context) k0
         = (Raise e0, k1)
         /\ (1000 < String.length ("Analysis error: " +:+ exc_str H e0))%nat.
Proof.
  intros H fd ctx s s' k k' e. rewrite analyze_frame_eq. cbv zeta.
  destruct (analyze_emergency_frame H fd _ _) as [[a|e1] k3] eqn:Ea.
  - destruct (generate_first_aid_instructions_returns H (emergency_type a) (severity a)
                (observations a) k3) as (l & k4 & Hg).
    rewrite Hg. discriminate.
  - intros R. inversion R; subst. clear R.
    unfold analyze_emergency_frame, try_except, lift_outcome in Ea.
    cbv beta iota zeta in Ea. unfold utcnow in Ea. cbv beta iota zeta in Ea.
    match type of Ea with
    | context [analyze_emergency_frame_body H fd ?c ?k0] =>
        destruct (analyze_emergency_frame_body H fd c k0) as [[a|e0] k1] eqn:Eb;
          [discriminate Ea|]
    end.
    destruct (le_lt_dec (String.length ("Analysis error: " +:+ exc_str H e0)) 1000)
      as [Hfit|Hlong].
    + rewrite (fallback_analysis_fits H e0 Hfit) in Ea. discriminate Ea.
    + rewrite (fallback_analysis_too_long H e0 Hlong) in Ea.
      inversion Ea; subst. split; [reflexivity|].
      eexists e0, _, _. split; [exact Eb | exact Hlong].
Qed.

(** The theorem at a classifier that raises with a text of a thousand
    characters. *)
Lemma X29_analyze_frame_fails_only_on_long_error_text_witness :
  exists e s' k',
    analyze_frame (reference_host [GenRaise (ApiError long_text)]) "AAAA" None
      (session_at_first_step, sys0) = (Raise e, (s', k'))
    /\ e = ValidationError "EmergencyAnalysis" ["additional_context"].
Proof.
  let v := eval vm_compute in
             (analyze_frame (reference_host [GenRaise (ApiError long_text)]) "AAAA" None
                (session_at_first_step, sys0)) in
  assert (Hrun : analyze_frame (reference_host [GenRaise (ApiError long_text)]) "AAAA" None
                   (session_at_first_step, sys0) = v) by (vm_compute; reflexivity).
  match type of Hrun with
  | _ = (Raise ?e, (?s', ?k')) =>
      exists e, s', k'; split; [exact Hrun|];
      exact (proj1 (X29_analyze_frame_fails_only_on_long_error_text _ _ _ _ _ _ _ _ Hrun))
  end.
Defined.
